(** * Statement parsers: line classification and date resolution

    A shallow embedding of [parsers/rakbank.py] and
    [parsers/emiratesislamic.py], with the Python built-ins they rely on
    ([str] methods, the [re] patterns, [float], [int],
    [datetime.strptime]), and the properties of the two line loops.

    Text is a Rocq [string]; case folding, white space and digits are
    those of the ASCII range, where every keyword, marker and pattern of
    the two parsers lives.  A [float] is its exact decimal value (binary
    rounding is not represented).  The helpers of [common.pdf_utils]
    ([open_pdf_safe], [normalize_date], [normalize_transactions],
    [summarize_transactions]) are not part of the two files: they are
    parameters of the parsers. *)

From Stdlib Require Import ZArith QArith List String Ascii Bool Lia.
From stdpp Require Import base strings gmap.
Import ListNotations.

Open Scope string_scope.
Open Scope list_scope.
Open Scope nat_scope.

(** ** Python [str] methods *)

Module Py.

Definition in_range (lo hi : nat) (a : ascii) : bool :=
  let n := nat_of_ascii a in (lo <=? n) && (n <=? hi).

(** [str.isspace] on one character: TAB..CR, FS..US and the space. *)
Definition isspace (a : ascii) : bool := in_range 9 13 a || in_range 28 32 a.

Definition isdigit (a : ascii) : bool := in_range 48 57 a.
Definition isupper (a : ascii) : bool := in_range 65 90 a.
Definition islower (a : ascii) : bool := in_range 97 122 a.

Definition lower_char (a : ascii) : ascii :=
  if isupper a then ascii_of_nat (nat_of_ascii a + 32) else a.

Definition upper_char (a : ascii) : ascii :=
  if islower a then ascii_of_nat (nat_of_ascii a - 32) else a.

(** [s.lower()] *)
Fixpoint lower (s : string) : string :=
  match s with
  | EmptyString => EmptyString
  | String a s' => String (lower_char a) (lower s')
  end.

Fixpoint lstrip_with (p : ascii -> bool) (s : string) : string :=
  match s with
  | EmptyString => EmptyString
  | String a s' => if p a then lstrip_with p s' else s
  end.

Fixpoint rstrip_with (p : ascii -> bool) (s : string) : string :=
  match s with
  | EmptyString => EmptyString
  | String a s' =>
      let t := rstrip_with p s' in
      if (t =? "")%string && p a then EmptyString else String a t
  end.

(** [s.strip()] *)
Definition strip (s : string) : string :=
  rstrip_with isspace (lstrip_with isspace s).

Fixpoint mem_char (a : ascii) (chars : string) : bool :=
  match chars with
  | EmptyString => false
  | String b cs => Ascii.eqb a b || mem_char a cs
  end.

(** [s.strip(chars)] *)
Definition strip_chars (chars s : string) : string :=
  rstrip_with (fun a => mem_char a chars)
    (lstrip_with (fun a => mem_char a chars) s).

(** [needle in hay] *)
Fixpoint contains (needle hay : string) : bool :=
  String.prefix needle hay
  || match hay with
     | EmptyString => false
     | String _ h => contains needle h
     end.

(** [any(k in s for k in keys)] *)
Definition any_in (keys : list string) (s : string) : bool :=
  existsb (fun k => contains k s) keys.

(** [s.replace(old, new)], for a non-empty [old] (every call site passes
    a non-empty constant): occurrences are replaced from left to right
    and do not overlap; [skip] counts the characters of a replaced
    occurrence that are still to be dropped. *)
Fixpoint replace_from (old new : string) (skip : nat) (s : string) : string :=
  match s with
  | EmptyString => EmptyString
  | String a s' =>
      match skip with
      | S k => replace_from old new k s'
      | O =>
          if String.prefix old s
          then new +:+ replace_from old new (String.length old - 1) s'
          else String a (replace_from old new 0 s')
      end
  end.

Definition replace (old new s : string) : string := replace_from old new 0 s.

(** Line boundaries of [str.splitlines]: LF, VT, FF, CR, FS, GS, RS. *)
Definition is_linebreak (a : ascii) : bool :=
  in_range 10 13 a || in_range 28 30 a.

Definition starts_with_lf (s : string) : bool :=
  match s with
  | String a _ => Ascii.eqb a "010"%char
  | EmptyString => false
  end.

(** [s.splitlines()]: a CR directly followed by LF is one boundary (the
    CR is dropped and the LF ends the line); a final boundary opens no
    empty last line. *)
Fixpoint splitlines (s : string) : list string :=
  match s with
  | EmptyString => []
  | String a s' =>
      if Ascii.eqb a "013"%char && starts_with_lf s' then splitlines s'
      else if is_linebreak a then EmptyString :: splitlines s'
      else match splitlines s' with
           | [] => [String a EmptyString]
           | l :: ls => String a l :: ls
           end
  end.

(** [sep.join(l)] *)
Fixpoint join (sep : string) (l : list string) : string :=
  match l with
  | [] => EmptyString
  | [x] => x
  | x :: xs => x +:+ sep +:+ join sep xs
  end.

(** Truth value of a [str | None]: [None] and the empty string are false. *)
Definition truthy (o : option string) : bool :=
  match o with
  | Some s => negb (s =? "")%string
  | None => false
  end.

(** [s[:n]] *)
Fixpoint take (n : nat) (s : string) : string :=
  match n, s with
  | S k, String a s' => String a (take k s')
  | _, _ => EmptyString
  end.

(** Exceptions the two parsers can let escape. *)
Inductive exn : Type := ValueError | TypeError.

(** A computation that returns or raises. *)
Inductive res (A : Type) : Type :=
| Ok (a : A)
| Raise (e : exn).
Arguments Ok {A} a.
Arguments Raise {A} e.

Definition bind {A B : Type} (m : res A) (f : A -> res B) : res B :=
  match m with
  | Ok a => f a
  | Raise e => Raise e
  end.

End Py.

Notation "'do' x <- m ; k" := (Py.bind m (fun x => k))
  (at level 10, x name, m at level 100, k at level 200).

(** ** The fragment of Python's [re] used by the parsers

    A backtracking matcher in continuation-passing style: alternatives
    are tried left to right, greedy repetitions try one more iteration
    first and lazy ones try the rest of the pattern first, so the match
    found and its groups are those of [re]. *)

Module Re.

Inductive regex : Type :=
| Eps
| Chr (p : ascii -> bool)
| Seq (r1 r2 : regex)
| Alt (r1 r2 : regex)
| Star (greedy : bool) (r : regex)
| Group (i : nat) (r : regex)
| Bol
| Eol.

(** Groups that took part in the match, most recent first. *)
Definition caps : Type := list (nat * string).

Fixpoint group (c : caps) (i : nat) : option string :=
  match c with
  | [] => None
  | (j, s) :: c' => if Nat.eqb i j then Some s else group c' i
  end.

(** [$] matches at the end and before a final newline. *)
Definition at_eol (s : string) : bool :=
  match s with
  | EmptyString => true
  | String a EmptyString => Ascii.eqb a "010"%char
  | _ => false
  end.

Section Matcher.
  (** Length of the whole subject, to recognise its start. *)
Variable len0 : nat.

Let K : Type := string -> caps -> option (string * caps).

Fixpoint run (r : regex) (s : string) (c : caps) (k : K)
    : option (string * caps) :=
    match r with
    | Eps => k s c
    | Chr p =>
        match s with
        | String a s' => if p a then k s' c else None
        | EmptyString => None
        end
    | Seq r1 r2 => run r1 s c (fun s' c' => run r2 s' c' k)
    | Alt r1 r2 =>
        match run r1 s c k with
        | Some x => Some x
        | None => run r2 s c k
        end
    | Star greedy r1 =>
        (fix loop (fuel : nat) (s : string) (c : caps) {struct fuel}
           : option (string * caps) :=
           match fuel with
           | O => k s c
           | S fuel' =>
               let again (_ : unit) :=
                 run r1 s c (fun s' c' =>
                   if String.length s' <? String.length s
                   then loop fuel' s' c' else None) in
               if greedy then
                 match again tt with
                 | Some x => Some x
                 | None => k s c
                 end
               else
                 match k s c with
                 | Some x => Some x
                 | None => again tt
                 end
           end) (String.length s) s c
    | Group i r1 =>
        run r1 s c (fun s' c' =>
          k s' ((i, Py.take (String.length s - String.length s') s) :: c'))
    | Bol => if String.length s =? len0 then k s c else None
    | Eol => if at_eol s then k s c else None
    end.
End Matcher.

(** [pattern.match(s)]: the text left after the match and the groups. *)
Definition match_ (r : regex) (s : string) : option (string * caps) :=
  run (String.length s) r s [] (fun s' c' => Some (s', c')).

(** [pattern.search(s)]: the leftmost start at which the pattern matches. *)
Fixpoint search_from (len0 : nat) (r : regex) (s : string)
  : option (string * caps) :=
  match run len0 r s [] (fun s' c' => Some (s', c')) with
  | Some x => Some x
  | None =>
      match s with
      | EmptyString => None
      | String _ s' => search_from len0 r s'
      end
  end.

Definition search (r : regex) (s : string) : option (string * caps) :=
  search_from (String.length s) r s.

(** [pattern.sub(repl, s)] where [repl] builds the replacement from the
    groups; none of the patterns substituted here matches the empty
    string, and [skip] counts the characters of a replaced match still
    to be dropped. *)
Fixpoint sub_from (len0 : nat) (r : regex) (repl : caps -> string)
    (skip : nat) (s : string) : string :=
  match s with
  | EmptyString => EmptyString
  | String a s' =>
      match skip with
      | S k => sub_from len0 r repl k s'
      | O =>
          match run len0 r s [] (fun t c => Some (t, c)) with
          | Some (t, c) =>
              if String.length t <? String.length s
              then repl c +:+
                   sub_from len0 r repl
                     (String.length s - String.length t - 1) s'
              else String a (sub_from len0 r repl 0 s')
          | None => String a (sub_from len0 r repl 0 s')
          end
      end
  end.

Definition sub (r : regex) (repl : caps -> string) (s : string) : string :=
  sub_from (String.length s) r repl 0 s.

(** *** Pattern syntax *)

(** A literal character; under [re.IGNORECASE] both cases match. *)
Definition chr (ic : bool) (a : ascii) : regex :=
  Chr (fun b =>
         if ic then Ascii.eqb (Py.lower_char b) (Py.lower_char a)
         else Ascii.eqb b a).

(** A character range such as [[A-Z]]. *)
Definition rng (ic : bool) (lo hi : ascii) : regex :=
  let inside b := Py.in_range (nat_of_ascii lo) (nat_of_ascii hi) b in
  Chr (fun b =>
         if ic then inside (Py.lower_char b) || inside (Py.upper_char b)
         else inside b).

Fixpoint lit (ic : bool) (s : string) : regex :=
  match s with
  | EmptyString => Eps
  | String a EmptyString => chr ic a
  | String a s' => Seq (chr ic a) (lit ic s')
  end.

(** [\d], [\s], [.] and the class [[\d,]]. *)
Definition digit : regex := Chr Py.isdigit.
Definition space : regex := Chr Py.isspace.
Definition dot : regex := Chr (fun a => negb (Ascii.eqb a "010"%char)).
Definition digit_or_comma : regex :=
  Chr (fun a => Py.isdigit a || Ascii.eqb a ","%char).

Definition plus (r : regex) : regex := Seq r (Star true r).
Definition plus_lazy (r : regex) : regex := Seq r (Star false r).
Definition star (r : regex) : regex := Star true r.
Definition opt (r : regex) : regex := Alt r Eps.

Fixpoint seqs (l : list regex) : regex :=
  match l with
  | [] => Eps
  | [r] => r
  | r :: l' => Seq r (seqs l')
  end.

Fixpoint alts (l : list regex) : regex :=
  match l with
  | [] => Chr (fun _ => false)
  | [r] => r
  | r :: l' => Alt r (alts l')
  end.

(** [r{n}] *)
Fixpoint rep (n : nat) (r : regex) : regex :=
  match n with
  | O => Eps
  | S O => r
  | S k => Seq r (rep k r)
  end.

(** [r{0,n}], greedy *)
Fixpoint upto (n : nat) (r : regex) : regex :=
  match n with
  | O => Eps
  | S k => opt (Seq r (upto k r))
  end.

(** [r{m,n}] *)
Definition between (m n : nat) (r : regex) : regex :=
  match m with
  | O => upto n r
  | _ => Seq (rep m r) (upto (n - m) r)
  end.

End Re.

(** ** [float(str)] and [int(str)] *)

Module Num.

(** A Python [float]: a finite value, an infinity or a NaN. *)
Inductive float : Type :=
| Finite (q : Q)
| Infinite (negative : bool)
| NaN.

(** The literal [0.0]. *)
Definition zero : float := Finite 0.

(** [x == 0] (true for [0.0] and for every other rendering of zero). *)
Definition is_zero (x : float) : bool :=
  match x with
  | Finite q => Qeq_bool q 0
  | _ => false
  end.

(** [x == y], on floats *)
Definition feq (x y : float) : bool :=
  match x, y with
  | Finite p, Finite q => Qeq_bool p q
  | Infinite a, Infinite b => Bool.eqb a b
  | _, _ => false
  end.

Definition digit_val (a : ascii) : Z := Z.of_nat (nat_of_ascii a) - 48.

(** Value of a string of digits; underscores between digits are skipped. *)
Fixpoint digits_val (acc : Z) (s : string) : Z :=
  match s with
  | EmptyString => acc
  | String a s' =>
      if Py.isdigit a then digits_val (10 * acc + digit_val a) s'
      else digits_val acc s'
  end.

Fixpoint count_digits (s : string) : nat :=
  match s with
  | EmptyString => 0
  | String a s' => (if Py.isdigit a then 1 else 0) + count_digits s'
  end.

(** [digitpart ::= digit (["_"] digit)*] *)
Definition digitpart : Re.regex :=
  Re.Seq Re.digit (Re.star (Re.Seq (Re.opt (Re.chr false "_")) Re.digit)).

Definition sign : Re.regex :=
  Re.opt (Re.Chr (fun a => Ascii.eqb a "+" || Ascii.eqb a "-")).

(** [[sign] ([digitpart] "." digitpart | digitpart ["."]) [exponent]] *)
Definition FLOAT_RE : Re.regex :=
  Re.seqs
    [Re.Bol; Re.Group 1 sign;
     Re.Alt
       (Re.seqs [Re.opt (Re.Group 2 digitpart); Re.chr false ".";
                 Re.Group 3 digitpart])
       (Re.seqs [Re.Group 2 digitpart; Re.opt (Re.chr false ".")]);
     Re.opt (Re.seqs [Re.chr true "e"; Re.Group 4 sign; Re.Group 5 digitpart]);
     Re.Eol].

(** [[sign] ("inf" | "infinity" | "nan")], in any case *)
Definition SPECIAL_RE : Re.regex :=
  Re.seqs
    [Re.Bol; Re.Group 1 sign;
     Re.Alt (Re.Group 2 (Re.Seq (Re.lit true "inf") (Re.opt (Re.lit true "inity"))))
            (Re.Group 3 (Re.lit true "nan"));
     Re.Eol].

Definition text (o : option string) : string :=
  match o with Some s => s | None => EmptyString end.

Definition is_minus (o : option string) : bool :=
  match o with Some s => (s =? "-")%string | None => false end.

(** Exact value of [mant * 10^e]. *)
Definition scale10 (mant e : Z) : Q :=
  if (0 <=? e)%Z then inject_Z (mant * 10 ^ e)
  else Qred (Qmake mant (Z.to_pos (10 ^ (- e)))).

(** The white space that [float] and [int] ignore around a literal:
    TAB..CR and the space.  FS..US, which [str.strip] removes, are not
    part of it: [float] and [int] raise on them. *)
Definition is_blank (a : ascii) : bool :=
  Py.in_range 9 13 a || Ascii.eqb a " ".

Definition trim (s : string) : string :=
  Py.rstrip_with is_blank (Py.lstrip_with is_blank s).

(** [float(s)]: white space around the literal is ignored; anything that
    is not a float literal raises [ValueError]. *)
Definition float_of_str (s : string) : Py.res float :=
  let t := trim s in
  match Re.match_ FLOAT_RE t with
  | Some (_, g) =>
      let ip := text (Re.group g 2) in
      let fp := text (Re.group g 3) in
      let ex := digits_val 0 (text (Re.group g 5)) in
      let ex := if is_minus (Re.group g 4) then (- ex)%Z else ex in
      let mant := digits_val (digits_val 0 ip) fp in
      let mant := if is_minus (Re.group g 1) then (- mant)%Z else mant in
      Py.Ok (Finite (scale10 mant (ex - Z.of_nat (count_digits fp))))
  | None =>
      match Re.match_ SPECIAL_RE t with
      | Some (_, g) =>
          match Re.group g 3 with
          | Some _ => Py.Ok NaN
          | None => Py.Ok (Infinite (is_minus (Re.group g 1)))
          end
      | None => Py.Raise Py.ValueError
      end
  end.

(** [[sign] digitpart] *)
Definition INT_RE : Re.regex :=
  Re.seqs [Re.Bol; Re.Group 1 sign; Re.Group 2 digitpart; Re.Eol].

(** [int(s)] in base ten *)
Definition int_of_str (s : string) : Py.res Z :=
  let t := trim s in
  match Re.match_ INT_RE t with
  | Some (_, g) =>
      let v := digits_val 0 (text (Re.group g 2)) in
      Py.Ok (if is_minus (Re.group g 1) then (- v)%Z else v)
  | None => Py.Raise Py.ValueError
  end.

End Num.

(** ** [datetime]: [strptime], [replace(year=...)], [isoformat], [strftime] *)

Module Date.

Record date : Type := { year : Z; month : Z; day : Z }.

Definition is_leap (y : Z) : bool :=
  ((y mod 4 =? 0) && negb (y mod 100 =? 0) || (y mod 400 =? 0))%Z.

Definition days_in_month (y m : Z) : Z :=
  if (m =? 2)%Z then (if is_leap y then 29 else 28)%Z
  else if ((m =? 4) || (m =? 6) || (m =? 9) || (m =? 11))%Z then 30%Z
  else 31%Z.

(** The checks of the [datetime] constructor. *)
Definition valid (y m d : Z) : bool :=
  ((1 <=? y) && (y <=? 9999) && (1 <=? m) && (m <=? 12)
   && (1 <=? d) && (d <=? days_in_month y m))%Z.

Definition make (y m d : Z) : Py.res date :=
  if valid y m d then Py.Ok {| year := y; month := m; day := d |}
  else Py.Raise Py.ValueError.

(** [dt.replace(year=y)] *)
Definition replace_year (dt : date) (y : Z) : Py.res date :=
  make y (month dt) (day dt).

Definition digit_char (n : Z) : ascii :=
  ascii_of_nat (48 + Z.to_nat (n mod 10)).

Definition pad2 (n : Z) : string :=
  String (digit_char (n / 10)) (String (digit_char n) EmptyString).

Definition pad4 (n : Z) : string :=
  String (digit_char (n / 1000)) (String (digit_char (n / 100)) (pad2 n)).

(** [dt.isoformat()] of a date: the year on four digits. *)
Definition isoformat (dt : date) : string :=
  pad4 (year dt) +:+ "-" +:+ pad2 (month dt) +:+ "-" +:+ pad2 (day dt).

(** The year as [%Y] of [strftime] renders it (the C library's): in
    decimal, without leading zeros. *)
Definition year_text (y : Z) : string :=
  if (y <? 10)%Z then String (digit_char y) EmptyString
  else if (y <? 100)%Z then pad2 y
  else if (y <? 1000)%Z then String (digit_char (y / 100)) (pad2 y)
  else pad4 y.

(** [dt.strftime("%Y-%m-%d")]: as [isoformat] from the year 1000 on; a
    year below 1000 is not padded. *)
Definition strftime (dt : date) : string :=
  year_text (year dt) +:+ "-" +:+ pad2 (month dt) +:+ "-" +:+ pad2 (day dt).

(** Month names of the C locale, as [_strptime] tries them: the
    abbreviations in calendar order, the full names longest first. *)
Definition a_month : list string :=
  ["jan"; "feb"; "mar"; "apr"; "may"; "jun";
   "jul"; "aug"; "sep"; "oct"; "nov"; "dec"].

Definition f_month : list string :=
  ["january"; "february"; "march"; "april"; "may"; "june";
   "july"; "august"; "september"; "october"; "november"; "december"].

Definition f_month_by_length : list string :=
  ["september"; "february"; "november"; "december"; "january"; "october";
   "august"; "march"; "april"; "june"; "july"; "may"].

(** [names.index(s) + 1] *)
Fixpoint month_index (names : list string) (s : string) (i : Z) : option Z :=
  match names with
  | [] => None
  | n :: ns => if (n =? s)%string then Some i else month_index ns s (i + 1)%Z
  end.

Definition d19 : Re.regex := Re.rng false "1" "9".

(** Group numbers of the directives. *)
Definition G_d := 1.
Definition G_m := 2.
Definition G_b := 3.
Definition G_B := 4.
Definition G_Y := 5.

(** The pattern of one directive, as [_strptime.TimeRE] defines it. *)
Definition directive (c : ascii) : option Re.regex :=
  if Ascii.eqb c "d" then
    Some (Re.Group G_d (Re.alts
      [Re.Seq (Re.chr false "3") (Re.rng false "0" "1");
       Re.Seq (Re.rng false "1" "2") Re.digit;
       Re.Seq (Re.chr false "0") d19;
       d19;
       Re.Seq (Re.chr false " ") d19]))
  else if Ascii.eqb c "m" then
    Some (Re.Group G_m (Re.alts
      [Re.Seq (Re.chr false "1") (Re.rng false "0" "2");
       Re.Seq (Re.chr false "0") d19;
       d19]))
  else if Ascii.eqb c "b" then
    Some (Re.Group G_b (Re.alts (map (Re.lit true) a_month)))
  else if Ascii.eqb c "B" then
    Some (Re.Group G_B (Re.alts (map (Re.lit true) f_month_by_length)))
  else if Ascii.eqb c "Y" then
    Some (Re.Group G_Y (Re.rep 4 Re.digit))
  else None.

(** The pattern of a format: directives, [\s+] for a run of white
    space, every other character literally (under [re.IGNORECASE]). *)
Fixpoint format_regex (fmt : string) : option Re.regex :=
  match fmt with
  | EmptyString => Some Re.Eps
  | String "%" (String c rest) =>
      match directive c, format_regex rest with
      | Some r, Some r' => Some (Re.Seq r r')
      | _, _ => None
      end
  | String a rest =>
      match format_regex rest with
      | Some r' =>
          if Py.isspace a then
            match rest with
            | String b _ =>
                if Py.isspace b then Some r'
                else Some (Re.Seq (Re.plus Re.space) r')
            | EmptyString => Some (Re.Seq (Re.plus Re.space) r')
            end
          else Some (Re.Seq (Re.chr true a) r')
      | None => None
      end
  end.

Definition number (o : option string) (default : Z) : Z :=
  match o with
  | Some s => Num.digits_val 0 (Py.lstrip_with Py.isspace s)
  | None => default
  end.

(** [datetime.strptime(s, fmt)]: the pattern must match at the start of
    [s] and leave nothing over, and the fields must make a date. *)
Definition strptime (s fmt : string) : Py.res date :=
  match format_regex fmt with
  | None => Py.Raise Py.ValueError
  | Some r =>
      match Re.match_ r s with
      | Some (EmptyString, g) =>
          let y := number (Re.group g G_Y) 1900 in
          let d := number (Re.group g G_d) 1 in
          let m :=
            match Re.group g G_b, Re.group g G_B with
            | Some b, _ => month_index a_month (Py.lower b) 1
            | None, Some b => month_index f_month (Py.lower b) 1
            | None, None => Some (number (Re.group g G_m) 1)
            end in
          match m with
          | Some m => make y m d
          | None => Py.Raise Py.ValueError
          end
      | _ => Py.Raise Py.ValueError
      end
  end.

End Date.

(** ** Data shared by the two parsers *)

Module Common.

(** A transaction, as the parsers build it; the balance and the
    foreign-exchange fields are present on some shapes only. *)
Record Transaction : Type := {
  transaction_date : option string;
  description : string;
  debit : Num.float;
  credit : Num.float;
  amount : Num.float;
  balance : option Num.float;
  bank : string;
  card_type : string;
  fx_currency : option string;
  fx_amount : option Num.float;
  fx_rate : option Num.float
}.

(** What [open_pdf_safe] returns: a dict (the error dict) or a document,
    here the text [extract_text()] gives for each page ([None] when the
    page has none). *)
Inductive opened : Type :=
| OpenedDict (d : gmap string string)
| OpenedPdf (pages : list (option string)).

(** The dict a parser returns on success. *)
Record statement (S : Type) : Type := {
  st_bank : string;
  st_card_type : string;
  st_summary : S;
  st_transactions : list Transaction;
  st_from_date : option string;
  st_to_date : option string
}.
Arguments st_bank {S} _.
Arguments st_card_type {S} _.
Arguments st_summary {S} _.
Arguments st_transactions {S} _.
Arguments st_from_date {S} _.
Arguments st_to_date {S} _.

(** The value of a parse call: the error dict handed back, or a statement. *)
Inductive outcome (S : Type) : Type :=
| Failure (d : gmap string string)
| Parsed (r : statement S).
Arguments Failure {S} d.
Arguments Parsed {S} r.

(** [page.extract_text() or ""] *)
Definition page_text (p : option string) : string :=
  match p with
  | Some t => t
  | None => EmptyString
  end.

(** A [for] loop over lines whose body may raise. *)
Fixpoint for_each {St : Type} (body : St -> string -> Py.res St)
    (st : St) (lines : list string) : Py.res St :=
  match lines with
  | [] => Py.Ok st
  | l :: ls => do st' <- body st l; for_each body st' ls
  end.

(** A group that takes part in every match of its pattern. *)
Definition grp (g : Re.caps) (i : nat) : string :=
  match Re.group g i with
  | Some s => s
  | None => EmptyString
  end.

End Common.

(** ** [parsers/rakbank.py] *)

Module Rakbank.
Import Common.

Definition BANK_NAME : string := "RAKBANK".
Definition CARD_TYPE : string := "credit".

(** [\d{1,2}/\d{1,2}/\d{4}] *)
Definition short_date : Re.regex :=
  Re.seqs [Re.between 1 2 Re.digit; Re.chr false "/";
           Re.between 1 2 Re.digit; Re.chr false "/"; Re.rep 4 Re.digit].

Definition STATEMENT_PERIOD_RE : Re.regex :=
  Re.seqs [Re.Group 1 short_date; Re.star Re.space;
           Re.alts [Re.lit false "to"; Re.lit false "TO"; Re.lit false "To"];
           Re.star Re.space; Re.Group 2 short_date].

(** [\d{2}/\d{2}/\d{4}] *)
Definition long_date : Re.regex :=
  Re.seqs [Re.rep 2 Re.digit; Re.chr true "/"; Re.rep 2 Re.digit;
           Re.chr true "/"; Re.rep 4 Re.digit].

(** [(?:\s*((?:CR|Cr)))?] with group [i] *)
Definition cr_flag (i : nat) : Re.regex :=
  Re.opt (Re.Seq (Re.star Re.space)
            (Re.Group i (Re.Alt (Re.lit true "CR") (Re.lit true "Cr")))).

(** The AED line; the dot of the two amounts is not escaped and stands
    for any character. *)
Definition RAKBANK_LINE_REGEX : Re.regex :=
  Re.seqs
    [Re.Bol; Re.Group 1 long_date; Re.plus Re.space;
     Re.Group 2 (Re.plus_lazy Re.dot); Re.plus Re.space;
     Re.lit true "AED"; Re.plus Re.space;
     Re.Group 3 (Re.seqs [Re.plus Re.digit_or_comma; Re.dot; Re.rep 2 Re.digit]);
     cr_flag 4; Re.plus Re.space;
     Re.chr true "-"; Re.plus Re.space;
     Re.Group 5 (Re.seqs [Re.plus Re.digit_or_comma; Re.dot; Re.rep 2 Re.digit]);
     cr_flag 6; Re.star Re.space; Re.Eol].

(** [[\d,]+\.\d{2}] *)
Definition money : Re.regex :=
  Re.seqs [Re.plus Re.digit_or_comma; Re.chr true "."; Re.rep 2 Re.digit].

Definition RAKBANK_FX_REGEX : Re.regex :=
  Re.seqs
    [Re.Bol; Re.Group 1 long_date; Re.plus Re.space;
     Re.Group 2 (Re.rep 3 (Re.rng true "A" "Z")); Re.plus Re.space;
     Re.Group 3 money; Re.plus Re.space;
     Re.Group 4 money; Re.plus Re.space;
     Re.Group 5 money; cr_flag 6; Re.Eol].

Definition SKIP_KEYWORDS : list string :=
  ["opening balance"; "closing balance"; "available credit";
   "minimum payment due"; "payment due date"; "credit limit"].

Definition DROP_HINTS : list string :=
  ["your credit card statement"; "statement period"; "product name";
   "card number"; "page["].

(** [clean_amount]: [float] is not guarded, so a token that is not a
    float literal raises. *)
Definition clean_amount (val : option string) : Py.res Num.float :=
  match val with
  | None => Py.Ok Num.zero
  | Some v =>
      if (v =? "")%string then Py.Ok Num.zero
      else Num.float_of_str
             (Py.strip (Py.replace "Cr" "" (Py.replace "CR" "" (Py.replace "," "" v))))
  end.

(** The variables of the loop: the three of the call and the buffer of
    the page. *)
Record state : Type := {
  transactions : list Transaction;
  statement_from : option string;
  statement_to : option string;
  buffer_desc : list string
}.

Definition initial : state :=
  {| transactions := []; statement_from := None; statement_to := None;
     buffer_desc := [] |}.

(** [[ln.strip() for ln in text.splitlines() if ln.strip()]] *)
Definition page_lines (text : string) : list string :=
  map Py.strip
    (filter (fun ln => negb (Py.strip ln =? "")%string) (Py.splitlines text)).

Section Parser.
Variable S : Type.
Variable open_pdf_safe : string -> option string -> opened.
Variable normalize_date : string -> string -> option string.
Variable normalize_transactions :
    list Transaction -> string -> string -> list Transaction.
Variable summarize_transactions : list Transaction -> S.

  (** The buffer a transaction takes: dropped when its text holds a hint. *)
Definition kept_buffer (buf : list string) : list string :=
    if Py.any_in DROP_HINTS (Py.lower (Py.join " " buf)) then [] else buf.

Definition is_credit_desc (full_desc : string) : bool :=
    let desc_low := Py.lower full_desc in
    Py.contains "payment" desc_low || Py.contains "refund" desc_low.

  (** The body of [for raw in lines]. *)
Definition step (st : state) (raw : string) : Py.res state :=
    let low := Py.lower raw in
    if Py.any_in SKIP_KEYWORDS low then Py.Ok st
    else if Py.contains "statement period" low then
      match Re.search STATEMENT_PERIOD_RE raw with
      | Some (_, g) =>
          Py.Ok {| transactions := transactions st;
                   statement_from :=
                     normalize_date (Py.replace " " "" (grp g 1)) "%d/%m/%Y";
                   statement_to :=
                     normalize_date (Py.replace " " "" (grp g 2)) "%d/%m/%Y";
                   buffer_desc := buffer_desc st |}
      | None => Py.Ok st
      end
    else
      match Re.match_ RAKBANK_LINE_REGEX raw with
      | Some (_, g) =>
          let full_desc :=
            Py.strip (Py.join " " (kept_buffer (buffer_desc st)
                                     ++ [Py.strip (grp g 2)])) in
          do amt_val <- clean_amount (Re.group g 3);
          do balance_val <- clean_amount (Re.group g 5);
          let has_cr_flag :=
            Py.truthy (Re.group g 4) || Py.truthy (Re.group g 6) in
          let is_credit := has_cr_flag || is_credit_desc full_desc in
          Py.Ok {| transactions := transactions st ++
                     [{| transaction_date := normalize_date (grp g 1) "%d/%m/%Y";
                         description := full_desc;
                         debit := if is_credit then Num.zero else amt_val;
                         credit := if is_credit then amt_val else Num.zero;
                         amount := amt_val;
                         balance := Some balance_val;
                         bank := BANK_NAME;
                         card_type := CARD_TYPE;
                         fx_currency := None;
                         fx_amount := None;
                         fx_rate := None |}];
                   statement_from := statement_from st;
                   statement_to := statement_to st;
                   buffer_desc := [] |}
      | None =>
          match Re.match_ RAKBANK_FX_REGEX raw with
          | Some (_, g) =>
              let full_desc :=
                Py.strip (Py.join " " (kept_buffer (buffer_desc st))) in
              do fx_amt_val <- clean_amount (Re.group g 3);
              do fx_rate_val <- clean_amount (Re.group g 4);
              do aed_val <- clean_amount (Re.group g 5);
              let is_credit :=
                Py.truthy (Re.group g 6) || is_credit_desc full_desc in
              Py.Ok {| transactions := transactions st ++
                         [{| transaction_date :=
                               normalize_date (grp g 1) "%d/%m/%Y";
                             description := full_desc;
                             debit := if is_credit then Num.zero else aed_val;
                             credit := if is_credit then aed_val else Num.zero;
                             amount := aed_val;
                             balance := None;
                             bank := BANK_NAME;
                             card_type := CARD_TYPE;
                             fx_currency := Some (grp g 2);
                             fx_amount := Some fx_amt_val;
                             fx_rate := Some fx_rate_val |}];
                       statement_from := statement_from st;
                       statement_to := statement_to st;
                       buffer_desc := [] |}
          | None =>
              Py.Ok {| transactions := transactions st;
                       statement_from := statement_from st;
                       statement_to := statement_to st;
                       buffer_desc := buffer_desc st ++ [raw] |}
          end
      end.

  (** The body of [for page in pdf.pages]: the buffer starts empty. *)
Definition page_step (st : state) (page : option string) : Py.res state :=
    for_each step
      {| transactions := transactions st;
         statement_from := statement_from st;
         statement_to := statement_to st;
         buffer_desc := [] |}
      (page_lines (page_text page)).

Fixpoint pages_loop (st : state) (pages : list (option string))
    : Py.res state :=
    match pages with
    | [] => Py.Ok st
    | p :: ps => do st' <- page_step st p; pages_loop st' ps
    end.

Definition parse_rakbank (file_path : string) (password : option string)
    : Py.res (outcome S) :=
    match open_pdf_safe file_path password with
    | OpenedDict d =>
        match d !! "error" with
        | Some _ => Py.Ok (Failure d)
        | None => Py.Raise Py.TypeError
        end
    | OpenedPdf pages =>
        do st <- pages_loop initial pages;
        let normalized :=
          normalize_transactions (transactions st) BANK_NAME CARD_TYPE in
        Py.Ok (Parsed {| st_bank := BANK_NAME;
                         st_card_type := CARD_TYPE;
                         st_summary := summarize_transactions normalized;
                         st_transactions := normalized;
                         st_from_date := statement_from st;
                         st_to_date := statement_to st |})
    end.
End Parser.

End Rakbank.
(** ** [parsers/emiratesislamic.py] *)

Module EmiratesIslamic.
Import Common.

Definition BANK_NAME : string := "Emirates Islamic".
Definition CARD_TYPE : string := "credit".

(** [\d{2}\s+[A-Z]{3}] *)
Definition day_month : Re.regex :=
  Re.seqs [Re.rep 2 Re.digit; Re.plus Re.space; Re.rep 3 (Re.rng true "A" "Z")].

Definition LINE_REGEX : Re.regex :=
  Re.seqs
    [Re.Bol; Re.Group 1 day_month; Re.plus Re.space;
     Re.Group 2 day_month; Re.plus Re.space;
     Re.Group 3 (Re.plus_lazy Re.dot); Re.plus Re.space;
     Re.Group 4 (Re.seqs [Re.plus Re.digit_or_comma; Re.chr true ".";
                          Re.rep 2 Re.digit]);
     Re.opt (Re.Group 5 (Re.lit true "CR")); Re.Eol].

(** [(?:st|nd|rd|th)] *)
Definition ordinal : Re.regex :=
  Re.alts [Re.lit true "st"; Re.lit true "nd"; Re.lit true "rd"; Re.lit true "th"].

Definition letter : Re.regex :=
  Re.Alt (Re.rng true "A" "Z") (Re.rng true "a" "z").

Definition FROM_TO_REGEX : Re.regex :=
  Re.seqs
    [Re.Bol; Re.star Re.space;
     Re.Group 1 (Re.Alt (Re.lit true "From") (Re.lit true "To"));
     Re.star Re.space; Re.opt (Re.chr true ":"); Re.star Re.space;
     Re.Group 2 (Re.seqs [Re.between 1 2 Re.digit; Re.opt ordinal;
                          Re.plus Re.space; Re.between 3 9 letter;
                          Re.plus Re.space; Re.rep 4 Re.digit]);
     Re.star Re.space; Re.Eol].

Definition SKIP_KEYWORDS : list string :=
  ["opening balance"; "primary card no"; "rewards summary"; "cashback";
   "card limit"; "minimum payment due"; "payment due date";
   "profit/other charges"; "current balance"; "profit reversal";
   "finance charges"].

(** [clean_amount]: a token that is not a float literal gives [0.0]. *)
Definition clean_amount (val : option string) : Num.float :=
  match val with
  | None => Num.zero
  | Some v0 =>
      if (v0 =? "")%string then Num.zero
      else
        let v := Py.strip (Py.replace "CR" "" (Py.replace "," "" v0)) in
        match Num.float_of_str v with
        | Py.Ok x => x
        | Py.Raise _ => Num.zero
        end
  end.

(** [(\d+)(st|nd|rd|th)] *)
Definition ORDINAL_RE : Re.regex :=
  Re.Seq (Re.Group 1 (Re.plus Re.digit)) (Re.Group 2 ordinal).

Definition _strip_ordinal (s : string) : string :=
  Py.strip (Re.sub ORDINAL_RE (fun g => grp g 1) s).

(** [_parse_full_date]: the first of the two formats that parses. *)
Definition _parse_full_date (s : string) : option string :=
  let s_clean := _strip_ordinal s in
  match Date.strptime s_clean "%d %b %Y" with
  | Py.Ok dt => Some (Date.isoformat dt)
  | Py.Raise _ =>
      match Date.strptime s_clean "%d %B %Y" with
      | Py.Ok dt => Some (Date.isoformat dt)
      | Py.Raise _ => None
      end
  end.

Definition arabic_map : gmap string string :=
  list_to_map
    [("من", "from");
     ("من ", "from");
     ("الى", "to");
     ("إلى", "to");
     ("ىلإ", "to")].

Definition _normalize_range_token (raw : string) : option string :=
  let token := Py.lower (Py.strip_chars ":" (Py.strip raw)) in
  if (token =? "")%string then None
  else if (token =? "from")%string || (token =? "to")%string then Some token
  else arabic_map !! token.

(** The variables of the loop. *)
Record state : Type := {
  transactions : list Transaction;
  statement_from : option string;
  statement_to : option string;
  pending_range : option string
}.

Definition initial : state :=
  {| transactions := []; statement_from := None; statement_to := None;
     pending_range := None |}.

(** [o == s], for a [str | None] *)
Definition opt_is (o : option string) (s : string) : bool :=
  match o with
  | Some t => (t =? s)%string
  | None => false
  end.

(** [statement_from = parsed] or [statement_to = parsed], then
    [pending_range = None]. *)
Definition set_boundary (st : state) (from : bool) (parsed : option string)
    : state :=
  {| transactions := transactions st;
     statement_from := if from then parsed else statement_from st;
     statement_to := if from then statement_to st else parsed;
     pending_range := None |}.

Definition set_pending (st : state) (pending : option string) : state :=
  {| transactions := transactions st;
     statement_from := statement_from st;
     statement_to := statement_to st;
     pending_range := pending |}.

(** Lines 146-159: the year of a day+month date, from the period. *)
Definition resolve_year (statement_from statement_to : string)
    (txn_date : option string) : Py.res string :=
  do from_year <- Num.int_of_str (Py.take 4 statement_from);
  do to_year <- Num.int_of_str (Py.take 4 statement_to);
  do parsed <- match txn_date with
               | Some s => Date.strptime s "%Y-%m-%d"
               | None => Py.Raise Py.TypeError
               end;
  do txn_dt <- Date.replace_year parsed to_year;
  do statement_to_dt <- Date.strptime statement_to "%Y-%m-%d";
  if ((Date.month statement_to_dt <? 6) && (6 <? Date.month txn_dt))%Z
  then do dt <- Date.replace_year txn_dt from_year; Py.Ok (Date.strftime dt)
  else Py.Ok (Date.strftime txn_dt).

Section Parser.
Variable S : Type.
Variable open_pdf_safe : string -> option string -> opened.
Variable normalize_date : string -> string -> option string.
Variable normalize_transactions :
    list Transaction -> string -> string -> list Transaction.
Variable summarize_transactions : list Transaction -> S.

  (** Lines 133-169: the transaction of a matched line. *)
Definition emit (st : state) (g : Re.caps) : Py.res state :=
    let desc := grp g 3 in
    let amt_val := clean_amount (Re.group g 4) in
    let is_credit :=
      Py.truthy (Re.group g 5)
      || Py.contains "payment received" (Py.lower desc) in
    let txn_date := normalize_date (Py.strip (grp g 2)) "%d %b" in
    do txn_date <-
      (if Py.truthy (statement_from st) && Py.truthy (statement_to st)
       then do d <- resolve_year (Num.text (statement_from st))
                      (Num.text (statement_to st)) txn_date;
            Py.Ok (Some d)
       else Py.Ok txn_date);
    Py.Ok {| transactions := transactions st ++
               [{| transaction_date := txn_date;
                   description := Py.strip desc;
                   debit := if is_credit then Num.zero else amt_val;
                   credit := if is_credit then amt_val else Num.zero;
                   amount := amt_val;
                   balance := None;
                   bank := BANK_NAME;
                   card_type := CARD_TYPE;
                   fx_currency := None;
                   fx_amount := None;
                   fx_rate := None |}];
             statement_from := statement_from st;
             statement_to := statement_to st;
             pending_range := pending_range st |}.

  (** Lines 129-131: a line that is not a transaction is passed over. *)
Definition match_line (st : state) (raw : string) : Py.res state :=
    match Re.match_ LINE_REGEX raw with
    | Some (_, g) => emit st g
    | None => Py.Ok st
    end.

  (** The body of [for line in text.splitlines()]. *)
Definition step (st : state) (line : string) : Py.res state :=
    let raw := Py.strip line in
    if (raw =? "")%string then Py.Ok st
    else
      let low := Py.lower raw in
      if Py.any_in SKIP_KEYWORDS low then Py.Ok st
      else
        match Re.match_ FROM_TO_REGEX raw with
        | Some (_, g) =>
            let parsed := _parse_full_date (grp g 2) in
            if Py.truthy parsed
            then Py.Ok (set_boundary st
                          (Py.lower (grp g 1) =? "from")%string parsed)
            else Py.Ok (set_pending st None)
        | None =>
            let normalized_range := _normalize_range_token raw in
            if Py.truthy normalized_range then
              if opt_is normalized_range "from" && Py.truthy (statement_from st)
              then Py.Ok st
              else if opt_is normalized_range "to"
                      && Py.truthy (statement_to st)
              then Py.Ok st
              else Py.Ok (set_pending st normalized_range)
            else if Py.truthy (pending_range st) then
              let parsed := _parse_full_date raw in
              if Py.truthy parsed
              then Py.Ok (set_boundary st (opt_is (pending_range st) "from")
                            parsed)
              else match_line st raw
            else match_line st raw
        end.

Definition page_step (st : state) (page : option string) : Py.res state :=
    for_each step st (Py.splitlines (page_text page)).

Fixpoint pages_loop (st : state) (pages : list (option string))
    : Py.res state :=
    match pages with
    | [] => Py.Ok st
    | p :: ps => do st' <- page_step st p; pages_loop st' ps
    end.

Definition parse_emiratesislamic (file_path : string)
      (password : option string) : Py.res (outcome S) :=
    match open_pdf_safe file_path password with
    | OpenedDict d =>
        match d !! "error" with
        | Some _ => Py.Ok (Failure d)
        | None => Py.Raise Py.TypeError
        end
    | OpenedPdf pages =>
        do st <- pages_loop initial pages;
        let normalized :=
          normalize_transactions (transactions st) BANK_NAME CARD_TYPE in
        Py.Ok (Parsed {| st_bank := BANK_NAME;
                         st_card_type := CARD_TYPE;
                         st_summary := summarize_transactions normalized;
                         st_transactions := normalized;
                         st_from_date := statement_from st;
                         st_to_date := statement_to st |})
    end.
End Parser.

End EmiratesIslamic.


(** * Properties *)

(** ** Vocabulary of the properties and sample statements *)

(** An error dict, as [open_pdf_safe] returns one. *)
Definition bad_password : gmap string string :=
  {[ "error" := "Incorrect password" ]}.

(** The money fields as the parsers fill them: one of [debit] and
    [credit] is the literal [0.0] and the other is [amount]. *)
Definition money_ok (t : Common.Transaction) : Prop :=
  (Common.debit t = Num.zero /\ Common.credit t = Common.amount t)
  \/ (Common.credit t = Num.zero /\ Common.debit t = Common.amount t).

(** Exactly one of [debit] and [credit] is nonzero, the other is [0.0]
    and [amount] is the nonzero one. *)
Definition exactly_one_nonzero (t : Common.Transaction) : Prop :=
  (Num.is_zero (Common.debit t) = false /\ Common.credit t = Num.zero
   /\ Common.amount t = Common.debit t)
  \/ (Num.is_zero (Common.credit t) = false /\ Common.debit t = Num.zero
      /\ Common.amount t = Common.credit t).

(** [normalize_transactions] keeps the money fields of the records. *)
Definition keeps_money
    (normalize_transactions :
       list Common.Transaction -> string -> string -> list Common.Transaction)
  : Prop :=
  forall l b c t, In t (normalize_transactions l b c) ->
    exists t0, In t0 l /\ Common.debit t = Common.debit t0
               /\ Common.credit t = Common.credit t0
               /\ Common.amount t = Common.amount t0.

(** Case analysis on the tests of a loop body. *)
Ltac break_tests H :=
  repeat match type of H with
         | context [match ?x with _ => _ end] => destruct x eqn:?
         end;
  try discriminate H.

(** Stand-ins for the helpers of [common.pdf_utils] in the examples:
    dates kept as they are, records kept as they are, no summary. *)
Definition keep_date (s _ : string) : option string := Some s.
Definition keep_all (l : list Common.Transaction) (_ _ : string)
  : list Common.Transaction := l.
Definition no_summary (_ : list Common.Transaction) : unit := tt.

(** The records of a successful parse, [[]] otherwise. *)
Definition parsed_transactions {S : Type} (o : Py.res (Common.outcome S))
  : list Common.Transaction :=
  match o with
  | Py.Ok (Common.Parsed r) => Common.st_transactions r
  | _ => []
  end.

Definition rakbank_on (pages : list (option string))
  : Py.res (Common.outcome unit) :=
  Rakbank.parse_rakbank unit (fun _ _ => Common.OpenedPdf pages)
    keep_date keep_all no_summary "statement.pdf" None.

Definition emirates_on (normalize_date : string -> string -> option string)
    (pages : list (option string)) : Py.res (Common.outcome unit) :=
  EmiratesIslamic.parse_emiratesislamic unit
    (fun _ _ => Common.OpenedPdf pages)
    normalize_date keep_all no_summary "statement.pdf" None.

Definition empty_statement : Common.statement unit :=
  {| Common.st_bank := ""; Common.st_card_type := "";
     Common.st_summary := tt; Common.st_transactions := [];
     Common.st_from_date := None; Common.st_to_date := None |}.

Definition statement_of (o : Py.res (Common.outcome unit))
  : Common.statement unit :=
  match o with
  | Py.Ok (Common.Parsed r) => r
  | _ => empty_statement
  end.

Definition purchase_page : list (option string) :=
  [Some "16/08/2025 CARREFOUR AED 1,234.56 - 2,000.00"].

Definition purchase_statement : Common.statement unit :=
  Eval vm_compute in statement_of (rakbank_on purchase_page).

Definition purchase : Common.Transaction :=
  Eval vm_compute in
    match Common.st_transactions purchase_statement with
    | t :: _ => t
    | [] => {| Common.transaction_date := None; Common.description := "";
               Common.debit := Num.zero; Common.credit := Num.zero;
               Common.amount := Num.zero; Common.balance := None;
               Common.bank := ""; Common.card_type := "";
               Common.fx_currency := None; Common.fx_amount := None;
               Common.fx_rate := None |}
    end.

(** The text of a page, one line per element. *)
Definition page_of (lines : list string) : option string :=
  Some (Py.join (String "010" EmptyString) lines).

(** The period a parse returns. *)
Definition period_of {S : Type} (o : Py.res (Common.outcome S))
  : option (option string * option string) :=
  match o with
  | Py.Ok (Common.Parsed r) =>
      Some (Common.st_from_date r, Common.st_to_date r)
  | _ => None
  end.

(** The state of the loop of [parse_emiratesislamic] after the lines of
    one page. *)
Definition emirates_after (lines : list string)
  : Py.res EmiratesIslamic.state :=
  Common.for_each (EmiratesIslamic.step keep_date) EmiratesIslamic.initial
    lines.

Definition pending_after (lines : list string) : option (option string) :=
  match emirates_after lines with
  | Py.Ok st => Some (EmiratesIslamic.pending_range st)
  | Py.Raise _ => None
  end.

Definition count_after (lines : list string) : option nat :=
  match emirates_after lines with
  | Py.Ok st => Some (List.length (EmiratesIslamic.transactions st))
  | Py.Raise _ => None
  end.

Definition period_after (lines : list string)
  : option (option string * option string) :=
  match emirates_after lines with
  | Py.Ok st =>
      Some (EmiratesIslamic.statement_from st, EmiratesIslamic.statement_to st)
  | Py.Raise _ => None
  end.

(** The boundary a labelled line sets: [Some true] for a From line,
    [Some false] for a To line, when the line matches [FROM_TO_REGEX]
    and its date parses. *)
Definition labelled_boundary (line : string) : option bool :=
  match Re.match_ EmiratesIslamic.FROM_TO_REGEX (Py.strip line) with
  | Some (_, g) =>
      if Py.truthy (EmiratesIslamic._parse_full_date (Common.grp g 2))
      then Some (Py.lower (Common.grp g 1) =? "from")%string
      else None
  | None => None
  end.

(** A line of [parse_rakbank] that names the period and matches
    [STATEMENT_PERIOD_RE]. *)
Definition period_line (raw : string) : bool :=
  Py.contains "statement period" (Py.lower raw)
  && match Re.search Rakbank.STATEMENT_PERIOD_RE raw with
     | Some _ => true
     | None => false
     end.

(** The date of a labelled line, as [_parse_full_date] reads it. *)
Definition labelled_date (line : string) : option string :=
  match Re.match_ EmiratesIslamic.FROM_TO_REGEX (Py.strip line) with
  | Some (_, g) => EmiratesIslamic._parse_full_date (Common.grp g 2)
  | None => None
  end.

(** A line of [parse_rakbank] that sets the period: it holds no
    boilerplate phrase, names the period and matches the pattern. *)
Definition sets_period (raw : string) : bool :=
  negb (Py.any_in Rakbank.SKIP_KEYWORDS (Py.lower raw)) && period_line raw.

(** The two dates of a statement-period line, as [normalize_date] gives
    them. *)
Definition period_dates (normalize_date : string -> string -> option string)
    (raw : string) : option string * option string :=
  match Re.search Rakbank.STATEMENT_PERIOD_RE raw with
  | Some (_, g) =>
      (normalize_date (Py.replace " " "" (Common.grp g 1)) "%d/%m/%Y",
       normalize_date (Py.replace " " "" (Common.grp g 2)) "%d/%m/%Y")
  | None => (None, None)
  end.

(** What holds of the state of [parse_emiratesislamic] between two
    lines: a pending marker names a boundary that is not set yet, and a
    boundary that is set is a non-empty string. *)
Record marker_inv (st : EmiratesIslamic.state) : Prop := {
  inv_from :
    EmiratesIslamic.opt_is (EmiratesIslamic.pending_range st) "from" = true ->
    EmiratesIslamic.statement_from st = None;
  inv_to :
    Py.truthy (EmiratesIslamic.pending_range st) = true ->
    EmiratesIslamic.opt_is (EmiratesIslamic.pending_range st) "from" = false ->
    EmiratesIslamic.statement_to st = None;
  inv_from_set :
    EmiratesIslamic.statement_from st = None
    \/ Py.truthy (EmiratesIslamic.statement_from st) = true;
  inv_to_set :
    EmiratesIslamic.statement_to st = None
    \/ Py.truthy (EmiratesIslamic.statement_to st) = true
}.

(** The lines of a document, page after page. *)
Definition document_lines (pages : list (option string)) : list string :=
  concat (map (fun p => Py.splitlines (Common.page_text p)) pages).

Definition july_lines1 : list string := ["From: 11th Jul 2025"].
Definition july_lines2 : list string :=
  ["From"; "12th Jul 2025"; "To: 10th Aug 2025"].

Definition july_state1 : EmiratesIslamic.state :=
  {| EmiratesIslamic.transactions := [];
     EmiratesIslamic.statement_from := Some "2025-07-11";
     EmiratesIslamic.statement_to := None;
     EmiratesIslamic.pending_range := None |}.

Definition july_state2 : EmiratesIslamic.state :=
  {| EmiratesIslamic.transactions := [];
     EmiratesIslamic.statement_from := Some "2025-07-11";
     EmiratesIslamic.statement_to := Some "2025-08-10";
     EmiratesIslamic.pending_range := None |}.

Definition rakbank_period_after (lines : list string)
  : option (option string * option string) :=
  match Common.for_each (Rakbank.step keep_date) Rakbank.initial lines with
  | Py.Ok st => Some (Rakbank.statement_from st, Rakbank.statement_to st)
  | Py.Raise _ => None
  end.

(** The year rule in the words of the specification (4.6): the year of
    the to boundary, or the year of the from boundary when the month of
    the to boundary is before June and the month of the transaction is
    after June.  [resolve_year] is compared with it. *)
Definition resolved_year (from_year to_year to_month txn_month : Z) : Z :=
  if ((to_month <? 6) && (6 <? txn_month))%Z then from_year else to_year.


(** The dates of the transactions after the lines of one page. *)
Definition dates_after (normalize_date : string -> string -> option string)
    (lines : list string) : option (list (option string)) :=
  match EmiratesIslamic.pages_loop normalize_date EmiratesIslamic.initial
          [page_of lines] with
  | Py.Ok st => Some (map Common.transaction_date (EmiratesIslamic.transactions st))
  | Py.Raise _ => None
  end.

Definition winter_state : EmiratesIslamic.state :=
  {| EmiratesIslamic.transactions := [];
     EmiratesIslamic.statement_from := Some "2024-12-15";
     EmiratesIslamic.statement_to := Some "2025-01-14";
     EmiratesIslamic.pending_range := None |}.

Definition august_groups : Re.caps :=
  Eval vm_compute in
    match Re.match_ EmiratesIslamic.LINE_REGEX
            "16 AUG 14 AUG RTA-ETISALAT DUBAI ARE 100.00" with
    | Some (_, g) => g
    | None => []
    end.


Definition no_match (o : option (string * Re.caps)) : bool :=
  match o with
  | Some _ => false
  | None => true
  end.

(** A line that reaches [buffer_desc.append(raw)]: no boilerplate
    phrase, no statement period, none of the two transaction shapes. *)
Definition is_free_text (raw : string) : bool :=
  negb (Py.any_in Rakbank.SKIP_KEYWORDS (Py.lower raw))
  && negb (Py.contains "statement period" (Py.lower raw))
  && no_match (Re.match_ Rakbank.RAKBANK_LINE_REGEX raw)
  && no_match (Re.match_ Rakbank.RAKBANK_FX_REGEX raw).

(** [st] with another description buffer. *)
Definition with_buffer (st : Rakbank.state) (buf : list string)
  : Rakbank.state :=
  {| Rakbank.transactions := Rakbank.transactions st;
     Rakbank.statement_from := Rakbank.statement_from st;
     Rakbank.statement_to := Rakbank.statement_to st;
     Rakbank.buffer_desc := buf |}.

(** The variables of [parse_rakbank] that outlive a page. *)
Definition call_vars (st : Rakbank.state)
  : list Common.Transaction * option string * option string :=
  (Rakbank.transactions st, Rakbank.statement_from st, Rakbank.statement_to st).

Definition call_result (r : Py.res Rakbank.state)
  : Py.res (list Common.Transaction * option string * option string) :=
  match r with
  | Py.Ok st => Py.Ok (call_vars st)
  | Py.Raise e => Py.Raise e
  end.

Definition thanks_page : option string :=
  page_of ["16/08/2025 CARREFOUR AED 10.00 - 20.00";
           "Thank you for banking with us"].

Definition plain_page : option string :=
  page_of ["16/08/2025 CARREFOUR AED 10.00 - 20.00"].

Definition fx_page : option string :=
  page_of ["17/08/2025 USD 10.00 3.67 36.70"].

(** The descriptions of the transactions a parse returns. *)
Definition descriptions {S : Type} (o : Py.res (Common.outcome S))
  : list string :=
  map Common.description (parsed_transactions o).

Definition store_lines : list string :=
  ["PURCHASE AT"; "SOME STORE DUBAI ARE"].

Definition store_line : string :=
  "16/08/2025 CARREFOUR AED 1,234.56 - 2,000.00".

Definition store_groups : Re.caps :=
  Eval vm_compute in
    match Re.match_ Rakbank.RAKBANK_LINE_REGEX store_line with
    | Some (_, g) => g
    | None => []
    end.

(** The lines [parse_rakbank] walks, page after page. *)
Definition rakbank_lines (pages : list (option string)) : list string :=
  concat (map (fun p => Rakbank.page_lines (Common.page_text p)) pages).

(** The fields of a record built from an AED line: a balance, no
    foreign-exchange attribute. *)
Definition aed_shape (t : Common.Transaction) : Prop :=
  Common.balance t <> None /\ Common.fx_currency t = None
  /\ Common.fx_amount t = None /\ Common.fx_rate t = None.

(** The fields of a record built from an FX line: the three
    foreign-exchange attributes, no balance. *)
Definition fx_shape (t : Common.Transaction) : Prop :=
  Common.balance t = None /\ Common.fx_currency t <> None
  /\ Common.fx_amount t <> None /\ Common.fx_rate t <> None.

Definition rakbank_record (t : Common.Transaction) : Prop :=
  Common.bank t = "RAKBANK" /\ Common.card_type t = "credit"
  /\ (aed_shape t \/ fx_shape t).

Definition emirates_record (t : Common.Transaction) : Prop :=
  Common.bank t = "Emirates Islamic" /\ Common.card_type t = "credit"
  /\ Common.balance t = None /\ Common.fx_currency t = None
  /\ Common.fx_amount t = None /\ Common.fx_rate t = None.

(** A [normalize_date] for the examples: the date parsed with the
    format and rendered as an ISO date, [None] when it does not parse. *)
Definition strptime_date (s fmt : string) : option string :=
  match Date.strptime s fmt with
  | Py.Ok d => Some (Date.isoformat d)
  | Py.Raise _ => None
  end.

Definition rakbank_sample : list (option string) := [thanks_page; fx_page].

Definition rakbank_sample_state : Rakbank.state :=
  Eval vm_compute in
    match Rakbank.pages_loop strptime_date Rakbank.initial rakbank_sample with
    | Py.Ok st => st
    | Py.Raise _ => Rakbank.initial
    end.

Definition emirates_sample : list (option string) :=
  [page_of ["From: 15th Dec 2024"; "To"; "14th Jan 2025"];
   page_of ["16 AUG 14 AUG RTA-ETISALAT DUBAI ARE 100.00";
            "20 DEC 19 DEC PAYMENT RECEIVED THANK YOU 500.00CR"]].

Definition emirates_sample_state : EmiratesIslamic.state :=
  Eval vm_compute in
    match EmiratesIslamic.pages_loop strptime_date EmiratesIslamic.initial
            emirates_sample with
    | Py.Ok st => st
    | Py.Raise _ => EmiratesIslamic.initial
    end.

(** Pages whose credits come from the description alone: no line
    carries a credit flag. *)
Definition rakbank_credits : list (option string) :=
  [page_of ["16/08/2025 PAYMENT THANK YOU AED 500.00 - 1,500.00";
            "REFUND FROM NOON";
            "17/08/2025 NOON.COM DUBAI AED 25.00 - 1,475.00";
            "Refund";
            "18/08/2025 USD 10.00 3.67 36.70";
            "19/08/2025 CARREFOUR AED 10.00 - 1,485.00"]].

Definition rakbank_credits_state : Rakbank.state :=
  Eval vm_compute in
    match Rakbank.pages_loop strptime_date Rakbank.initial rakbank_credits with
    | Py.Ok st => st
    | Py.Raise _ => Rakbank.initial
    end.

Definition emirates_credits : list (option string) :=
  [page_of ["20 DEC 19 DEC PAYMENT RECEIVED THANK YOU 500.00";
            "21 DEC 20 DEC CARREFOUR DUBAI ARE 100.00"]].

Definition emirates_credits_state : EmiratesIslamic.state :=
  Eval vm_compute in
    match EmiratesIslamic.pages_loop strptime_date EmiratesIslamic.initial
            emirates_credits with
    | Py.Ok st => st
    | Py.Raise _ => EmiratesIslamic.initial
    end.

(** The description of a record with its debit and its credit. *)
Definition booking (t : Common.Transaction)
  : string * Num.float * Num.float :=
  (Common.description t, Common.debit t, Common.credit t).

(** A record booked as a credit: no debit, the amount as credit. *)
Definition booked_credit (t : Common.Transaction) : Prop :=
  Common.debit t = Num.zero /\ Common.credit t = Common.amount t.

(** A record whose description holds "payment" or "refund", in any
    case, is booked as a credit. *)
Definition rakbank_keyword_credit (t : Common.Transaction) : Prop :=
  Py.contains "payment" (Py.lower (Common.description t)) = true
  \/ Py.contains "refund" (Py.lower (Common.description t)) = true ->
  booked_credit t.

(** The same for "payment received". *)
Definition emirates_keyword_credit (t : Common.Transaction) : Prop :=
  Py.contains "payment received" (Py.lower (Common.description t)) = true ->
  booked_credit t.

(** The values a pending marker takes, with the boundary it waits for. *)
Definition pending_ok (st : EmiratesIslamic.state) : Prop :=
  EmiratesIslamic.pending_range st = None
  \/ (EmiratesIslamic.pending_range st = Some "from"
      /\ EmiratesIslamic.statement_from st = None)
  \/ (EmiratesIslamic.pending_range st = Some "to"
      /\ EmiratesIslamic.statement_to st = None).

(** A boundary of the period: not set, or the ISO rendering of a date
    of the calendar. *)
Definition iso_boundary (o : option string) : Prop :=
  o = None
  \/ exists d, Date.valid (Date.year d) (Date.month d) (Date.day d) = true
               /\ o = Some (Date.isoformat d).

(** The period of [st] is the one the statement-period line [raw] gives. *)
Definition period_from_line (normalize_date : string -> string -> option string)
    (raw : string) (st : Rakbank.state) : Prop :=
  exists rest g,
    Py.any_in Rakbank.SKIP_KEYWORDS (Py.lower raw) = false
    /\ Py.contains "statement period" (Py.lower raw) = true
    /\ Re.search Rakbank.STATEMENT_PERIOD_RE raw = Some (rest, g)
    /\ Rakbank.statement_from st
       = normalize_date (Py.replace " " "" (Common.grp g 1)) "%d/%m/%Y"
    /\ Rakbank.statement_to st
       = normalize_date (Py.replace " " "" (Common.grp g 2)) "%d/%m/%Y".

(** The period of [st] is not set, or comes from one line of [lines]. *)
Definition period_source (normalize_date : string -> string -> option string)
    (lines : list string) (st : Rakbank.state) : Prop :=
  (Rakbank.statement_from st = None /\ Rakbank.statement_to st = None)
  \/ exists raw, In raw lines /\ period_from_line normalize_date raw st.

(** ** The line loop *)

Section ForEach.
Context {St : Type} (body : St -> string -> Py.res St).

Lemma for_each_app (st : St) (l1 l2 : list string) :
    Common.for_each body st (l1 ++ l2) =
    do st' <- Common.for_each body st l1; Common.for_each body st' l2.
  Proof.
    revert st; induction l1 as [|x l1 IH]; intros st; simpl; [reflexivity|].
    destruct (body st x) as [st'|e]; simpl; [apply IH | reflexivity].
  Qed.

  (** A line that leaves every state as it is can be taken out of the
      input. *)
Lemma for_each_skip (st : St) (l1 l2 : list string) (x : string) :
    (forall s, body s x = Py.Ok s) ->
    Common.for_each body st (l1 ++ x :: l2) = Common.for_each body st (l1 ++ l2).
  Proof.
    intros Hx. rewrite !for_each_app.
    destruct (Common.for_each body st l1) as [st'|e]; simpl; [|reflexivity].
    now rewrite Hx.
  Qed.

  (** An invariant of the body is an invariant of the loop. *)
Lemma for_each_invariant (P : St -> Prop) :
    (forall s x s', P s -> body s x = Py.Ok s' -> P s') ->
    forall l st st', P st -> Common.for_each body st l = Py.Ok st' -> P st'.
  Proof.
    intros Hstep l; induction l as [|x l IH]; intros st st' HP Hrun; simpl in Hrun.
    - now inversion Hrun; subst.
    - destruct (body st x) as [s1|e] eqn:E; simpl in Hrun; [|discriminate].
      eapply IH; [|exact Hrun]. eapply Hstep; eauto.
  Qed.
End ForEach.

(** ** C5: the error dict of the document source is handed back *)

(** C5. When [open_pdf_safe] returns a dict with an ["error"] key, both
    parsers return that very dict: the page loop, the normalisation and
    the summary are not run. *)
Theorem failure_passthrough
    (S : Type) (open_pdf_safe : string -> option string -> Common.opened)
    (normalize_date : string -> string -> option string)
    (normalize_transactions :
       list Common.Transaction -> string -> string -> list Common.Transaction)
    (summarize_transactions : list Common.Transaction -> S)
    (file_path : string) (password : option string)
    (d : gmap string string) (msg : string) :
  open_pdf_safe file_path password = Common.OpenedDict d ->
  d !! "error" = Some msg ->
  Rakbank.parse_rakbank S open_pdf_safe normalize_date
    normalize_transactions summarize_transactions file_path password
  = Py.Ok (Common.Failure d)
  /\ EmiratesIslamic.parse_emiratesislamic S open_pdf_safe normalize_date
       normalize_transactions summarize_transactions file_path password
     = Py.Ok (Common.Failure d).
Proof.
  intros Hopen Herr.
  unfold Rakbank.parse_rakbank, EmiratesIslamic.parse_emiratesislamic.
  rewrite Hopen, Herr. split; reflexivity.
Qed.

Lemma failure_passthrough_witness :
  Rakbank.parse_rakbank unit (fun _ _ => Common.OpenedDict bad_password)
    (fun s _ => Some s) (fun l _ _ => l) (fun _ => tt) "statement.pdf" None
  = Py.Ok (Common.Failure bad_password)
  /\ EmiratesIslamic.parse_emiratesislamic unit
       (fun _ _ => Common.OpenedDict bad_password)
       (fun s _ => Some s) (fun l _ _ => l) (fun _ => tt) "statement.pdf" None
     = Py.Ok (Common.Failure bad_password).
Proof.
  apply (failure_passthrough unit (fun _ _ => Common.OpenedDict bad_password)
           (fun s _ => Some s) (fun l _ _ => l) (fun _ => tt)
           "statement.pdf" None bad_password "Incorrect password").
  - reflexivity.
  - vm_compute. reflexivity.
Defined.

(** ** C6: boilerplate lines *)

(** C6. A line whose lower-case form holds a phrase of [SKIP_KEYWORDS]
    leaves the whole state of the loop as it is (transactions, period,
    description buffer, pending marker), in both parsers; the loop over
    the lines gives the same state with that line taken out. *)
Theorem boilerplate_discarded
    (normalize_date : string -> string -> option string)
    (rs : Rakbank.state) (es : EmiratesIslamic.state)
    (l1 l2 : list string) (line : string) :
  (Py.any_in Rakbank.SKIP_KEYWORDS (Py.lower line) = true ->
   Rakbank.step normalize_date rs line = Py.Ok rs
   /\ Common.for_each (Rakbank.step normalize_date) rs (l1 ++ line :: l2)
      = Common.for_each (Rakbank.step normalize_date) rs (l1 ++ l2))
  /\ (Py.any_in EmiratesIslamic.SKIP_KEYWORDS (Py.lower (Py.strip line)) = true ->
      EmiratesIslamic.step normalize_date es line = Py.Ok es
      /\ Common.for_each (EmiratesIslamic.step normalize_date) es (l1 ++ line :: l2)
         = Common.for_each (EmiratesIslamic.step normalize_date) es (l1 ++ l2)).
Proof.
  split; intros Hskip.
  - assert (Hs : forall s, Rakbank.step normalize_date s line = Py.Ok s).
    { intros s. unfold Rakbank.step. now rewrite Hskip. }
    split; [apply Hs | now apply for_each_skip].
  - assert (Hs : forall s, EmiratesIslamic.step normalize_date s line = Py.Ok s).
    { intros s. unfold EmiratesIslamic.step.
      destruct (Py.strip line =? "")%string; [reflexivity|]. now rewrite Hskip. }
    split; [apply Hs | now apply for_each_skip].
Qed.

Lemma boilerplate_discarded_witness :
  let nd := fun (s _ : string) => Some s in
  let line := "Minimum Payment Due 250.00" in
  let l1 := ["PURCHASE AT"] in
  let l2 := ["16/08/2025 CARREFOUR AED 1,234.56 - 2,000.00"] in
  (Rakbank.step nd Rakbank.initial line = Py.Ok Rakbank.initial
   /\ Common.for_each (Rakbank.step nd) Rakbank.initial (l1 ++ line :: l2)
      = Common.for_each (Rakbank.step nd) Rakbank.initial (l1 ++ l2))
  /\ (EmiratesIslamic.step nd EmiratesIslamic.initial line
      = Py.Ok EmiratesIslamic.initial
      /\ Common.for_each (EmiratesIslamic.step nd) EmiratesIslamic.initial
           (l1 ++ line :: l2)
         = Common.for_each (EmiratesIslamic.step nd) EmiratesIslamic.initial
             (l1 ++ l2)).
Proof.
  intros nd line l1 l2.
  destruct (boilerplate_discarded nd Rakbank.initial EmiratesIslamic.initial
              l1 l2 line) as [HR HE].
  split; [apply HR | apply HE]; vm_compute; reflexivity.
Defined.

(** ** C1: debit, credit and amount *)

Lemma money_ok_nonzero (t : Common.Transaction) :
  money_ok t -> Num.is_zero (Common.amount t) = false -> exactly_one_nonzero t.
Proof.
  unfold money_ok, exactly_one_nonzero.
  intros [[Hd Hc]|[Hc Hd]] Hnz; [right|left]; repeat split; congruence.
Qed.

Lemma money_ok_snoc (l : list Common.Transaction) (t : Common.Transaction) :
  Forall money_ok l -> money_ok t -> Forall money_ok (l ++ [t]).
Proof.
  intros Hl Ht. induction Hl; simpl; constructor; auto.
Qed.

Section MoneyInvariant.
Variable normalize_date : string -> string -> option string.

Lemma rakbank_step_money (st st' : Rakbank.state) (raw : string) :
    Forall money_ok (Rakbank.transactions st) ->
    Rakbank.step normalize_date st raw = Py.Ok st' ->
    Forall money_ok (Rakbank.transactions st').
  Proof.
    intros Hst Hstep. unfold Rakbank.step, Py.bind in Hstep.
    break_tests Hstep; inversion Hstep; subst; clear Hstep;
      cbn [Rakbank.transactions]; try assumption;
      (apply money_ok_snoc; [assumption|]);
      unfold money_ok; cbn [Common.debit Common.credit Common.amount];
      auto.
  Qed.

Lemma rakbank_pages_money (pages : list (option string)) :
    forall st st', Forall money_ok (Rakbank.transactions st) ->
      Rakbank.pages_loop normalize_date st pages = Py.Ok st' ->
      Forall money_ok (Rakbank.transactions st').
  Proof.
    induction pages as [|p ps IH]; intros st st' Hst Hrun; simpl in Hrun.
    - now inversion Hrun; subst.
    - destruct (Rakbank.page_step normalize_date st p) as [s1|e] eqn:E;
        simpl in Hrun; [|discriminate].
      eapply IH; [|exact Hrun].
      unfold Rakbank.page_step in E.
      eapply (for_each_invariant (Rakbank.step normalize_date)
                (fun s => Forall money_ok (Rakbank.transactions s)));
        [| |exact E]; [|exact Hst].
      intros s x s' Hs Hx. eapply rakbank_step_money; eauto.
  Qed.

Lemma emirates_step_money (st st' : EmiratesIslamic.state) (line : string) :
    Forall money_ok (EmiratesIslamic.transactions st) ->
    EmiratesIslamic.step normalize_date st line = Py.Ok st' ->
    Forall money_ok (EmiratesIslamic.transactions st').
  Proof.
    intros Hst Hstep.
    unfold EmiratesIslamic.step, EmiratesIslamic.match_line,
      EmiratesIslamic.emit, Py.bind in Hstep.
    break_tests Hstep; inversion Hstep; subst; clear Hstep;
      cbn [EmiratesIslamic.transactions EmiratesIslamic.set_boundary
           EmiratesIslamic.set_pending]; try assumption;
      (apply money_ok_snoc; [assumption|]);
      unfold money_ok; cbn [Common.debit Common.credit Common.amount];
      auto.
  Qed.

Lemma emirates_pages_money (pages : list (option string)) :
    forall st st', Forall money_ok (EmiratesIslamic.transactions st) ->
      EmiratesIslamic.pages_loop normalize_date st pages = Py.Ok st' ->
      Forall money_ok (EmiratesIslamic.transactions st').
  Proof.
    induction pages as [|p ps IH]; intros st st' Hst Hrun; simpl in Hrun.
    - now inversion Hrun; subst.
    - destruct (EmiratesIslamic.page_step normalize_date st p) as [s1|e] eqn:E;
        simpl in Hrun; [|discriminate].
      eapply IH; [|exact Hrun].
      unfold EmiratesIslamic.page_step in E.
      eapply (for_each_invariant (EmiratesIslamic.step normalize_date)
                (fun s => Forall money_ok (EmiratesIslamic.transactions s)));
        [| |exact E]; [|exact Hst].
      intros s x s' Hs Hx. eapply emirates_step_money; eauto.
  Qed.
End MoneyInvariant.

Lemma keeps_money_ok normalize_transactions l b c :
  keeps_money normalize_transactions -> Forall money_ok l ->
  Forall money_ok (normalize_transactions l b c).
Proof.
  intros Hk Hl. apply List.Forall_forall. intros t Ht.
  destruct (Hk l b c t Ht) as (t0 & Hin & Hd & Hc & Ha).
  pose proof (proj1 (List.Forall_forall money_ok l) Hl t0 Hin) as H0.
  unfold money_ok in *. rewrite Hd, Hc, Ha. exact H0.
Qed.

(** C1, as the code has it.  In every record of the list a parser
    returns, one of [debit] and [credit] is exactly [0.0] and the other
    equals [amount]; exactly one of the two is nonzero when the amount
    is nonzero (a line whose amount is zero gives a record with both
    zero). *)
Theorem money_fields
    (S : Type) (open_pdf_safe : string -> option string -> Common.opened)
    (normalize_date : string -> string -> option string)
    (normalize_transactions :
       list Common.Transaction -> string -> string -> list Common.Transaction)
    (summarize_transactions : list Common.Transaction -> S)
    (file_path : string) (password : option string)
    (r : Common.statement S) (t : Common.Transaction) :
  keeps_money normalize_transactions ->
  Rakbank.parse_rakbank S open_pdf_safe normalize_date
    normalize_transactions summarize_transactions file_path password
  = Py.Ok (Common.Parsed r)
  \/ EmiratesIslamic.parse_emiratesislamic S open_pdf_safe normalize_date
       normalize_transactions summarize_transactions file_path password
     = Py.Ok (Common.Parsed r) ->
  In t (Common.st_transactions r) ->
  money_ok t
  /\ (Num.is_zero (Common.amount t) = false -> exactly_one_nonzero t).
Proof.
  intros Hk Hparse Hin.
  assert (Hall : Forall money_ok (Common.st_transactions r)).
  { destruct Hparse as [Hp|Hp].
    - unfold Rakbank.parse_rakbank in Hp.
      destruct (open_pdf_safe file_path password) as [d|pages].
      + destruct (d !! "error"); discriminate.
      + destruct (Rakbank.pages_loop normalize_date Rakbank.initial pages)
          as [st|e] eqn:E; simpl in Hp; [|discriminate].
        inversion Hp; subst; clear Hp. cbn [Common.st_transactions].
        apply keeps_money_ok; [assumption|].
        eapply rakbank_pages_money; [|exact E]. constructor.
    - unfold EmiratesIslamic.parse_emiratesislamic in Hp.
      destruct (open_pdf_safe file_path password) as [d|pages].
      + destruct (d !! "error"); discriminate.
      + destruct (EmiratesIslamic.pages_loop normalize_date
                    EmiratesIslamic.initial pages) as [st|e] eqn:E;
          simpl in Hp; [|discriminate].
        inversion Hp; subst; clear Hp. cbn [Common.st_transactions].
        apply keeps_money_ok; [assumption|].
        eapply emirates_pages_money; [|exact E]. constructor. }
  pose proof (proj1 (List.Forall_forall money_ok _) Hall t Hin) as Ht.
  split; [exact Ht | now apply money_ok_nonzero].
Qed.

Lemma keep_all_keeps_money : keeps_money keep_all.
Proof. intros l b c t Ht. exists t. auto. Qed.

Lemma money_fields_witness :
  money_ok purchase
  /\ (Num.is_zero (Common.amount purchase) = false ->
      exactly_one_nonzero purchase).
Proof.
  apply (money_fields unit (fun _ _ => Common.OpenedPdf purchase_page)
           keep_date keep_all no_summary "statement.pdf" None
           purchase_statement purchase).
  - exact keep_all_keeps_money.
  - left. vm_compute. reflexivity.
  - vm_compute. left. reflexivity.
Defined.

(** C1 as stated fails on a line whose amount is [0.00]: the record both
    parsers build, hand to [normalize_transactions] and (when that keeps
    the records) return has [debit] and [credit] both zero. *)
Lemma money_fields_counterexample :
  (exists t,
      parsed_transactions
        (rakbank_on [Some "01/01/2025 FEE WAIVED AED 0.00 - 100.00"]) = [t]
      /\ ~ exactly_one_nonzero t)
  /\ (exists t,
         parsed_transactions
           (emirates_on keep_date [Some "14 AUG 12 AUG FEE WAIVED 0.00"]) = [t]
         /\ ~ exactly_one_nonzero t)
  /\ (exists st t,
         Rakbank.pages_loop keep_date Rakbank.initial
           [Some "01/01/2025 FEE WAIVED AED 0.00 - 100.00"] = Py.Ok st
         /\ Rakbank.transactions st = [t]
         /\ Common.debit t = Num.Finite 0 /\ Common.credit t = Num.Finite 0)
  /\ (exists st t,
         EmiratesIslamic.pages_loop keep_date EmiratesIslamic.initial
           [Some "14 AUG 12 AUG FEE WAIVED 0.00"] = Py.Ok st
         /\ EmiratesIslamic.transactions st = [t]
         /\ Common.debit t = Num.Finite 0 /\ Common.credit t = Num.Finite 0).
Proof.
  split; [|split; [|split]].
  1, 2: eexists; (split; [vm_compute; reflexivity|]);
    unfold exactly_one_nonzero; cbn; intros [[H _]|[H _]]; discriminate H.
  all: do 2 eexists; split; [vm_compute; reflexivity|];
    split; [reflexivity|]; split; reflexivity.
Qed.

(** ** C2: [clean_amount] *)

(** C2, on the code.  Both [clean_amount] give [1234.56] for
    ["1,234.56CR"] and [0.0] for the empty string and for [None]; the
    one of [emiratesislamic.py] gives [0.0] for a token that is not a
    number, the one of [rakbank.py] raises [ValueError] there, and a
    statement line whose amount is such a token (the pattern of the AED
    line lets any character stand for the decimal point) makes
    [parse_rakbank] raise. *)
Theorem clean_amount_cases :
  Rakbank.clean_amount (Some "1,234.56CR") = Py.Ok (Num.Finite (Qred 1234.56))
  /\ EmiratesIslamic.clean_amount (Some "1,234.56CR")
     = Num.Finite (Qred 1234.56)
  /\ Rakbank.clean_amount (Some "") = Py.Ok Num.zero
  /\ Rakbank.clean_amount None = Py.Ok Num.zero
  /\ EmiratesIslamic.clean_amount (Some "") = Num.zero
  /\ EmiratesIslamic.clean_amount (Some "12x34") = Num.zero
  /\ Rakbank.clean_amount (Some "12x34") = Py.Raise Py.ValueError
  /\ rakbank_on [Some "01/01/2025 SHOP AED 12x34 - 100.00"]
     = Py.Raise Py.ValueError.
Proof.
  repeat split; vm_compute; reflexivity.
Qed.

(** ** C8 and C9: the pending range marker *)

(** C8, as the code has it.  With a marker pending, a boilerplate line
    leaves the state as it is and a line that gives a transaction keeps
    the marker; the marker is cleared only by a labelled From/To line or
    by a line that parses as a full date. *)
Theorem pending_marker_kept
    (normalize_date : string -> string -> option string)
    (st st' : EmiratesIslamic.state) (line p : string) :
  EmiratesIslamic.pending_range st = Some p ->
  EmiratesIslamic.step normalize_date st line = Py.Ok st' ->
  (Py.any_in EmiratesIslamic.SKIP_KEYWORDS (Py.lower (Py.strip line)) = true ->
   st' = st)
  /\ (EmiratesIslamic.transactions st' <> EmiratesIslamic.transactions st ->
      EmiratesIslamic.pending_range st' = Some p)
  /\ (EmiratesIslamic.pending_range st' = None ->
      Re.match_ EmiratesIslamic.FROM_TO_REGEX (Py.strip line) <> None
      \/ Py.truthy (EmiratesIslamic._parse_full_date (Py.strip line)) = true).
Proof.
  intros Hp Hstep.
  unfold EmiratesIslamic.step, EmiratesIslamic.match_line,
    EmiratesIslamic.emit, Py.bind in Hstep.
  break_tests Hstep; inversion Hstep; subst; clear Hstep;
    cbn [EmiratesIslamic.transactions EmiratesIslamic.pending_range
         EmiratesIslamic.set_boundary EmiratesIslamic.set_pending];
    (split; [|split]); intros H;
    try reflexivity; try discriminate; try congruence;
    try (left; congruence); try (right; reflexivity);
    try (match goal with
         | E : ?x = None, T : Py.truthy ?x = true |- _ =>
             rewrite E in T; discriminate T
         end).
Qed.

Lemma pending_marker_kept_witness :
  let st := {| EmiratesIslamic.transactions := [];
               EmiratesIslamic.statement_from := None;
               EmiratesIslamic.statement_to := None;
               EmiratesIslamic.pending_range := Some "to" |} in
  let line := "Minimum Payment Due 250.00" in
  (Py.any_in EmiratesIslamic.SKIP_KEYWORDS (Py.lower (Py.strip line)) = true ->
   st = st)
  /\ (EmiratesIslamic.transactions st <> EmiratesIslamic.transactions st ->
      EmiratesIslamic.pending_range st = Some "to")
  /\ (EmiratesIslamic.pending_range st = None ->
      Re.match_ EmiratesIslamic.FROM_TO_REGEX (Py.strip line) <> None
      \/ Py.truthy (EmiratesIslamic._parse_full_date (Py.strip line)) = true).
Proof.
  intros st line.
  apply (pending_marker_kept keep_date st st line "to").
  - reflexivity.
  - vm_compute. reflexivity.
Defined.

(** C8 as stated fails: after the bare marker [To], a boilerplate line
    and a transaction line both leave the marker pending. *)
Lemma pending_marker_counterexample :
  pending_after ["To"] = Some (Some "to")
  /\ pending_after ["To"; "Minimum Payment Due 250.00"] = Some (Some "to")
  /\ Re.match_ EmiratesIslamic.LINE_REGEX
       "14 AUG 12 AUG RTA-ETISALAT DUBAI ARE 100.00" <> None
  /\ pending_after ["To"; "14 AUG 12 AUG RTA-ETISALAT DUBAI ARE 100.00"]
     = Some (Some "to")
  /\ count_after ["To"; "14 AUG 12 AUG RTA-ETISALAT DUBAI ARE 100.00"]
     = Some 1
  /\ ~ (forall (st st' : EmiratesIslamic.state) (line : string),
          EmiratesIslamic.pending_range st <> None ->
          Py.any_in EmiratesIslamic.SKIP_KEYWORDS (Py.lower (Py.strip line)) = true
          \/ Re.match_ EmiratesIslamic.LINE_REGEX (Py.strip line) <> None ->
          EmiratesIslamic.step keep_date st line = Py.Ok st' ->
          EmiratesIslamic.pending_range st' = None).
Proof.
  repeat (split; [vm_compute; congruence|]).
  intros Hclaim.
  specialize (Hclaim
    {| EmiratesIslamic.transactions := [];
       EmiratesIslamic.statement_from := None;
       EmiratesIslamic.statement_to := None;
       EmiratesIslamic.pending_range := Some "to" |}
    {| EmiratesIslamic.transactions := [];
       EmiratesIslamic.statement_from := None;
       EmiratesIslamic.statement_to := None;
       EmiratesIslamic.pending_range := Some "to" |}
    "Minimum Payment Due 250.00").
  cbn [EmiratesIslamic.pending_range] in Hclaim.
  assert (Hno : Some "to" = @None string) by
    (apply Hclaim; [discriminate | left; vm_compute; reflexivity
                   | vm_compute; reflexivity]).
  discriminate Hno.
Qed.

(** C9, as the code has it.  With a marker pending, a line that is not
    boilerplate, not a labelled From/To line and not itself a bare
    marker is tried as a full date: when it parses it becomes the
    pending boundary and the marker is cleared, when it does not the
    marker stays.  So the lines [To], a free line, a boilerplate line
    and [14th Jan 2025] give [to_date = 2025-01-14], whatever the
    helpers are. *)
Theorem pending_date_resolution :
  (forall (normalize_date : string -> string -> option string)
          (st st' : EmiratesIslamic.state) (line : string),
      Py.truthy (EmiratesIslamic.pending_range st) = true ->
      Py.any_in EmiratesIslamic.SKIP_KEYWORDS (Py.lower (Py.strip line)) = false ->
      Re.match_ EmiratesIslamic.FROM_TO_REGEX (Py.strip line) = None ->
      Py.truthy (EmiratesIslamic._normalize_range_token (Py.strip line)) = false ->
      EmiratesIslamic.step normalize_date st line = Py.Ok st' ->
      (Py.truthy (EmiratesIslamic._parse_full_date (Py.strip line)) = true ->
       st' = EmiratesIslamic.set_boundary st
               (EmiratesIslamic.opt_is (EmiratesIslamic.pending_range st) "from")
               (EmiratesIslamic._parse_full_date (Py.strip line)))
      /\ (Py.truthy (EmiratesIslamic._parse_full_date (Py.strip line)) = false ->
          EmiratesIslamic.pending_range st' = EmiratesIslamic.pending_range st))
  /\ (forall (S : Type) (normalize_date : string -> string -> option string)
             (normalize_transactions :
                list Common.Transaction -> string -> string ->
                list Common.Transaction)
             (summarize_transactions : list Common.Transaction -> S),
         period_of
           (EmiratesIslamic.parse_emiratesislamic S
              (fun _ _ => Common.OpenedPdf
                 [page_of ["To"; "Statement of account";
                           "Minimum Payment Due 250.00"; "14th Jan 2025"]])
              normalize_date normalize_transactions summarize_transactions
              "statement.pdf" None)
         = Some (None, Some "2025-01-14")).
Proof.
  split.
  - intros normalize_date st st' line Hp Hskip Hlab Htok Hstep.
    unfold EmiratesIslamic.step, EmiratesIslamic.match_line,
      EmiratesIslamic.emit, Py.bind in Hstep.
    rewrite Hskip, Hlab, Htok, Hp in Hstep.
    destruct (Py.strip line =? "")%string eqn:Hblank.
    + inversion Hstep; subst; clear Hstep. split; intros H; [|reflexivity].
      apply String.eqb_eq in Hblank. rewrite Hblank in H.
      vm_compute in H. discriminate H.
    + destruct (Py.truthy (EmiratesIslamic._parse_full_date (Py.strip line)))
        eqn:Hdate.
      * inversion Hstep; subst. split; intros H; [reflexivity|discriminate H].
      * split; intros H; [discriminate H|].
        break_tests Hstep; inversion Hstep; subst; reflexivity.
  - intros S normalize_date normalize_transactions summarize_transactions.
    vm_compute. reflexivity.
Qed.

Lemma pending_date_resolution_witness :
  let st := {| EmiratesIslamic.transactions := [];
               EmiratesIslamic.statement_from := None;
               EmiratesIslamic.statement_to := None;
               EmiratesIslamic.pending_range := Some "to" |} in
  let st' := {| EmiratesIslamic.transactions := [];
                EmiratesIslamic.statement_from := None;
                EmiratesIslamic.statement_to := Some "2025-01-14";
                EmiratesIslamic.pending_range := None |} in
  Py.truthy (EmiratesIslamic._parse_full_date (Py.strip "14th Jan 2025")) = true
  /\ st' = EmiratesIslamic.set_boundary st
             (EmiratesIslamic.opt_is (EmiratesIslamic.pending_range st) "from")
             (EmiratesIslamic._parse_full_date (Py.strip "14th Jan 2025")).
Proof.
  intros st st'.
  assert (Hdate : Py.truthy (EmiratesIslamic._parse_full_date
                               (Py.strip "14th Jan 2025")) = true)
    by (vm_compute; reflexivity).
  split; [exact Hdate|].
  refine (proj1 (proj1 pending_date_resolution keep_date st st'
                   "14th Jan 2025" _ _ _ _ _) Hdate);
    vm_compute; reflexivity.
Defined.

(** C9 as stated fails: after the bare marker [To], the line [From] is
    not boilerplate and is not a date, yet the pending marker is no
    longer the one that was set, and the date that follows goes to
    [from_date]; a labelled line whose date does not parse clears the
    marker, and the date that follows is lost. *)
Lemma pending_date_counterexample :
  pending_after ["To"] = Some (Some "to")
  /\ Py.any_in EmiratesIslamic.SKIP_KEYWORDS (Py.lower "From") = false
  /\ EmiratesIslamic._parse_full_date "From" = None
  /\ pending_after ["To"; "From"] = Some (Some "from")
  /\ period_after ["To"; "From"; "14th Jan 2025"]
     = Some (Some "2025-01-14", None)
  /\ Py.any_in EmiratesIslamic.SKIP_KEYWORDS (Py.lower "To: 32nd Jan 2025")
     = false
  /\ EmiratesIslamic._parse_full_date "To: 32nd Jan 2025" = None
  /\ pending_after ["To"; "To: 32nd Jan 2025"] = Some None
  /\ period_after ["To"; "To: 32nd Jan 2025"; "14th Jan 2025"]
     = Some (None, None)
  /\ ~ (forall (st st' : EmiratesIslamic.state) (line p : string),
          EmiratesIslamic.pending_range st = Some p ->
          Py.any_in EmiratesIslamic.SKIP_KEYWORDS (Py.lower (Py.strip line)) = false ->
          EmiratesIslamic._parse_full_date (Py.strip line) = None ->
          EmiratesIslamic.step keep_date st line = Py.Ok st' ->
          EmiratesIslamic.pending_range st' = Some p).
Proof.
  repeat (split; [vm_compute; reflexivity|]).
  intros Hclaim.
  specialize (Hclaim
    {| EmiratesIslamic.transactions := [];
       EmiratesIslamic.statement_from := None;
       EmiratesIslamic.statement_to := None;
       EmiratesIslamic.pending_range := Some "to" |}
    {| EmiratesIslamic.transactions := [];
       EmiratesIslamic.statement_from := None;
       EmiratesIslamic.statement_to := None;
       EmiratesIslamic.pending_range := None |}
    "To: 32nd Jan 2025" "to").
  cbn [EmiratesIslamic.pending_range] in Hclaim.
  assert (Hno : @None string = Some "to") by
    (apply Hclaim; vm_compute; reflexivity).
  discriminate Hno.
Qed.

(** ** C3: the statement period *)

Lemma marker_inv_initial : marker_inv EmiratesIslamic.initial.
Proof. split; cbn; auto; discriminate. Qed.

Lemma arabic_map_values (token v : string) :
  EmiratesIslamic.arabic_map !! token = Some v -> v = "from" \/ v = "to".
Proof.
  unfold EmiratesIslamic.arabic_map. intros H.
  apply elem_of_list_to_map_2 in H.
  repeat (apply elem_of_cons in H as [H|H]; [inversion H; auto|]).
  inversion H.
Qed.

Lemma range_token_values (raw v : string) :
  EmiratesIslamic._normalize_range_token raw = Some v ->
  v = "from" \/ v = "to".
Proof.
  unfold EmiratesIslamic._normalize_range_token.
  destruct (_ =? "")%string; [discriminate|].
  destruct (_ =? "from")%string eqn:Ef; cbn [orb].
  - intros H; inversion H. apply String.eqb_eq in Ef. auto.
  - destruct (_ =? "to")%string eqn:Et.
    + intros H; inversion H. apply String.eqb_eq in Et. auto.
    + apply arabic_map_values.
Qed.

Section Period.
Variable normalize_date : string -> string -> option string.

Lemma unset_of_falsy (o : option string) :
  o = None \/ Py.truthy o = true -> Py.truthy o = false -> o = None.
Proof. intros [H|H] Hf; [exact H | congruence]. Qed.

Lemma opt_is_to_of_token (raw : string) :
  Py.truthy (EmiratesIslamic._normalize_range_token raw) = true ->
  EmiratesIslamic.opt_is (EmiratesIslamic._normalize_range_token raw) "from"
  = false ->
  EmiratesIslamic.opt_is (EmiratesIslamic._normalize_range_token raw) "to"
  = true.
Proof.
  destruct (EmiratesIslamic._normalize_range_token raw) as [v|] eqn:E;
    [|discriminate].
  destruct (range_token_values raw v E) as [-> | ->]; cbn; congruence.
Qed.

Lemma emirates_step_marker_inv (st st' : EmiratesIslamic.state) (line : string) :
  marker_inv st ->
  EmiratesIslamic.step normalize_date st line = Py.Ok st' ->
  marker_inv st'.
Proof.
  intros Hinv Hstep.
  unfold EmiratesIslamic.step, EmiratesIslamic.match_line,
    EmiratesIslamic.emit, Py.bind in Hstep.
  destruct (Py.strip line =? "")%string; [now inversion Hstep; subst|].
  destruct (Py.any_in _ _); [now inversion Hstep; subst|].
  destruct (Re.match_ EmiratesIslamic.FROM_TO_REGEX _) as [[rest g]|].
  - (* a labelled line *)
    destruct Hinv as [HA HB HC HD].
    destruct (Py.truthy (EmiratesIslamic._parse_full_date _)) eqn:Hdate;
      inversion Hstep; subst; clear Hstep;
      split; cbn; try discriminate; auto;
      destruct (_ =? "from")%string; auto.
  - destruct (Py.truthy (EmiratesIslamic._normalize_range_token _)) eqn:Htok.
    + (* a bare marker *)
      destruct (EmiratesIslamic.opt_is _ "from" && _) eqn:Hfrom;
        [now inversion Hstep; subst|].
      destruct (EmiratesIslamic.opt_is _ "to" && _) eqn:Hto;
        [now inversion Hstep; subst|].
      inversion Hstep; subst; clear Hstep.
      destruct Hinv as [HA HB HC HD]. split; cbn; auto.
      * intros Hf. rewrite Hf in Hfrom. cbn in Hfrom.
        now apply unset_of_falsy.
      * intros _ Hf. rewrite (opt_is_to_of_token _ Htok Hf) in Hto.
        cbn in Hto. now apply unset_of_falsy.
    + destruct (Py.truthy (EmiratesIslamic.pending_range st)) eqn:Hpend.
      * destruct (Py.truthy (EmiratesIslamic._parse_full_date _)) eqn:Hdate.
        -- (* the date of a pending marker *)
           inversion Hstep; subst; clear Hstep.
           destruct Hinv as [HA HB HC HD].
           split; cbn; try discriminate; auto;
             destruct (EmiratesIslamic.opt_is _ "from"); auto.
        -- break_tests Hstep; inversion Hstep; subst; clear Hstep;
             destruct Hinv as [HA HB HC HD]; split; cbn; auto.
      * break_tests Hstep; inversion Hstep; subst; clear Hstep;
          destruct Hinv as [HA HB HC HD]; split; cbn; auto.
Qed.

Lemma emirates_step_from_kept (st st' : EmiratesIslamic.state)
  (line v : string) :
  marker_inv st ->
  EmiratesIslamic.statement_from st = Some v ->
  labelled_boundary line <> Some true ->
  EmiratesIslamic.step normalize_date st line = Py.Ok st' ->
  EmiratesIslamic.statement_from st' = Some v.
Proof.
  intros [HA HB HC HD] Hv Hlab Hstep.
  unfold labelled_boundary in Hlab.
  unfold EmiratesIslamic.step, EmiratesIslamic.match_line,
    EmiratesIslamic.emit, Py.bind in Hstep.
  destruct (Py.strip line =? "")%string; [now inversion Hstep; subst|].
  destruct (Py.any_in _ _); [now inversion Hstep; subst|].
  destruct (Re.match_ EmiratesIslamic.FROM_TO_REGEX _) as [[rest g]|].
  - destruct (Py.truthy (EmiratesIslamic._parse_full_date _));
      inversion Hstep; subst; clear Hstep; cbn; [|exact Hv].
    destruct (_ =? "from")%string; [congruence | exact Hv].
  - destruct (Py.truthy (EmiratesIslamic._normalize_range_token _)).
    + break_tests Hstep; inversion Hstep; subst; exact Hv.
    + destruct (Py.truthy (EmiratesIslamic.pending_range st)).
      * destruct (Py.truthy (EmiratesIslamic._parse_full_date _)).
        -- inversion Hstep; subst; clear Hstep; cbn.
           destruct (EmiratesIslamic.opt_is _ "from");
             [rewrite HA in Hv by reflexivity; discriminate Hv | exact Hv].
        -- break_tests Hstep; inversion Hstep; subst; exact Hv.
      * break_tests Hstep; inversion Hstep; subst; exact Hv.
Qed.

Lemma emirates_step_to_kept (st st' : EmiratesIslamic.state)
  (line v : string) :
  marker_inv st ->
  EmiratesIslamic.statement_to st = Some v ->
  labelled_boundary line <> Some false ->
  EmiratesIslamic.step normalize_date st line = Py.Ok st' ->
  EmiratesIslamic.statement_to st' = Some v.
Proof.
  intros [HA HB HC HD] Hv Hlab Hstep.
  unfold labelled_boundary in Hlab.
  unfold EmiratesIslamic.step, EmiratesIslamic.match_line,
    EmiratesIslamic.emit, Py.bind in Hstep.
  destruct (Py.strip line =? "")%string; [now inversion Hstep; subst|].
  destruct (Py.any_in _ _); [now inversion Hstep; subst|].
  destruct (Re.match_ EmiratesIslamic.FROM_TO_REGEX _) as [[rest g]|].
  - destruct (Py.truthy (EmiratesIslamic._parse_full_date _));
      inversion Hstep; subst; clear Hstep; cbn; [|exact Hv].
    destruct (_ =? "from")%string; [exact Hv | congruence].
  - destruct (Py.truthy (EmiratesIslamic._normalize_range_token _)).
    + break_tests Hstep; inversion Hstep; subst; exact Hv.
    + destruct (Py.truthy (EmiratesIslamic.pending_range st)) eqn:Hpend.
      * destruct (Py.truthy (EmiratesIslamic._parse_full_date _)).
        -- inversion Hstep; subst; clear Hstep; cbn.
           destruct (EmiratesIslamic.opt_is _ "from") eqn:Hfrom;
             [exact Hv|].
           rewrite HB in Hv by reflexivity. discriminate Hv.
        -- break_tests Hstep; inversion Hstep; subst; exact Hv.
      * break_tests Hstep; inversion Hstep; subst; exact Hv.
Qed.

(** From a state where the invariant holds, lines that are not labelled
    for a boundary leave that boundary as it is. *)
Lemma emirates_lines_kept (lines : list string) :
  forall st st', marker_inv st ->
    Common.for_each (EmiratesIslamic.step normalize_date) st lines = Py.Ok st' ->
    marker_inv st'
    /\ (forall v, EmiratesIslamic.statement_from st = Some v ->
          Forall (fun l => labelled_boundary l <> Some true) lines ->
          EmiratesIslamic.statement_from st' = Some v)
    /\ (forall v, EmiratesIslamic.statement_to st = Some v ->
          Forall (fun l => labelled_boundary l <> Some false) lines ->
          EmiratesIslamic.statement_to st' = Some v).
Proof.
  induction lines as [|x lines IH]; intros st st' Hinv Hrun; simpl in Hrun.
  - inversion Hrun; subst. auto.
  - destruct (EmiratesIslamic.step normalize_date st x) as [s1|e] eqn:E;
      simpl in Hrun; [|discriminate].
    pose proof (emirates_step_marker_inv st s1 x Hinv E) as Hinv1.
    destruct (IH s1 st' Hinv1 Hrun) as (Hinv' & Hf & Ht).
    split; [exact Hinv'|]. split; intros v Hv Hall; inversion Hall; subst.
    + apply Hf; [|assumption]. now apply (emirates_step_from_kept st s1 x v).
    + apply Ht; [|assumption]. now apply (emirates_step_to_kept st s1 x v).
Qed.

(** The pending marker lives across pages: [parse_emiratesislamic] runs
    one loop over the lines of the whole document. *)
Lemma emirates_pages_lines (pages : list (option string)) :
  forall st,
    EmiratesIslamic.pages_loop normalize_date st pages
    = Common.for_each (EmiratesIslamic.step normalize_date) st
        (document_lines pages).
Proof.
  induction pages as [|p ps IH]; intros st; [reflexivity|].
  unfold document_lines; simpl. rewrite for_each_app.
  unfold EmiratesIslamic.page_step.
  destruct (Common.for_each _ st _); simpl; [apply IH | reflexivity].
Qed.

Lemma rakbank_step_period_kept (st st' : Rakbank.state) (raw : string) :
  period_line raw = false ->
  Rakbank.step normalize_date st raw = Py.Ok st' ->
  Rakbank.statement_from st' = Rakbank.statement_from st
  /\ Rakbank.statement_to st' = Rakbank.statement_to st.
Proof.
  intros Hp Hstep. unfold period_line in Hp.
  unfold Rakbank.step, Py.bind in Hstep.
  destruct (Py.any_in _ _); [now inversion Hstep; subst|].
  destruct (Py.contains "statement period" _).
  - destruct (Re.search _ _) as [[rest g]|]; [discriminate Hp|].
    now inversion Hstep; subst.
  - break_tests Hstep; inversion Hstep; subst; cbn; auto.
Qed.

Lemma rakbank_lines_period_kept (lines : list string) :
  forall st st', Forall (fun l => period_line l = false) lines ->
    Common.for_each (Rakbank.step normalize_date) st lines = Py.Ok st' ->
    Rakbank.statement_from st' = Rakbank.statement_from st
    /\ Rakbank.statement_to st' = Rakbank.statement_to st.
Proof.
  induction lines as [|x lines IH]; intros st st' Hall Hrun; simpl in Hrun.
  - now inversion Hrun; subst.
  - inversion Hall; subst.
    destruct (Rakbank.step normalize_date st x) as [s1|e] eqn:E;
      simpl in Hrun; [|discriminate].
    destruct (rakbank_step_period_kept st s1 x) as [Ha Hb]; auto.
    destruct (IH s1 st') as [Hc Hd]; auto. split; congruence.
Qed.
Lemma rakbank_step_kept (st st' : Rakbank.state) (raw : string) :
  sets_period raw = false ->
  Rakbank.step normalize_date st raw = Py.Ok st' ->
  Rakbank.statement_from st' = Rakbank.statement_from st
  /\ Rakbank.statement_to st' = Rakbank.statement_to st.
Proof.
  intros Hp Hstep. unfold sets_period in Hp.
  destruct (Py.any_in Rakbank.SKIP_KEYWORDS (Py.lower raw)) eqn:Hskip.
  - unfold Rakbank.step in Hstep. rewrite Hskip in Hstep.
    now inversion Hstep; subst.
  - now apply (rakbank_step_period_kept st st' raw).
Qed.

Lemma rakbank_lines_kept (lines : list string) :
  forall st st', Forall (fun l => sets_period l = false) lines ->
    Common.for_each (Rakbank.step normalize_date) st lines = Py.Ok st' ->
    Rakbank.statement_from st' = Rakbank.statement_from st
    /\ Rakbank.statement_to st' = Rakbank.statement_to st.
Proof.
  induction lines as [|x lines IH]; intros st st' Hall Hrun; simpl in Hrun.
  - now inversion Hrun; subst.
  - inversion Hall; subst.
    destruct (Rakbank.step normalize_date st x) as [s1|e] eqn:E;
      simpl in Hrun; [|discriminate].
    destruct (rakbank_step_kept st s1 x) as [Ha Hb]; auto.
    destruct (IH s1 st') as [Hc Hd]; auto. split; congruence.
Qed.

(** A labelled line whose date parses assigns the boundary it names,
    whatever the boundary holds (lines 96-106). *)
Lemma emirates_step_labelled (st : EmiratesIslamic.state) (line : string)
  (b : bool) :
  Py.any_in EmiratesIslamic.SKIP_KEYWORDS (Py.lower (Py.strip line)) = false ->
  labelled_boundary line = Some b ->
  Py.truthy (labelled_date line) = true
  /\ EmiratesIslamic.step normalize_date st line
     = Py.Ok (EmiratesIslamic.set_boundary st b (labelled_date line)).
Proof.
  intros Hskip Hlab. unfold labelled_boundary in Hlab.
  unfold labelled_date, EmiratesIslamic.step.
  destruct (Py.strip line =? "")%string eqn:Eb.
  { apply String.eqb_eq in Eb. rewrite Eb in Hlab.
    vm_compute in Hlab. discriminate Hlab. }
  rewrite Hskip.
  destruct (Re.match_ EmiratesIslamic.FROM_TO_REGEX (Py.strip line))
    as [[rest g]|]; [|discriminate Hlab].
  destruct (Py.truthy (EmiratesIslamic._parse_full_date (Common.grp g 2)))
    eqn:Ht; [|discriminate Hlab].
  inversion Hlab; subst. split; reflexivity.
Qed.

(** A bare marker for a boundary that is set is passed over (lines
    108-113). *)
Lemma emirates_step_marker_guard (st : EmiratesIslamic.state)
  (line : string) :
  Re.match_ EmiratesIslamic.FROM_TO_REGEX (Py.strip line) = None ->
  (EmiratesIslamic.opt_is
     (EmiratesIslamic._normalize_range_token (Py.strip line)) "from" = true
   /\ Py.truthy (EmiratesIslamic.statement_from st) = true)
  \/ (EmiratesIslamic.opt_is
        (EmiratesIslamic._normalize_range_token (Py.strip line)) "to" = true
      /\ Py.truthy (EmiratesIslamic.statement_to st) = true) ->
  EmiratesIslamic.step normalize_date st line = Py.Ok st.
Proof.
  intros Hm H. unfold EmiratesIslamic.step.
  destruct (Py.strip line =? "")%string; [reflexivity|].
  destruct (Py.any_in _ _); [reflexivity|].
  rewrite Hm.
  destruct (EmiratesIslamic._normalize_range_token (Py.strip line))
    as [tok|]; [|destruct H as [[H _]|[H _]]; discriminate H].
  cbn [EmiratesIslamic.opt_is] in *.
  destruct H as [[Ho Ht]|[Ho Ht]]; apply String.eqb_eq in Ho; subst tok;
    rewrite Ht; reflexivity.
Qed.

(** A statement-period line without a boilerplate phrase assigns both
    boundaries, whatever they hold (lines 70-77). *)
Lemma rakbank_step_sets (st : Rakbank.state) (raw : string) :
  sets_period raw = true ->
  Rakbank.step normalize_date st raw
  = Py.Ok {| Rakbank.transactions := Rakbank.transactions st;
             Rakbank.statement_from := fst (period_dates normalize_date raw);
             Rakbank.statement_to := snd (period_dates normalize_date raw);
             Rakbank.buffer_desc := Rakbank.buffer_desc st |}.
Proof.
  intros Hp. unfold sets_period, period_line in Hp.
  apply andb_true_iff in Hp as [Hskip Hp].
  apply negb_true_iff in Hskip.
  apply andb_true_iff in Hp as [Hc Hp].
  unfold Rakbank.step, period_dates. rewrite Hskip, Hc.
  destruct (Re.search Rakbank.STATEMENT_PERIOD_RE raw) as [[rest g]|];
    [reflexivity | discriminate Hp].
Qed.
End Period.

(** C3, on the code.  The first value of a boundary is not always the
    one returned.  In [parse_emiratesislamic] a labelled line whose date
    parses assigns the boundary it names whatever the boundary holds
    (lines 96-106), while the branch of the bare markers, next to it,
    passes over a marker for a boundary that is set (lines 108-113); a
    boundary that is set keeps its value through every later line that
    is not a labelled line for it with a date that parses.  In
    [parse_rakbank] a statement-period line that holds no boilerplate
    phrase and matches the pattern assigns both boundaries whatever they
    hold (lines 70-77), and the period keeps its value through every
    other line.  So [From: 11th Jul 2025] followed by
    [From: 12th Jul 2025] returns the from date 2025-07-12, where the
    bare marker [From] followed by [12th Jul 2025] leaves 2025-07-11; and
    a second statement-period line replaces the period of the first,
    unless it also holds a boilerplate phrase. *)
Theorem period_boundary_overwritten :
  (forall (normalize_date : string -> string -> option string)
          (st : EmiratesIslamic.state) (line : string) (b : bool),
      Py.any_in EmiratesIslamic.SKIP_KEYWORDS (Py.lower (Py.strip line))
      = false ->
      labelled_boundary line = Some b ->
      Py.truthy (labelled_date line) = true
      /\ EmiratesIslamic.step normalize_date st line
         = Py.Ok (EmiratesIslamic.set_boundary st b (labelled_date line)))
  /\ (forall (normalize_date : string -> string -> option string)
             (st : EmiratesIslamic.state) (line : string),
         Re.match_ EmiratesIslamic.FROM_TO_REGEX (Py.strip line) = None ->
         (EmiratesIslamic.opt_is
            (EmiratesIslamic._normalize_range_token (Py.strip line)) "from"
          = true
          /\ Py.truthy (EmiratesIslamic.statement_from st) = true)
         \/ (EmiratesIslamic.opt_is
               (EmiratesIslamic._normalize_range_token (Py.strip line)) "to"
             = true
             /\ Py.truthy (EmiratesIslamic.statement_to st) = true) ->
         EmiratesIslamic.step normalize_date st line = Py.Ok st)
  /\ (forall (normalize_date : string -> string -> option string)
             (pages : list (option string)) (lines1 lines2 : list string)
             (st1 st2 : EmiratesIslamic.state),
         document_lines pages = lines1 ++ lines2 ->
         Common.for_each (EmiratesIslamic.step normalize_date)
           EmiratesIslamic.initial lines1 = Py.Ok st1 ->
         EmiratesIslamic.pages_loop normalize_date EmiratesIslamic.initial
           pages = Py.Ok st2 ->
         (forall v, EmiratesIslamic.statement_from st1 = Some v ->
            Forall (fun l => labelled_boundary l <> Some true) lines2 ->
            EmiratesIslamic.statement_from st2 = Some v)
         /\ (forall v, EmiratesIslamic.statement_to st1 = Some v ->
               Forall (fun l => labelled_boundary l <> Some false) lines2 ->
               EmiratesIslamic.statement_to st2 = Some v))
  /\ (forall (normalize_date : string -> string -> option string)
             (st : Rakbank.state) (raw : string),
         sets_period raw = true ->
         Rakbank.step normalize_date st raw
         = Py.Ok {| Rakbank.transactions := Rakbank.transactions st;
                    Rakbank.statement_from :=
                      fst (period_dates normalize_date raw);
                    Rakbank.statement_to :=
                      snd (period_dates normalize_date raw);
                    Rakbank.buffer_desc := Rakbank.buffer_desc st |})
  /\ (forall (normalize_date : string -> string -> option string)
             (lines : list string) (st st' : Rakbank.state),
         Forall (fun l => sets_period l = false) lines ->
         Common.for_each (Rakbank.step normalize_date) st lines = Py.Ok st' ->
         Rakbank.statement_from st' = Rakbank.statement_from st
         /\ Rakbank.statement_to st' = Rakbank.statement_to st)
  /\ period_after ["From: 11th Jul 2025"] = Some (Some "2025-07-11", None)
  /\ period_after ["From: 11th Jul 2025"; "From: 12th Jul 2025"]
     = Some (Some "2025-07-12", None)
  /\ period_of (emirates_on keep_date
                  [page_of ["From: 11th Jul 2025"; "From: 12th Jul 2025"]])
     = Some (Some "2025-07-12", None)
  /\ period_after ["From: 11th Jul 2025"; "From"; "12th Jul 2025"]
     = Some (Some "2025-07-11", None)
  /\ rakbank_period_after ["Statement Period: 15/08/2025 TO 14/09/2025"]
     = Some (Some "15/08/2025", Some "14/09/2025")
  /\ rakbank_period_after ["Statement Period: 15/08/2025 TO 14/09/2025";
                           "Statement Period: 15/09/2025 TO 14/10/2025"]
     = Some (Some "15/09/2025", Some "14/10/2025")
  /\ period_of (rakbank_on
                  [page_of ["Statement Period: 15/08/2025 TO 14/09/2025";
                            "Statement Period: 15/09/2025 TO 14/10/2025"]])
     = Some (Some "15/09/2025", Some "14/10/2025")
  /\ rakbank_period_after
       ["Statement Period: 15/08/2025 TO 14/09/2025";
        "Statement Period: 15/09/2025 TO 14/10/2025 Credit Limit 5,000.00"]
     = Some (Some "15/08/2025", Some "14/09/2025").
Proof.
  split; [intros nd; apply emirates_step_labelled|].
  split; [intros nd; apply emirates_step_marker_guard|].
  split.
  { intros normalize_date pages lines1 lines2 st1 st2 Hdoc H1 H2.
    rewrite emirates_pages_lines, Hdoc, for_each_app, H1 in H2.
    cbn [Py.bind] in H2.
    destruct (emirates_lines_kept normalize_date lines1
                EmiratesIslamic.initial st1 marker_inv_initial H1)
      as (Hinv1 & _ & _).
    destruct (emirates_lines_kept normalize_date lines2 st1 st2 Hinv1 H2)
      as (_ & Hf & Ht).
    split; assumption. }
  split; [intros nd; apply rakbank_step_sets|].
  split; [intros nd; apply rakbank_lines_kept|].
  repeat (split; [vm_compute; reflexivity|]).
  vm_compute. reflexivity.
Qed.

Lemma period_boundary_overwritten_witness :
  Py.truthy (labelled_date "From: 12th Jul 2025") = true
  /\ EmiratesIslamic.step keep_date july_state1 "From: 12th Jul 2025"
     = Py.Ok (EmiratesIslamic.set_boundary july_state1 true
                (labelled_date "From: 12th Jul 2025")).
Proof.
  apply (proj1 period_boundary_overwritten keep_date july_state1
           "From: 12th Jul 2025" true);
    vm_compute; reflexivity.
Defined.

(** ** C7 and C10: the description buffer of [parse_rakbank] *)

Section Buffer.
Variable normalize_date : string -> string -> option string.

Lemma rakbank_step_free (st : Rakbank.state) (raw : string) :
  is_free_text raw = true ->
  Rakbank.step normalize_date st raw
  = Py.Ok (with_buffer st (Rakbank.buffer_desc st ++ [raw])).
Proof.
  unfold is_free_text, Rakbank.step. intros H.
  apply andb_prop in H as [H Hfx]. apply andb_prop in H as [H Haed].
  apply andb_prop in H as [Hskip Hper].
  apply negb_true_iff in Hskip, Hper. rewrite Hskip, Hper.
  destruct (Re.match_ Rakbank.RAKBANK_LINE_REGEX raw); [discriminate Haed|].
  destruct (Re.match_ Rakbank.RAKBANK_FX_REGEX raw); [discriminate Hfx|].
  reflexivity.
Qed.

Lemma rakbank_lines_free (l : list string) :
  Forall (fun raw => is_free_text raw = true) l ->
  forall st, Common.for_each (Rakbank.step normalize_date) st l
             = Py.Ok (with_buffer st (Rakbank.buffer_desc st ++ l)).
Proof.
  induction 1 as [|x l Hx Hl IH]; intros st; simpl.
  - rewrite app_nil_r. now destruct st.
  - rewrite (rakbank_step_free st x Hx). cbn [Py.bind]. rewrite IH.
    unfold with_buffer; cbn. now rewrite <- app_assoc.
Qed.

(** A page starts from an empty buffer, whatever the buffer was. *)
Lemma rakbank_page_step_reset (st st' : Rakbank.state) (p : option string) :
  call_vars st = call_vars st' ->
  Rakbank.page_step normalize_date st p = Rakbank.page_step normalize_date st' p.
Proof.
  unfold call_vars, Rakbank.page_step. intros H. inversion H as [[Ht Hf Hto]].
  now rewrite Ht, Hf, Hto.
Qed.

Lemma rakbank_pages_reset (pages : list (option string)) :
  forall st st', call_vars st = call_vars st' ->
    call_result (Rakbank.pages_loop normalize_date st pages)
    = call_result (Rakbank.pages_loop normalize_date st' pages).
Proof.
  destruct pages as [|p ps]; intros st st' H; simpl.
  - now rewrite H.
  - now rewrite (rakbank_page_step_reset st st' p H).
Qed.

Lemma rakbank_pages_app (ps1 ps2 : list (option string)) :
  forall st,
    Rakbank.pages_loop normalize_date st (ps1 ++ ps2)
    = do st' <- Rakbank.pages_loop normalize_date st ps1;
      Rakbank.pages_loop normalize_date st' ps2.
Proof.
  induction ps1 as [|p ps1 IH]; intros st; simpl; [reflexivity|].
  destruct (Rakbank.page_step normalize_date st p); simpl;
    [apply IH | reflexivity].
Qed.

(** Free text at the end of a page changes the buffer only. *)
Lemma rakbank_page_trailing (st : Rakbank.state) (page page' : option string)
  (l : list string) :
  Rakbank.page_lines (Common.page_text page)
  = Rakbank.page_lines (Common.page_text page') ++ l ->
  Forall (fun raw => is_free_text raw = true) l ->
  match Rakbank.page_step normalize_date st page',
        Rakbank.page_step normalize_date st page with
  | Py.Ok s', Py.Ok s => call_vars s = call_vars s'
  | Py.Raise e', Py.Raise e => e = e'
  | _, _ => False
  end.
Proof.
  intros Hlines Hfree. unfold Rakbank.page_step.
  rewrite Hlines, for_each_app.
  destruct (Common.for_each _ _ (Rakbank.page_lines (Common.page_text page')))
    as [s'|e]; cbn [Py.bind]; [|reflexivity].
  rewrite (rakbank_lines_free l Hfree). reflexivity.
Qed.

Lemma rakbank_pages_trailing (ps1 ps2 : list (option string))
  (page page' : option string) (l : list string) (st : Rakbank.state) :
  Rakbank.page_lines (Common.page_text page)
  = Rakbank.page_lines (Common.page_text page') ++ l ->
  Forall (fun raw => is_free_text raw = true) l ->
  call_result (Rakbank.pages_loop normalize_date st (ps1 ++ page :: ps2))
  = call_result (Rakbank.pages_loop normalize_date st (ps1 ++ page' :: ps2)).
Proof.
  intros Hlines Hfree. rewrite !rakbank_pages_app.
  destruct (Rakbank.pages_loop normalize_date st ps1) as [s1|e];
    cbn [Py.bind]; [|reflexivity].
  change (Rakbank.pages_loop normalize_date s1 (page :: ps2))
    with (do s <- Rakbank.page_step normalize_date s1 page;
          Rakbank.pages_loop normalize_date s ps2).
  change (Rakbank.pages_loop normalize_date s1 (page' :: ps2))
    with (do s <- Rakbank.page_step normalize_date s1 page';
          Rakbank.pages_loop normalize_date s ps2).
  pose proof (rakbank_page_trailing s1 page page' l Hlines Hfree) as H.
  destruct (Rakbank.page_step normalize_date s1 page') as [s'|e'];
    destruct (Rakbank.page_step normalize_date s1 page) as [s|e];
    cbn [Py.bind]; try contradiction.
  - now apply rakbank_pages_reset.
  - now subst.
Qed.
End Buffer.

(** The value of [parse_rakbank] is made of the variables of the call. *)
Lemma parse_rakbank_call_result
    (S : Type) (normalize_date : string -> string -> option string)
    (normalize_transactions :
       list Common.Transaction -> string -> string -> list Common.Transaction)
    (summarize_transactions : list Common.Transaction -> S)
    (file_path : string) (password : option string)
    (pages : list (option string)) :
  Rakbank.parse_rakbank S (fun _ _ => Common.OpenedPdf pages) normalize_date
    normalize_transactions summarize_transactions file_path password
  = do v <- call_result
              (Rakbank.pages_loop normalize_date Rakbank.initial pages);
    let normalized :=
      normalize_transactions (fst (fst v)) Rakbank.BANK_NAME Rakbank.CARD_TYPE in
    Py.Ok (Common.Parsed
             {| Common.st_bank := Rakbank.BANK_NAME;
                Common.st_card_type := Rakbank.CARD_TYPE;
                Common.st_summary := summarize_transactions normalized;
                Common.st_transactions := normalized;
                Common.st_from_date := snd (fst v);
                Common.st_to_date := snd v |}).
Proof.
  unfold Rakbank.parse_rakbank.
  destruct (Rakbank.pages_loop normalize_date Rakbank.initial pages);
    reflexivity.
Qed.

(** C10.  [parse_rakbank] starts every page from an empty description
    buffer: the state after a page does not depend on the buffer it was
    entered with, and free text at the end of a page (lines [l] after
    which the page ends) has no effect on what the call returns,
    whatever pages follow. *)
Theorem buffer_reset_per_page
    (S : Type) (normalize_date : string -> string -> option string)
    (normalize_transactions :
       list Common.Transaction -> string -> string -> list Common.Transaction)
    (summarize_transactions : list Common.Transaction -> S)
    (file_path : string) (password : option string)
    (ps1 ps2 : list (option string)) (page page' : option string)
    (l : list string) :
  Rakbank.page_lines (Common.page_text page)
  = Rakbank.page_lines (Common.page_text page') ++ l ->
  Forall (fun raw => is_free_text raw = true) l ->
  (forall (st : Rakbank.state) (buf : list string) (p : option string),
      Rakbank.page_step normalize_date (with_buffer st buf) p
      = Rakbank.page_step normalize_date st p)
  /\ Rakbank.parse_rakbank S
       (fun _ _ => Common.OpenedPdf (ps1 ++ page :: ps2)) normalize_date
       normalize_transactions summarize_transactions file_path password
     = Rakbank.parse_rakbank S
         (fun _ _ => Common.OpenedPdf (ps1 ++ page' :: ps2)) normalize_date
         normalize_transactions summarize_transactions file_path password.
Proof.
  intros Hlines Hfree. split.
  - intros st buf p. now apply rakbank_page_step_reset.
  - rewrite !parse_rakbank_call_result.
    now rewrite (rakbank_pages_trailing normalize_date ps1 ps2 page page' l
                   Rakbank.initial Hlines Hfree).
Qed.

Lemma buffer_reset_per_page_witness :
  rakbank_on ([] ++ thanks_page :: [fx_page])
  = rakbank_on ([] ++ plain_page :: [fx_page])
  /\ map Common.description
       (parsed_transactions (rakbank_on ([] ++ thanks_page :: [fx_page])))
     = ["CARREFOUR"; ""].
Proof.
  split.
  - apply (buffer_reset_per_page unit keep_date keep_all no_summary
             "statement.pdf" None [] [fx_page] thanks_page plain_page
             ["Thank you for banking with us"]).
    + vm_compute. reflexivity.
    + constructor; [vm_compute; reflexivity | constructor].
  - vm_compute. reflexivity.
Defined.

(** C7, as the code has it.  In [parse_rakbank], free lines of a page
    (no boilerplate, no statement period, no transaction shape) are
    appended to the buffer in order; the next AED line takes the buffer,
    joined by spaces, before its own description, the next FX line
    takes the buffer as its whole description, unless the text of the
    buffer holds a drop hint, and both leave the buffer empty.  The page
    [PURCHASE AT], [SOME STORE DUBAI ARE], an AED line of description
    [CARREFOUR] gives one transaction described
    [PURCHASE AT SOME STORE DUBAI ARE CARREFOUR].
    [parse_emiratesislamic] has no buffer (see the counterexample). *)
Theorem description_continuation :
  (forall (normalize_date : string -> string -> option string)
          (st : Rakbank.state) (l : list string) (raw rest : string)
          (g : Re.caps) (amt bal : Num.float),
      Forall (fun x => is_free_text x = true) l ->
      Py.any_in Rakbank.SKIP_KEYWORDS (Py.lower raw) = false ->
      Py.contains "statement period" (Py.lower raw) = false ->
      Re.match_ Rakbank.RAKBANK_LINE_REGEX raw = Some (rest, g) ->
      Rakbank.clean_amount (Re.group g 3) = Py.Ok amt ->
      Rakbank.clean_amount (Re.group g 5) = Py.Ok bal ->
      exists t,
        Common.for_each (Rakbank.step normalize_date) st (l ++ [raw])
        = Py.Ok {| Rakbank.transactions := Rakbank.transactions st ++ [t];
                   Rakbank.statement_from := Rakbank.statement_from st;
                   Rakbank.statement_to := Rakbank.statement_to st;
                   Rakbank.buffer_desc := [] |}
        /\ Common.description t
           = Py.strip (Py.join " "
                         (Rakbank.kept_buffer (Rakbank.buffer_desc st ++ l)
                          ++ [Py.strip (Common.grp g 2)]))
        /\ (Py.any_in Rakbank.DROP_HINTS
              (Py.lower (Py.join " " (Rakbank.buffer_desc st ++ l))) = false ->
            Common.description t
            = Py.strip (Py.join " " ((Rakbank.buffer_desc st ++ l)
                                       ++ [Py.strip (Common.grp g 2)]))))
  /\ (forall (normalize_date : string -> string -> option string)
             (st : Rakbank.state) (l : list string) (raw rest : string)
             (g : Re.caps) (fx_amt fx_rate aed : Num.float),
         Forall (fun x => is_free_text x = true) l ->
         Py.any_in Rakbank.SKIP_KEYWORDS (Py.lower raw) = false ->
         Py.contains "statement period" (Py.lower raw) = false ->
         Re.match_ Rakbank.RAKBANK_LINE_REGEX raw = None ->
         Re.match_ Rakbank.RAKBANK_FX_REGEX raw = Some (rest, g) ->
         Rakbank.clean_amount (Re.group g 3) = Py.Ok fx_amt ->
         Rakbank.clean_amount (Re.group g 4) = Py.Ok fx_rate ->
         Rakbank.clean_amount (Re.group g 5) = Py.Ok aed ->
         exists t,
           Common.for_each (Rakbank.step normalize_date) st (l ++ [raw])
           = Py.Ok {| Rakbank.transactions := Rakbank.transactions st ++ [t];
                      Rakbank.statement_from := Rakbank.statement_from st;
                      Rakbank.statement_to := Rakbank.statement_to st;
                      Rakbank.buffer_desc := [] |}
           /\ Common.description t
              = Py.strip (Py.join " "
                            (Rakbank.kept_buffer (Rakbank.buffer_desc st ++ l)))
           /\ (Py.any_in Rakbank.DROP_HINTS
                 (Py.lower (Py.join " " (Rakbank.buffer_desc st ++ l))) = false ->
               Common.description t
               = Py.strip (Py.join " " (Rakbank.buffer_desc st ++ l))))
  /\ (forall (S : Type) (normalize_date : string -> string -> option string)
             (summarize_transactions : list Common.Transaction -> S),
         descriptions
           (Rakbank.parse_rakbank S
              (fun _ _ => Common.OpenedPdf
                            [page_of (store_lines ++ [store_line])])
              normalize_date keep_all summarize_transactions
              "statement.pdf" None)
         = ["PURCHASE AT SOME STORE DUBAI ARE CARREFOUR"]).
Proof.
  split; [|split].
  - intros normalize_date st l raw rest g amt bal
      Hfree Hskip Hper Hm Hamt Hbal.
    rewrite for_each_app, (rakbank_lines_free normalize_date l Hfree).
    cbn [Py.bind Common.for_each].
    unfold Rakbank.step. rewrite Hskip, Hper, Hm, Hamt, Hbal.
    cbn [Py.bind with_buffer Rakbank.buffer_desc Rakbank.transactions
         Rakbank.statement_from Rakbank.statement_to].
    eexists. split; [reflexivity|].
    cbn [Common.description]. split; [reflexivity|].
    intros Hdrop. unfold Rakbank.kept_buffer. now rewrite Hdrop.
  - intros normalize_date st l raw rest g fx_amt fx_rate aed
      Hfree Hskip Hper Hno Hm Hfx Hrate Haed.
    rewrite for_each_app, (rakbank_lines_free normalize_date l Hfree).
    cbn [Py.bind Common.for_each].
    unfold Rakbank.step. rewrite Hskip, Hper, Hno, Hm, Hfx, Hrate, Haed.
    cbn [Py.bind with_buffer Rakbank.buffer_desc Rakbank.transactions
         Rakbank.statement_from Rakbank.statement_to].
    eexists. split; [reflexivity|].
    cbn [Common.description]. split; [reflexivity|].
    intros Hdrop. unfold Rakbank.kept_buffer. now rewrite Hdrop.
  - intros S normalize_date summarize_transactions.
    vm_compute. reflexivity.
Qed.

Lemma description_continuation_witness :
  exists t,
    Common.for_each (Rakbank.step keep_date) Rakbank.initial
      (store_lines ++ [store_line])
    = Py.Ok {| Rakbank.transactions := [] ++ [t];
               Rakbank.statement_from := None;
               Rakbank.statement_to := None;
               Rakbank.buffer_desc := [] |}
    /\ Common.description t = "PURCHASE AT SOME STORE DUBAI ARE CARREFOUR".
Proof.
  destruct (proj1 description_continuation keep_date Rakbank.initial store_lines
              store_line "" store_groups
              (Num.Finite (Qred 1234.56)) (Num.Finite 2000))
    as (t & Hrun & Hdesc & _).
  - constructor; [vm_compute; reflexivity|].
    constructor; [vm_compute; reflexivity | constructor].
  - vm_compute. reflexivity.
  - vm_compute. reflexivity.
  - vm_compute. reflexivity.
  - vm_compute. reflexivity.
  - vm_compute. reflexivity.
  - exists t. split; [exact Hrun|]. rewrite Hdesc. vm_compute. reflexivity.
Defined.

(** C7 as stated fails for [parse_emiratesislamic]: lines that are not
    transactions are passed over, and the transaction has the
    description of its own line only. *)
Lemma description_continuation_counterexample :
  descriptions
    (emirates_on keep_date
       [page_of ["PURCHASE AT"; "SOME STORE DUBAI ARE";
                 "14 AUG 12 AUG RTA-ETISALAT DUBAI ARE 100.00"]])
  = ["RTA-ETISALAT DUBAI ARE"]
  /\ descriptions
       (emirates_on keep_date
          [page_of ["PURCHASE AT"; "SOME STORE DUBAI ARE";
                    "14 AUG 12 AUG RTA-ETISALAT DUBAI ARE 100.00"]])
     <> ["PURCHASE AT SOME STORE DUBAI ARE RTA-ETISALAT DUBAI ARE"].
Proof.
  split; vm_compute; [reflexivity | discriminate].
Qed.

(** * Properties of the records, the states and the dates *)

(** ** Facts on the [str] methods *)

Lemma lower_app (a b : string) :
  Py.lower (a +:+ b) = Py.lower a +:+ Py.lower b.
Proof. induction a as [|c a IH]; simpl; [reflexivity | now rewrite IH]. Qed.

Lemma prefix_app_r (k s q : string) :
  String.prefix k s = true -> String.prefix k (s +:+ q) = true.
Proof.
  revert s; induction k as [|c k IH]; intros s H;
    [now destruct (s +:+ q)|].
  destruct s as [|d s]; simpl in *; [discriminate|].
  destruct (Ascii.ascii_dec c d); [auto | discriminate].
Qed.

Lemma contains_app_r (k s q : string) :
  Py.contains k s = true -> Py.contains k (s +:+ q) = true.
Proof.
  induction s as [|c s IH]; simpl; intros H.
  - rewrite orb_false_r in H. destruct k; [|discriminate H].
    destruct q; reflexivity.
  - apply orb_true_iff in H as [H|H].
    + apply (prefix_app_r k (String c s) q) in H. simpl in H.
      rewrite H. reflexivity.
    + rewrite (IH H). apply orb_true_r.
Qed.

Lemma contains_app_l (k p s : string) :
  Py.contains k s = true -> Py.contains k (p +:+ s) = true.
Proof.
  intros H. induction p as [|c p IH]; simpl; [exact H|].
  rewrite IH. apply orb_true_r.
Qed.

Lemma lstrip_suffix (p : ascii -> bool) (s : string) :
  exists pre, s = pre +:+ Py.lstrip_with p s.
Proof.
  induction s as [|c s [pre IH]]; simpl; [now exists ""|].
  destruct (p c); [|now exists ""].
  exists (String c pre).
  change (String c s = String c (pre +:+ Py.lstrip_with p s)).
  f_equal. exact IH.
Qed.

Lemma rstrip_prefix (p : ascii -> bool) (s : string) :
  exists post, s = Py.rstrip_with p s +:+ post.
Proof.
  induction s as [|c s [post IH]]; simpl; [now exists ""|].
  destruct ((Py.rstrip_with p s =? "")%string && p c) eqn:E.
  - exists (String c s). reflexivity.
  - exists post.
    change (String c s = String c (Py.rstrip_with p s +:+ post)).
    f_equal. exact IH.
Qed.

(** What [strip] keeps was in the text. *)
Lemma contains_strip (k s : string) :
  Py.contains k (Py.lower (Py.strip s)) = true ->
  Py.contains k (Py.lower s) = true.
Proof.
  unfold Py.strip. intros H.
  destruct (lstrip_suffix Py.isspace s) as [pre Hpre].
  destruct (rstrip_prefix Py.isspace (Py.lstrip_with Py.isspace s))
    as [post Hpost].
  rewrite Hpre, Hpost, !lower_app.
  apply contains_app_l, contains_app_r, H.
Qed.

(** ** The list of transactions grows at its end *)

Section Growth.
Context {St : Type} (body : St -> string -> Py.res St)
  (tr : St -> list Common.Transaction).
Hypothesis body_grows : forall s x s', body s x = Py.Ok s' ->
  exists new, tr s' = tr s ++ new /\ List.length new <= 1.

Lemma for_each_grows (lines : list string) :
  forall st st', Common.for_each body st lines = Py.Ok st' ->
    exists new, tr st' = tr st ++ new
                /\ List.length new <= List.length lines.
Proof.
  induction lines as [|x lines IH]; intros st st' Hrun; simpl in Hrun.
  - inversion Hrun; subst. exists []. rewrite app_nil_r. auto.
  - destruct (body st x) as [s1|e] eqn:E; simpl in Hrun; [|discriminate].
    destruct (body_grows st x s1 E) as (n1 & H1 & L1).
    destruct (IH s1 st' Hrun) as (n2 & H2 & L2).
    exists (n1 ++ n2). rewrite H2, H1, <- app_assoc. split; [reflexivity|].
    rewrite length_app. simpl. lia.
Qed.
End Growth.

Lemma rakbank_step_grows nd (s : Rakbank.state) (x : string)
  (s' : Rakbank.state) :
  Rakbank.step nd s x = Py.Ok s' ->
  exists new, Rakbank.transactions s' = Rakbank.transactions s ++ new
              /\ List.length new <= 1.
Proof.
  intros H. unfold Rakbank.step, Py.bind in H.
  break_tests H; inversion H; subst; cbn [Rakbank.transactions];
    try (exists []; rewrite app_nil_r; split; [reflexivity | simpl; lia]);
    eexists; (split; [reflexivity | simpl; lia]).
Qed.

Lemma emirates_step_grows nd (s : EmiratesIslamic.state) (x : string)
  (s' : EmiratesIslamic.state) :
  EmiratesIslamic.step nd s x = Py.Ok s' ->
  exists new,
    EmiratesIslamic.transactions s' = EmiratesIslamic.transactions s ++ new
    /\ List.length new <= 1.
Proof.
  intros H.
  unfold EmiratesIslamic.step, EmiratesIslamic.match_line,
    EmiratesIslamic.emit, Py.bind in H.
  break_tests H; inversion H; subst;
    cbn [EmiratesIslamic.transactions EmiratesIslamic.set_boundary
         EmiratesIslamic.set_pending];
    try (exists []; rewrite app_nil_r; split; [reflexivity | simpl; lia]);
    eexists; (split; [reflexivity | simpl; lia]).
Qed.

Lemma rakbank_pages_grow nd (pages : list (option string)) :
  forall st st', Rakbank.pages_loop nd st pages = Py.Ok st' ->
    exists new, Rakbank.transactions st' = Rakbank.transactions st ++ new
                /\ List.length new <= List.length (rakbank_lines pages).
Proof.
  induction pages as [|p ps IH]; intros st st' Hrun; simpl in Hrun.
  - inversion Hrun; subst. exists []. rewrite app_nil_r. auto.
  - destruct (Rakbank.page_step nd st p) as [s1|e] eqn:E; simpl in Hrun;
      [|discriminate].
    unfold Rakbank.page_step in E.
    destruct (for_each_grows (Rakbank.step nd) Rakbank.transactions
                (rakbank_step_grows nd) _ _ _ E) as (n1 & H1 & L1).
    cbn [Rakbank.transactions] in H1.
    destruct (IH s1 st' Hrun) as (n2 & H2 & L2).
    exists (n1 ++ n2). rewrite H2, H1, <- app_assoc. split; [reflexivity|].
    unfold rakbank_lines in *. simpl. rewrite !length_app. lia.
Qed.

(** X1.  Both parsers only ever append to the list of transactions: the
    list after the pages is the list before them followed by new
    records, at most one for each line walked, so records keep the
    order of their lines and a record once built is never changed or
    removed. *)
Theorem transactions_append_only
    (normalize_date : string -> string -> option string)
    (pages : list (option string)) :
  (forall st st' : Rakbank.state,
      Rakbank.pages_loop normalize_date st pages = Py.Ok st' ->
      exists new,
        Rakbank.transactions st' = Rakbank.transactions st ++ new
        /\ List.length new <= List.length (rakbank_lines pages))
  /\ (forall st st' : EmiratesIslamic.state,
         EmiratesIslamic.pages_loop normalize_date st pages = Py.Ok st' ->
         exists new,
           EmiratesIslamic.transactions st'
           = EmiratesIslamic.transactions st ++ new
           /\ List.length new <= List.length (document_lines pages)).
Proof.
  split.
  - apply rakbank_pages_grow.
  - intros st st' Hrun. rewrite emirates_pages_lines in Hrun.
    apply (for_each_grows (EmiratesIslamic.step normalize_date)
             EmiratesIslamic.transactions
             (emirates_step_grows normalize_date) _ _ _ Hrun).
Qed.

Lemma transactions_append_only_witness :
  (exists new,
      Rakbank.transactions rakbank_sample_state
      = Rakbank.transactions Rakbank.initial ++ new
      /\ List.length new <= List.length (rakbank_lines rakbank_sample))
  /\ (exists new,
         EmiratesIslamic.transactions emirates_sample_state
         = EmiratesIslamic.transactions EmiratesIslamic.initial ++ new
         /\ List.length new <= List.length (document_lines emirates_sample)).
Proof.
  split.
  - apply (proj1 (transactions_append_only strptime_date rakbank_sample)
             Rakbank.initial rakbank_sample_state).
    vm_compute. reflexivity.
  - apply (proj2 (transactions_append_only strptime_date emirates_sample)
             EmiratesIslamic.initial emirates_sample_state).
    vm_compute. reflexivity.
Defined.

(** ** What every record carries *)

Section Records.
Variable normalize_date : string -> string -> option string.
Variable P : Common.Transaction -> Prop.

Lemma rakbank_pages_forall :
  (forall s x s', Forall P (Rakbank.transactions s) ->
     Rakbank.step normalize_date s x = Py.Ok s' ->
     Forall P (Rakbank.transactions s')) ->
  forall pages st st', Forall P (Rakbank.transactions st) ->
    Rakbank.pages_loop normalize_date st pages = Py.Ok st' ->
    Forall P (Rakbank.transactions st').
Proof.
  intros Hstep pages.
  induction pages as [|p ps IH]; intros st st' Hst Hrun; simpl in Hrun.
  - now inversion Hrun; subst.
  - destruct (Rakbank.page_step normalize_date st p) as [s1|e] eqn:E;
      simpl in Hrun; [|discriminate].
    eapply IH; [|exact Hrun]. unfold Rakbank.page_step in E.
    eapply (for_each_invariant (Rakbank.step normalize_date)
              (fun s => Forall P (Rakbank.transactions s)));
      [exact Hstep | | exact E]. exact Hst.
Qed.

Lemma emirates_pages_forall :
  (forall s x s', Forall P (EmiratesIslamic.transactions s) ->
     EmiratesIslamic.step normalize_date s x = Py.Ok s' ->
     Forall P (EmiratesIslamic.transactions s')) ->
  forall pages st st', Forall P (EmiratesIslamic.transactions st) ->
    EmiratesIslamic.pages_loop normalize_date st pages = Py.Ok st' ->
    Forall P (EmiratesIslamic.transactions st').
Proof.
  intros Hstep pages st st' Hst Hrun. rewrite emirates_pages_lines in Hrun.
  eapply (for_each_invariant (EmiratesIslamic.step normalize_date)
            (fun s => Forall P (EmiratesIslamic.transactions s)));
    [exact Hstep | | exact Hrun]. exact Hst.
Qed.

Lemma forall_snoc (l : list Common.Transaction) (t : Common.Transaction) :
  Forall P l -> P t -> Forall P (l ++ [t]).
Proof. intros Hl Ht. induction Hl; simpl; constructor; auto. Qed.
End Records.

Lemma rakbank_step_record nd (s : Rakbank.state) (x : string)
  (s' : Rakbank.state) :
  Forall rakbank_record (Rakbank.transactions s) ->
  Rakbank.step nd s x = Py.Ok s' ->
  Forall rakbank_record (Rakbank.transactions s').
Proof.
  intros Hs H. unfold Rakbank.step, Py.bind in H.
  break_tests H; inversion H; subst; clear H;
    cbn [Rakbank.transactions]; try assumption;
    (apply forall_snoc; [assumption|]);
    unfold rakbank_record, aed_shape, fx_shape; cbn;
    (split; [reflexivity|]); (split; [reflexivity|]);
    [left | left | right | right]; repeat split; congruence.
Qed.

Lemma emirates_step_record nd (s : EmiratesIslamic.state) (x : string)
  (s' : EmiratesIslamic.state) :
  Forall emirates_record (EmiratesIslamic.transactions s) ->
  EmiratesIslamic.step nd s x = Py.Ok s' ->
  Forall emirates_record (EmiratesIslamic.transactions s').
Proof.
  intros Hs H.
  unfold EmiratesIslamic.step, EmiratesIslamic.match_line,
    EmiratesIslamic.emit, Py.bind in H.
  break_tests H; inversion H; subst; clear H;
    cbn [EmiratesIslamic.transactions EmiratesIslamic.set_boundary
         EmiratesIslamic.set_pending]; try assumption;
    (apply forall_snoc; [assumption|]);
    unfold emirates_record; cbn; repeat split; reflexivity.
Qed.

(** X2.  Every record [parse_rakbank] builds carries the bank RAKBANK
    and the card type credit, and either a balance and no
    foreign-exchange attribute (an AED line) or the three
    foreign-exchange attributes and no balance (an FX line); every
    record [parse_emiratesislamic] builds carries its bank and card type
    and neither a balance nor a foreign-exchange attribute. *)
Theorem record_constants
    (normalize_date : string -> string -> option string)
    (pages : list (option string)) :
  (forall st' : Rakbank.state,
      Rakbank.pages_loop normalize_date Rakbank.initial pages = Py.Ok st' ->
      Forall rakbank_record (Rakbank.transactions st'))
  /\ (forall st' : EmiratesIslamic.state,
         EmiratesIslamic.pages_loop normalize_date EmiratesIslamic.initial
           pages = Py.Ok st' ->
         Forall emirates_record (EmiratesIslamic.transactions st')).
Proof.
  split; intros st' Hrun.
  - eapply (rakbank_pages_forall normalize_date rakbank_record);
      [apply rakbank_step_record | | exact Hrun]. constructor.
  - eapply (emirates_pages_forall normalize_date emirates_record);
      [apply emirates_step_record | | exact Hrun]. constructor.
Qed.

Lemma record_constants_witness :
  Forall rakbank_record (Rakbank.transactions rakbank_sample_state)
  /\ Forall emirates_record
       (EmiratesIslamic.transactions emirates_sample_state).
Proof.
  split.
  - apply (proj1 (record_constants strptime_date rakbank_sample)
             rakbank_sample_state).
    vm_compute. reflexivity.
  - apply (proj2 (record_constants strptime_date emirates_sample)
             emirates_sample_state).
    vm_compute. reflexivity.
Defined.

(** ** Credit keywords *)

Lemma rakbank_step_keyword nd (s : Rakbank.state) (x : string)
  (s' : Rakbank.state) :
  Forall rakbank_keyword_credit (Rakbank.transactions s) ->
  Rakbank.step nd s x = Py.Ok s' ->
  Forall rakbank_keyword_credit (Rakbank.transactions s').
Proof.
  intros Hs H. unfold Rakbank.step, Py.bind in H.
  break_tests H; inversion H; subst; clear H;
    cbn [Rakbank.transactions]; try assumption;
    (apply forall_snoc; [assumption|]);
    unfold rakbank_keyword_credit, booked_credit;
    cbn [Common.description Common.debit Common.credit Common.amount];
    intros Hkey; auto;
    match goal with
    | E : (_ || Rakbank.is_credit_desc _) = false |- _ =>
        unfold Rakbank.is_credit_desc in E;
        destruct Hkey as [Hkey|Hkey]; rewrite Hkey in E;
        rewrite ?orb_true_r in E; discriminate E
    end.
Qed.

Lemma emirates_step_keyword nd (s : EmiratesIslamic.state) (x : string)
  (s' : EmiratesIslamic.state) :
  Forall emirates_keyword_credit (EmiratesIslamic.transactions s) ->
  EmiratesIslamic.step nd s x = Py.Ok s' ->
  Forall emirates_keyword_credit (EmiratesIslamic.transactions s').
Proof.
  intros Hs H.
  unfold EmiratesIslamic.step, EmiratesIslamic.match_line,
    EmiratesIslamic.emit, Py.bind in H.
  break_tests H; inversion H; subst; clear H;
    cbn [EmiratesIslamic.transactions EmiratesIslamic.set_boundary
         EmiratesIslamic.set_pending]; try assumption;
    (apply forall_snoc; [assumption|]);
    unfold emirates_keyword_credit, booked_credit;
    cbn [Common.description Common.debit Common.credit Common.amount];
    intros Hkey; auto;
    apply contains_strip in Hkey;
    match goal with
    | E : (_ || Py.contains "payment received" _) = false |- _ =>
        rewrite Hkey, orb_true_r in E; discriminate E
    end.
Qed.

(** X3.  No record is booked as a debit when its description holds a
    credit keyword: in [parse_rakbank], a record whose description
    (buffer lines included) holds "payment" or "refund" in any case has
    [debit = 0.0] and [credit = amount]; in [parse_emiratesislamic] the
    same holds of "payment received".  On pages without any credit flag,
    the keyword alone books the credit: [PAYMENT THANK YOU], a line
    after the buffered [REFUND FROM NOON] and a foreign-currency line
    after the buffered [Refund] are credits and [CARREFOUR] is a debit;
    [PAYMENT RECEIVED THANK YOU] is a credit of
    [parse_emiratesislamic]. *)
Theorem keyword_never_debit :
  (forall (normalize_date : string -> string -> option string)
          (pages : list (option string)) (st' : Rakbank.state),
      Rakbank.pages_loop normalize_date Rakbank.initial pages = Py.Ok st' ->
      Forall rakbank_keyword_credit (Rakbank.transactions st'))
  /\ (forall (normalize_date : string -> string -> option string)
             (pages : list (option string)) (st' : EmiratesIslamic.state),
         EmiratesIslamic.pages_loop normalize_date EmiratesIslamic.initial
           pages = Py.Ok st' ->
         Forall emirates_keyword_credit (EmiratesIslamic.transactions st'))
  /\ Rakbank.pages_loop strptime_date Rakbank.initial rakbank_credits
     = Py.Ok rakbank_credits_state
  /\ map booking (Rakbank.transactions rakbank_credits_state)
     = [("PAYMENT THANK YOU", Num.zero, Num.Finite (Qred 500));
        ("REFUND FROM NOON NOON.COM DUBAI", Num.zero, Num.Finite (Qred 25));
        ("Refund", Num.zero, Num.Finite (Qred 36.70));
        ("CARREFOUR", Num.Finite (Qred 10), Num.zero)]
  /\ EmiratesIslamic.pages_loop strptime_date EmiratesIslamic.initial
       emirates_credits
     = Py.Ok emirates_credits_state
  /\ map booking (EmiratesIslamic.transactions emirates_credits_state)
     = [("PAYMENT RECEIVED THANK YOU", Num.zero, Num.Finite (Qred 500));
        ("CARREFOUR DUBAI ARE", Num.Finite (Qred 100), Num.zero)].
Proof.
  split; [|split].
  - intros normalize_date pages st' Hrun.
    eapply (rakbank_pages_forall normalize_date rakbank_keyword_credit);
      [apply rakbank_step_keyword | | exact Hrun]. constructor.
  - intros normalize_date pages st' Hrun.
    eapply (emirates_pages_forall normalize_date emirates_keyword_credit);
      [apply emirates_step_keyword | | exact Hrun]. constructor.
  - repeat (split; [vm_compute; reflexivity|]). vm_compute. reflexivity.
Qed.

Lemma keyword_never_debit_witness :
  Forall booked_credit (firstn 3 (Rakbank.transactions rakbank_credits_state))
  /\ Forall booked_credit
       (firstn 1 (EmiratesIslamic.transactions emirates_credits_state)).
Proof.
  split.
  - assert (H : Forall rakbank_keyword_credit
                  (Rakbank.transactions rakbank_credits_state)).
    { apply (proj1 keyword_never_debit strptime_date rakbank_credits).
      vm_compute. reflexivity. }
    inversion H as [|t1 l1 H1 T1]; subst.
    inversion T1 as [|t2 l2 H2 T2]; subst.
    inversion T2 as [|t3 l3 H3 T3]; subst.
    constructor; [apply H1; left; vm_compute; reflexivity|].
    constructor; [apply H2; right; vm_compute; reflexivity|].
    constructor; [apply H3; right; vm_compute; reflexivity|].
    constructor.
  - assert (H : Forall emirates_keyword_credit
                  (EmiratesIslamic.transactions emirates_credits_state)).
    { apply (proj1 (proj2 keyword_never_debit) strptime_date
               emirates_credits).
      vm_compute. reflexivity. }
    inversion H as [|t1 l1 H1 T1]; subst.
    constructor; [apply H1; vm_compute; reflexivity|].
    constructor.
Defined.

(** ** Drop hints *)

Lemma contains_join (k x : string) (l : list string) :
  In x l -> Py.contains k (Py.lower x) = true ->
  Py.contains k (Py.lower (Py.join " " l)) = true.
Proof.
  intros Hin Hk. induction l as [|y l IH]; [contradiction|].
  destruct l as [|z l].
  - destruct Hin as [->|[]]. exact Hk.
  - change (Py.join " " (y :: z :: l))
      with (y +:+ " " +:+ Py.join " " (z :: l)).
    rewrite !lower_app. destruct Hin as [->|Hin].
    + now apply contains_app_r.
    + now apply contains_app_l, contains_app_l, IH.
Qed.

Lemma kept_buffer_hint (buf : list string) (x h : string) :
  In x buf -> In h Rakbank.DROP_HINTS ->
  Py.contains h (Py.lower x) = true ->
  Rakbank.kept_buffer buf = [].
Proof.
  intros Hx Hh Hc. unfold Rakbank.kept_buffer, Py.any_in.
  assert (E : existsb (fun k => Py.contains k (Py.lower (Py.join " " buf)))
                Rakbank.DROP_HINTS = true).
  { apply existsb_exists. exists h. split; [exact Hh|].
    now apply (contains_join h x). }
  now rewrite E.
Qed.

(** X4.  In [parse_rakbank], one buffered line that holds a drop hint
    (in any case) makes the next transaction drop the whole buffer, the
    lines before and after it included: the AED line that follows is
    described by its own text only, and the buffer is empty after it. *)
Theorem drop_hint_discards_buffer
    (normalize_date : string -> string -> option string)
    (st : Rakbank.state) (l : list string) (x h raw rest : string)
    (g : Re.caps) (amt bal : Num.float) :
  Forall (fun y => is_free_text y = true) l ->
  In x (Rakbank.buffer_desc st ++ l) ->
  In h Rakbank.DROP_HINTS ->
  Py.contains h (Py.lower x) = true ->
  Py.any_in Rakbank.SKIP_KEYWORDS (Py.lower raw) = false ->
  Py.contains "statement period" (Py.lower raw) = false ->
  Re.match_ Rakbank.RAKBANK_LINE_REGEX raw = Some (rest, g) ->
  Rakbank.clean_amount (Re.group g 3) = Py.Ok amt ->
  Rakbank.clean_amount (Re.group g 5) = Py.Ok bal ->
  exists t,
    Common.for_each (Rakbank.step normalize_date) st (l ++ [raw])
    = Py.Ok {| Rakbank.transactions := Rakbank.transactions st ++ [t];
               Rakbank.statement_from := Rakbank.statement_from st;
               Rakbank.statement_to := Rakbank.statement_to st;
               Rakbank.buffer_desc := [] |}
    /\ Common.description t = Py.strip (Py.strip (Common.grp g 2)).
Proof.
  intros Hfree Hx Hh Hc Hskip Hper Hm Hamt Hbal.
  rewrite for_each_app, (rakbank_lines_free normalize_date l Hfree).
  cbn [Py.bind Common.for_each].
  unfold Rakbank.step. rewrite Hskip, Hper, Hm, Hamt, Hbal.
  cbn [Py.bind with_buffer Rakbank.buffer_desc Rakbank.transactions
       Rakbank.statement_from Rakbank.statement_to].
  rewrite (kept_buffer_hint _ x h Hx Hh Hc).
  eexists. split; reflexivity.
Qed.

Lemma drop_hint_discards_buffer_witness :
  exists t,
    Common.for_each (Rakbank.step keep_date) Rakbank.initial
      (["PURCHASE AT"; "Card Number 1234 XXXX"; "SOME STORE DUBAI ARE"]
       ++ [store_line])
    = Py.Ok {| Rakbank.transactions := [] ++ [t];
               Rakbank.statement_from := None;
               Rakbank.statement_to := None;
               Rakbank.buffer_desc := [] |}
    /\ Common.description t = Py.strip (Py.strip (Common.grp store_groups 2)).
Proof.
  apply (drop_hint_discards_buffer keep_date Rakbank.initial
           ["PURCHASE AT"; "Card Number 1234 XXXX"; "SOME STORE DUBAI ARE"]
           "Card Number 1234 XXXX" "card number" store_line "" store_groups
           (Num.Finite (Qred 1234.56)) (Num.Finite 2000)).
  - constructor; [vm_compute; reflexivity|].
    constructor; [vm_compute; reflexivity|].
    constructor; [vm_compute; reflexivity | constructor].
  - right. left. reflexivity.
  - do 3 right. left. reflexivity.
  - vm_compute. reflexivity.
  - vm_compute. reflexivity.
  - vm_compute. reflexivity.
  - vm_compute. reflexivity.
  - vm_compute. reflexivity.
  - vm_compute. reflexivity.
Defined.

(** ** Where the parsers can raise *)

Lemma float_of_str_raises (s : string) (e : Py.exn) :
  Num.float_of_str s = Py.Raise e -> e = Py.ValueError.
Proof.
  unfold Num.float_of_str. intros H.
  break_tests H; inversion H; reflexivity.
Qed.

Lemma rakbank_clean_amount_raises (v : option string) (e : Py.exn) :
  Rakbank.clean_amount v = Py.Raise e -> e = Py.ValueError.
Proof.
  unfold Rakbank.clean_amount. destruct v as [v|]; [|discriminate].
  destruct (v =? "")%string; [discriminate|]. apply float_of_str_raises.
Qed.

Lemma rakbank_step_raises nd (st : Rakbank.state) (raw : string)
  (e : Py.exn) :
  Rakbank.step nd st raw = Py.Raise e ->
  e = Py.ValueError
  /\ Py.any_in Rakbank.SKIP_KEYWORDS (Py.lower raw) = false
  /\ Py.contains "statement period" (Py.lower raw) = false
  /\ (Re.match_ Rakbank.RAKBANK_LINE_REGEX raw <> None
      \/ Re.match_ Rakbank.RAKBANK_FX_REGEX raw <> None).
Proof.
  intros H. unfold Rakbank.step, Py.bind in H.
  destruct (Py.any_in _ _); [discriminate|].
  destruct (Py.contains "statement period" _);
    [destruct (Re.search _ _) as [[? ?]|]; discriminate|].
  destruct (Re.match_ Rakbank.RAKBANK_LINE_REGEX raw) as [[rest g]|].
  - repeat split; try (left; discriminate).
    destruct (Rakbank.clean_amount (Re.group g 3)) eqn:E3;
      [|inversion H; subst; eapply rakbank_clean_amount_raises; eauto].
    destruct (Rakbank.clean_amount (Re.group g 5)) eqn:E5;
      [discriminate|inversion H; subst;
                    eapply rakbank_clean_amount_raises; eauto].
  - destruct (Re.match_ Rakbank.RAKBANK_FX_REGEX raw) as [[rest g]|];
      [|discriminate].
    repeat split; try (right; discriminate).
    destruct (Rakbank.clean_amount (Re.group g 3)) eqn:E3;
      [|inversion H; subst; eapply rakbank_clean_amount_raises; eauto].
    destruct (Rakbank.clean_amount (Re.group g 4)) eqn:E4;
      [|inversion H; subst; eapply rakbank_clean_amount_raises; eauto].
    destruct (Rakbank.clean_amount (Re.group g 5)) eqn:E5;
      [discriminate|inversion H; subst;
                    eapply rakbank_clean_amount_raises; eauto].
Qed.

Lemma for_each_raises {St : Type} (body : St -> string -> Py.res St)
  (lines : list string) :
  forall st e, Common.for_each body st lines = Py.Raise e ->
    exists s x, In x lines /\ body s x = Py.Raise e.
Proof.
  induction lines as [|x lines IH]; intros st e H; simpl in H;
    [discriminate|].
  destruct (body st x) as [s1|e1] eqn:E; simpl in H.
  - destruct (IH s1 e H) as (s & y & Hy & Hb). exists s, y. split; auto.
    now right.
  - inversion H; subst. exists st, x. split; [now left | exact E].
Qed.

Lemma rakbank_pages_raise nd (pages : list (option string)) :
  forall st e, Rakbank.pages_loop nd st pages = Py.Raise e ->
    exists s x, In x (rakbank_lines pages)
                /\ Rakbank.step nd s x = Py.Raise e.
Proof.
  induction pages as [|p ps IH]; intros st e H; simpl in H; [discriminate|].
  unfold rakbank_lines; simpl.
  destruct (Rakbank.page_step nd st p) as [s1|e1] eqn:E; simpl in H.
  - destruct (IH s1 e H) as (s & x & Hx & Hb). exists s, x.
    split; [|exact Hb]. apply in_or_app. now right.
  - inversion H; subst. unfold Rakbank.page_step in E.
    destruct (for_each_raises _ _ _ _ E) as (s & x & Hx & Hb).
    exists s, x. split; [|exact Hb]. apply in_or_app. now left.
Qed.

(** X5.  [parse_rakbank] on a document that opens fails in one way
    only: a [ValueError], raised for a line of the document that has no
    boilerplate phrase, does not name the statement period and has one
    of the two transaction shapes (its amount is not a number).  Free
    text, boilerplate and statement-period lines never make it fail. *)
Theorem rakbank_failure_sites
    (S : Type) (normalize_date : string -> string -> option string)
    (normalize_transactions :
       list Common.Transaction -> string -> string -> list Common.Transaction)
    (summarize_transactions : list Common.Transaction -> S)
    (file_path : string) (password : option string)
    (pages : list (option string)) (e : Py.exn) :
  Rakbank.parse_rakbank S (fun _ _ => Common.OpenedPdf pages) normalize_date
    normalize_transactions summarize_transactions file_path password
  = Py.Raise e ->
  e = Py.ValueError
  /\ exists raw, In raw (rakbank_lines pages)
       /\ Py.any_in Rakbank.SKIP_KEYWORDS (Py.lower raw) = false
       /\ Py.contains "statement period" (Py.lower raw) = false
       /\ is_free_text raw = false
       /\ (Re.match_ Rakbank.RAKBANK_LINE_REGEX raw <> None
           \/ Re.match_ Rakbank.RAKBANK_FX_REGEX raw <> None).
Proof.
  intros H. unfold Rakbank.parse_rakbank in H.
  destruct (Rakbank.pages_loop normalize_date Rakbank.initial pages)
    as [st|e1] eqn:E; simpl in H; [discriminate|].
  inversion H; subst; clear H.
  destruct (rakbank_pages_raise _ _ _ _ E) as (s & x & Hx & Hb).
  destruct (rakbank_step_raises _ _ _ _ Hb) as (He & Hskip & Hper & Hm).
  split; [exact He|]. exists x. repeat split; auto.
  unfold is_free_text. rewrite Hskip, Hper. cbn [negb andb].
  destruct Hm as [Hm|Hm].
  - destruct (Re.match_ Rakbank.RAKBANK_LINE_REGEX x); [reflexivity|].
    now contradiction Hm.
  - destruct (Re.match_ Rakbank.RAKBANK_FX_REGEX x);
      [apply andb_false_r | now contradiction Hm].
Qed.

Lemma rakbank_failure_sites_witness :
  Py.ValueError = Py.ValueError
  /\ exists raw,
       In raw (rakbank_lines [Some "01/01/2025 SHOP AED 12x34 - 100.00"])
       /\ Py.any_in Rakbank.SKIP_KEYWORDS (Py.lower raw) = false
       /\ Py.contains "statement period" (Py.lower raw) = false
       /\ is_free_text raw = false
       /\ (Re.match_ Rakbank.RAKBANK_LINE_REGEX raw <> None
           \/ Re.match_ Rakbank.RAKBANK_FX_REGEX raw <> None).
Proof.
  apply (rakbank_failure_sites unit keep_date keep_all no_summary
           "statement.pdf" None
           [Some "01/01/2025 SHOP AED 12x34 - 100.00"] Py.ValueError).
  vm_compute. reflexivity.
Defined.

(** X6.  A line makes the loop of [parse_emiratesislamic] fail only
    when both boundaries of the period are set, the line has the
    transaction shape and the year resolution of lines 146-159 fails on
    what [normalize_date] returned for its second date; while the
    period is incomplete no line fails, and a line that gives a
    transaction dates it with the value of [normalize_date] as it is. *)
Theorem emirates_failure_sites
    (normalize_date : string -> string -> option string)
    (st : EmiratesIslamic.state) (line : string) :
  (forall e, EmiratesIslamic.step normalize_date st line = Py.Raise e ->
     Py.truthy (EmiratesIslamic.statement_from st) = true
     /\ Py.truthy (EmiratesIslamic.statement_to st) = true
     /\ exists rest g,
          Re.match_ EmiratesIslamic.LINE_REGEX (Py.strip line)
          = Some (rest, g)
          /\ EmiratesIslamic.resolve_year
               (Num.text (EmiratesIslamic.statement_from st))
               (Num.text (EmiratesIslamic.statement_to st))
               (normalize_date (Py.strip (Common.grp g 2)) "%d %b")
             = Py.Raise e)
  /\ (Py.truthy (EmiratesIslamic.statement_from st)
      && Py.truthy (EmiratesIslamic.statement_to st) = false ->
      exists st',
        EmiratesIslamic.step normalize_date st line = Py.Ok st'
        /\ (EmiratesIslamic.transactions st' = EmiratesIslamic.transactions st
            \/ exists rest g t,
                 Re.match_ EmiratesIslamic.LINE_REGEX (Py.strip line)
                 = Some (rest, g)
                 /\ EmiratesIslamic.transactions st'
                    = EmiratesIslamic.transactions st ++ [t]
                 /\ Common.transaction_date t
                    = normalize_date (Py.strip (Common.grp g 2)) "%d %b")).
Proof.
  split.
  - intros e H.
    unfold EmiratesIslamic.step, EmiratesIslamic.match_line,
      EmiratesIslamic.emit, Py.bind in H.
    destruct (Py.truthy (EmiratesIslamic.statement_from st)) eqn:Hf;
      destruct (Py.truthy (EmiratesIslamic.statement_to st)) eqn:Ht;
      cbn [andb] in H;
      try (break_tests H; discriminate H).
    split; [reflexivity|]. split; [reflexivity|].
    destruct (Re.match_ EmiratesIslamic.LINE_REGEX (Py.strip line))
      as [[rest g]|] eqn:Hm; [|break_tests H; discriminate H].
    exists rest, g. split; [reflexivity|].
    destruct (EmiratesIslamic.resolve_year _ _ _) as [d|e1];
      [break_tests H; discriminate H|].
    break_tests H; inversion H; reflexivity.
  - intros Hp.
    unfold EmiratesIslamic.step, EmiratesIslamic.match_line,
      EmiratesIslamic.emit, Py.bind.
    rewrite Hp.
    destruct (Re.match_ EmiratesIslamic.LINE_REGEX (Py.strip line))
      as [[rest g]|] eqn:Hm;
      repeat match goal with
             | |- context [match ?x with _ => _ end] => destruct x
             end;
      eexists; (split; [reflexivity|]);
      cbn [EmiratesIslamic.transactions EmiratesIslamic.set_boundary
           EmiratesIslamic.set_pending];
      try (left; reflexivity);
      right; do 3 eexists; repeat split; reflexivity.
Qed.

Lemma emirates_failure_sites_witness :
  Py.truthy (EmiratesIslamic.statement_from winter_state) = true
  /\ Py.truthy (EmiratesIslamic.statement_to winter_state) = true
  /\ exists rest g,
       Re.match_ EmiratesIslamic.LINE_REGEX
         (Py.strip "16 AUG 14 AUG RTA-ETISALAT DUBAI ARE 100.00")
       = Some (rest, g)
       /\ EmiratesIslamic.resolve_year
            (Num.text (EmiratesIslamic.statement_from winter_state))
            (Num.text (EmiratesIslamic.statement_to winter_state))
            (keep_date (Py.strip (Common.grp g 2)) "%d %b")
          = Py.Raise Py.ValueError.
Proof.
  apply (proj1 (emirates_failure_sites keep_date winter_state
                  "16 AUG 14 AUG RTA-ETISALAT DUBAI ARE 100.00")
           Py.ValueError).
  vm_compute. reflexivity.
Defined.

(** ** The states [parse_emiratesislamic] goes through *)

Lemma strptime_valid (s fmt : string) (d : Date.date) :
  Date.strptime s fmt = Py.Ok d ->
  Date.valid (Date.year d) (Date.month d) (Date.day d) = true.
Proof.
  unfold Date.strptime, Date.make. intros H.
  break_tests H; inversion H; subst; cbn; assumption.
Qed.

Lemma parse_full_date_iso (s : string) :
  iso_boundary (EmiratesIslamic._parse_full_date s).
Proof.
  unfold EmiratesIslamic._parse_full_date, iso_boundary.
  destruct (Date.strptime _ "%d %b %Y") as [d|e] eqn:E1.
  - right. exists d. split; [eapply strptime_valid; eauto | reflexivity].
  - destruct (Date.strptime _ "%d %B %Y") as [d|e'] eqn:E2.
    + right. exists d. split; [eapply strptime_valid; eauto | reflexivity].
    + now left.
Qed.

Lemma emirates_step_pending_values nd (st : EmiratesIslamic.state)
  (line : string) (st' : EmiratesIslamic.state) :
  (EmiratesIslamic.pending_range st = None
   \/ EmiratesIslamic.pending_range st = Some "from"
   \/ EmiratesIslamic.pending_range st = Some "to") ->
  EmiratesIslamic.step nd st line = Py.Ok st' ->
  EmiratesIslamic.pending_range st' = None
  \/ EmiratesIslamic.pending_range st' = Some "from"
  \/ EmiratesIslamic.pending_range st' = Some "to".
Proof.
  intros Hs H.
  unfold EmiratesIslamic.step, EmiratesIslamic.match_line,
    EmiratesIslamic.emit, Py.bind in H.
  destruct (Py.strip line =? "")%string; [now inversion H; subst|].
  destruct (Py.any_in _ _); [now inversion H; subst|].
  destruct (Re.match_ EmiratesIslamic.FROM_TO_REGEX _) as [[rest g]|].
  - break_tests H; inversion H; subst; cbn; auto.
  - destruct (EmiratesIslamic._normalize_range_token (Py.strip line))
      as [v|] eqn:Etok.
    + destruct (range_token_values _ _ Etok) as [-> | ->];
        break_tests H; inversion H; subst; cbn; auto.
    + cbn [Py.truthy] in H.
      break_tests H; inversion H; subst; cbn; auto.
Qed.

Lemma emirates_step_iso nd (st : EmiratesIslamic.state) (line : string)
  (st' : EmiratesIslamic.state) :
  iso_boundary (EmiratesIslamic.statement_from st)
  /\ iso_boundary (EmiratesIslamic.statement_to st) ->
  EmiratesIslamic.step nd st line = Py.Ok st' ->
  iso_boundary (EmiratesIslamic.statement_from st')
  /\ iso_boundary (EmiratesIslamic.statement_to st').
Proof.
  intros [Hf Ht] H.
  unfold EmiratesIslamic.step, EmiratesIslamic.match_line,
    EmiratesIslamic.emit, Py.bind in H.
  destruct (Py.strip line =? "")%string; [now inversion H; subst|].
  destruct (Py.any_in _ _); [now inversion H; subst|].
  destruct (Re.match_ EmiratesIslamic.FROM_TO_REGEX _) as [[rest g]|].
  - pose proof (parse_full_date_iso (Common.grp g 2)) as Hd.
    destruct (Py.truthy (EmiratesIslamic._parse_full_date _));
      inversion H; subst; cbn; [|auto].
    destruct (_ =? "from")%string; auto.
  - destruct (Py.truthy (EmiratesIslamic._normalize_range_token _)).
    + break_tests H; inversion H; subst; cbn; auto.
    + destruct (Py.truthy (EmiratesIslamic.pending_range st)).
      * pose proof (parse_full_date_iso (Py.strip line)) as Hd.
        destruct (Py.truthy (EmiratesIslamic._parse_full_date _)).
        -- inversion H; subst; cbn.
           destruct (EmiratesIslamic.opt_is _ "from"); auto.
        -- break_tests H; inversion H; subst; cbn; auto.
      * break_tests H; inversion H; subst; cbn; auto.
Qed.

(** X7.  After any pages, the state of [parse_emiratesislamic] has no
    pending marker, or the marker "from" with [from_date] not set, or
    the marker "to" with [to_date] not set: a marker never waits for a
    boundary that is already resolved, and never has another value. *)
Theorem pending_marker_invariant
    (normalize_date : string -> string -> option string)
    (pages : list (option string)) (st : EmiratesIslamic.state) :
  EmiratesIslamic.pages_loop normalize_date EmiratesIslamic.initial pages
  = Py.Ok st ->
  pending_ok st.
Proof.
  intros Hrun. rewrite emirates_pages_lines in Hrun.
  destruct (emirates_lines_kept normalize_date _ _ _ marker_inv_initial Hrun)
    as ([HA HB _ _] & _ & _).
  assert (Hv : EmiratesIslamic.pending_range st = None
               \/ EmiratesIslamic.pending_range st = Some "from"
               \/ EmiratesIslamic.pending_range st = Some "to").
  { eapply (for_each_invariant (EmiratesIslamic.step normalize_date)
              (fun s => EmiratesIslamic.pending_range s = None
                        \/ EmiratesIslamic.pending_range s = Some "from"
                        \/ EmiratesIslamic.pending_range s = Some "to"));
      [| |exact Hrun].
    - intros s x s'. apply emirates_step_pending_values.
    - now left. }
  unfold pending_ok. destruct Hv as [Hv|[Hv|Hv]]; [now left | |].
  - right; left. split; [exact Hv|]. apply HA. now rewrite Hv.
  - right; right. split; [exact Hv|]. apply HB; now rewrite Hv.
Qed.

Lemma pending_marker_invariant_witness :
  pending_ok {| EmiratesIslamic.transactions := [];
                EmiratesIslamic.statement_from := Some "2025-07-11";
                EmiratesIslamic.statement_to := None;
                EmiratesIslamic.pending_range := Some "to" |}.
Proof.
  apply (pending_marker_invariant keep_date
           [page_of ["From: 11th Jul 2025"; "From"; "To"]]).
  vm_compute. reflexivity.
Defined.

(** X8.  Every boundary of the period [parse_emiratesislamic] returns
    is either not set or the ten-character ISO rendering of a date that
    exists in the calendar (a label such as 31st Jun or 29th Feb of a
    common year resolves nothing). *)
Theorem period_is_iso
    (S : Type) (open_pdf_safe : string -> option string -> Common.opened)
    (normalize_date : string -> string -> option string)
    (normalize_transactions :
       list Common.Transaction -> string -> string -> list Common.Transaction)
    (summarize_transactions : list Common.Transaction -> S)
    (file_path : string) (password : option string)
    (r : Common.statement S) :
  EmiratesIslamic.parse_emiratesislamic S open_pdf_safe normalize_date
    normalize_transactions summarize_transactions file_path password
  = Py.Ok (Common.Parsed r) ->
  (iso_boundary (Common.st_from_date r)
   /\ iso_boundary (Common.st_to_date r))
  /\ (forall v, Common.st_from_date r = Some v \/ Common.st_to_date r = Some v ->
        String.length v = 10).
Proof.
  intros H. unfold EmiratesIslamic.parse_emiratesislamic in H.
  destruct (open_pdf_safe file_path password) as [d|pages].
  { destruct (d !! "error"); discriminate. }
  destruct (EmiratesIslamic.pages_loop normalize_date EmiratesIslamic.initial
              pages) as [st|e] eqn:E; simpl in H; [|discriminate].
  inversion H; subst; clear H. cbn [Common.st_from_date Common.st_to_date].
  rewrite emirates_pages_lines in E.
  assert (Hiso : iso_boundary (EmiratesIslamic.statement_from st)
                 /\ iso_boundary (EmiratesIslamic.statement_to st)).
  { eapply (for_each_invariant (EmiratesIslamic.step normalize_date)
              (fun s => iso_boundary (EmiratesIslamic.statement_from s)
                        /\ iso_boundary (EmiratesIslamic.statement_to s)));
      [| |exact E].
    - intros s x s'. apply emirates_step_iso.
    - split; now left. }
  split; [exact Hiso|].
  intros v [Hv|Hv]; destruct Hiso as [Hf Ht];
    [destruct Hf as [Hf|(d & _ & Hf)] | destruct Ht as [Ht|(d & _ & Ht)]];
    try congruence;
    [rewrite Hv in Hf | rewrite Hv in Ht];
    match goal with
    | E : Some v = Some _ |- _ => inversion E; reflexivity
    end.
Qed.

Lemma period_is_iso_witness :
  (iso_boundary (Some "2024-12-15") /\ iso_boundary (Some "2025-01-14"))
  /\ (forall v, Some "2024-12-15" = Some v \/ Some "2025-01-14" = Some v ->
        String.length v = 10).
Proof.
  apply (period_is_iso unit (fun _ _ => Common.OpenedPdf emirates_sample)
           strptime_date keep_all no_summary "statement.pdf" None
           (statement_of (emirates_on strptime_date emirates_sample))).
  vm_compute. reflexivity.
Defined.

(** ** Facts on [int], [float] and [strftime] *)

(** [int] and [float] take the blanks of C around a literal and raise on
    FS..US, which [str.strip] removes. *)
Lemma int_float_blanks :
  Num.int_of_str " 12 " = Py.Ok 12%Z
  /\ Num.int_of_str (String "009" "12" +:+ String "010" EmptyString)
     = Py.Ok 12%Z
  /\ Num.int_of_str (String "028" "12") = Py.Raise Py.ValueError
  /\ Num.int_of_str ("12" +:+ String "031" EmptyString)
     = Py.Raise Py.ValueError
  /\ Num.float_of_str (String "029" "1.5") = Py.Raise Py.ValueError
  /\ Num.float_of_str (String "013" "1.5 ") = Py.Ok (Num.Finite (Qred 1.5))
  /\ Py.strip (String "028" "12" +:+ String "031" EmptyString) = "12".
Proof. repeat (split; [vm_compute; reflexivity|]). vm_compute. reflexivity. Qed.

(** From the year 1000 on, [strftime] writes a date as [isoformat]
    does. *)
Lemma strftime_four_digits (d : Date.date) :
  (1000 <= Date.year d)%Z -> Date.strftime d = Date.isoformat d.
Proof.
  intros Hy. unfold Date.strftime, Date.isoformat, Date.year_text.
  destruct (Date.year d <? 10)%Z eqn:E1; [apply Z.ltb_lt in E1; lia|].
  destruct (Date.year d <? 100)%Z eqn:E2; [apply Z.ltb_lt in E2; lia|].
  destruct (Date.year d <? 1000)%Z eqn:E3; [apply Z.ltb_lt in E3; lia|].
  reflexivity.
Qed.

(** Below the year 1000 the two differ, and [strptime] does not read
    back what [strftime] wrote. *)
Lemma strftime_short_years :
  Date.strftime {| Date.year := 998; Date.month := 8; Date.day := 14 |}
  = "998-08-14"
  /\ Date.isoformat {| Date.year := 998; Date.month := 8; Date.day := 14 |}
     = "0998-08-14"
  /\ Date.strftime {| Date.year := 98; Date.month := 8; Date.day := 14 |}
     = "98-08-14"
  /\ Date.strftime {| Date.year := 1; Date.month := 8; Date.day := 14 |}
     = "1-08-14"
  /\ Date.strftime {| Date.year := 2024; Date.month := 8; Date.day := 14 |}
     = "2024-08-14"
  /\ Date.strptime "0998-08-14" "%Y-%m-%d"
     = Py.Ok {| Date.year := 998; Date.month := 8; Date.day := 14 |}
  /\ Date.strptime "998-08-14" "%Y-%m-%d" = Py.Raise Py.ValueError.
Proof. repeat (split; [vm_compute; reflexivity|]). vm_compute. reflexivity. Qed.

(** ** Reading a resolved boundary back *)

Lemma nat_of_digit_char (n : Z) :
  nat_of_ascii (Date.digit_char n) = 48 + Z.to_nat (n mod 10).
Proof.
  unfold Date.digit_char. apply nat_ascii_embedding.
  pose proof (Z.mod_pos_bound n 10 ltac:(lia)). lia.
Qed.

Lemma isdigit_digit_char (n : Z) : Py.isdigit (Date.digit_char n) = true.
Proof.
  unfold Py.isdigit, Py.in_range. cbv zeta. rewrite nat_of_digit_char.
  pose proof (Z.mod_pos_bound n 10 ltac:(lia)).
  apply andb_true_iff. split; apply Nat.leb_le; lia.
Qed.

Lemma digit_val_digit_char (n : Z) :
  Num.digit_val (Date.digit_char n) = (n mod 10)%Z.
Proof.
  unfold Num.digit_val. rewrite nat_of_digit_char.
  pose proof (Z.mod_pos_bound n 10 ltac:(lia)). lia.
Qed.

Lemma digits_val_pad4 (y : Z) :
  (0 <= y <= 9999)%Z -> Num.digits_val 0 (Date.pad4 y) = y.
Proof.
  intros Hy. unfold Date.pad4, Date.pad2. cbn [Num.digits_val].
  rewrite !isdigit_digit_char, !digit_val_digit_char.
  Z.div_mod_to_equations. lia.
Qed.

Lemma digit_not_other (a : ascii) :
  Py.isdigit a = true ->
  Py.isspace a = false /\ Ascii.eqb a "_" = false
  /\ Ascii.eqb a "+" = false /\ Ascii.eqb a "-" = false.
Proof.
  destruct a as [[] [] [] [] [] [] [] []]; vm_compute; intros H;
    try discriminate H; auto.
Qed.

(** The pattern of the format [%Y-%m-%d] after the year. *)
Lemma format_ymd :
  exists tail,
    Date.format_regex "%Y-%m-%d"
    = Some (Re.Seq (Re.Group Date.G_Y (Re.rep 4 Re.digit)) tail)
    /\ forall (len0 : nat) (m d : Z) (c0 : Re.caps),
         (1 <= m <= 12)%Z -> (1 <= d <= 31)%Z ->
         Re.run len0 tail ("-" +:+ Date.pad2 m +:+ "-" +:+ Date.pad2 d) c0
           (fun s' c' => Some (s', c'))
         = Some ("", (Date.G_d, Date.pad2 d) :: (Date.G_m, Date.pad2 m) :: c0).
Proof.
  eexists. split; [reflexivity|].
  intros len0 m d c0 Hm Hd.
  assert (Em : (m = 1 \/ m = 2 \/ m = 3 \/ m = 4 \/ m = 5 \/ m = 6 \/ m = 7
               \/ m = 8 \/ m = 9 \/ m = 10 \/ m = 11 \/ m = 12)%Z) by lia.
  assert (Ed : (d = 1 \/ d = 2 \/ d = 3 \/ d = 4 \/ d = 5 \/ d = 6 \/ d = 7
               \/ d = 8 \/ d = 9 \/ d = 10 \/ d = 11 \/ d = 12 \/ d = 13
               \/ d = 14 \/ d = 15 \/ d = 16 \/ d = 17 \/ d = 18 \/ d = 19
               \/ d = 20 \/ d = 21 \/ d = 22 \/ d = 23 \/ d = 24 \/ d = 25
               \/ d = 26 \/ d = 27 \/ d = 28 \/ d = 29 \/ d = 30
               \/ d = 31)%Z) by lia.
  clear Hm Hd.
  repeat (destruct Em as [Em|Em]); repeat (destruct Ed as [Ed|Ed]);
    subst m d; vm_compute; reflexivity.
Qed.

Lemma isspace_digit_char (n : Z) : Py.isspace (Date.digit_char n) = false.
Proof. apply digit_not_other, isdigit_digit_char. Qed.

Lemma number_pad4 (y : Z) (default : Z) :
  (0 <= y <= 9999)%Z -> Date.number (Some (Date.pad4 y)) default = y.
Proof.
  intros Hy. unfold Date.number.
  replace (Py.lstrip_with Py.isspace (Date.pad4 y)) with (Date.pad4 y)
    by (unfold Date.pad4; cbn [Py.lstrip_with];
        now rewrite isspace_digit_char).
  now apply digits_val_pad4.
Qed.

Lemma number_pad2 (n : Z) (default : Z) :
  (0 <= n <= 99)%Z -> Date.number (Some (Date.pad2 n)) default = n.
Proof.
  intros Hn. unfold Date.number, Date.pad2. cbn [Py.lstrip_with].
  rewrite isspace_digit_char. cbn [Num.digits_val].
  rewrite !isdigit_digit_char, !digit_val_digit_char.
  Z.div_mod_to_equations. lia.
Qed.

Lemma valid_bounds (y m d : Z) :
  Date.valid y m d = true ->
  (1 <= y <= 9999 /\ 1 <= m <= 12 /\ 1 <= d <= 31)%Z.
Proof.
  unfold Date.valid, Date.days_in_month. intros H.
  repeat (apply andb_true_iff in H as [H ?]).
  repeat match goal with
         | H : (_ <=? _)%Z = true |- _ => apply Z.leb_le in H
         end.
  repeat split; try lia.
  destruct (m =? 2)%Z; [destruct (Date.is_leap y); lia|].
  destruct ((m =? 4) || (m =? 6) || (m =? 9) || (m =? 11))%Z; lia.
Qed.

Lemma match_isoformat (d : Date.date) :
  Date.valid (Date.year d) (Date.month d) (Date.day d) = true ->
  exists r,
    Date.format_regex "%Y-%m-%d" = Some r
    /\ Re.match_ r (Date.isoformat d)
       = Some ("", [(Date.G_d, Date.pad2 (Date.day d));
                    (Date.G_m, Date.pad2 (Date.month d));
                    (Date.G_Y, Date.pad4 (Date.year d))]).
Proof.
  destruct d as [y m dd]. cbn [Date.year Date.month Date.day].
  intros Hv. destruct (valid_bounds y m dd Hv) as (Hy & Hm & Hd).
  destruct format_ymd as (tail & Hfmt & Htail).
  eexists. split; [exact Hfmt|].
  unfold Re.match_.
  change (Date.isoformat {| Date.year := y; Date.month := m; Date.day := dd |})
    with (String (Date.digit_char (y / 1000))
            (String (Date.digit_char (y / 100))
               (String (Date.digit_char (y / 10))
                  (String (Date.digit_char y)
                     ("-" +:+ Date.pad2 m +:+ "-" +:+ Date.pad2 dd))))).
  cbn [Re.run Re.rep Re.digit]. rewrite !isdigit_digit_char.
  rewrite (Htail _ m dd _ Hm Hd). reflexivity.
Qed.

(** [strptime] reads the ISO rendering of a date back. *)
Lemma strptime_isoformat (d : Date.date) :
  Date.valid (Date.year d) (Date.month d) (Date.day d) = true ->
  Date.strptime (Date.isoformat d) "%Y-%m-%d" = Py.Ok d.
Proof.
  intros Hv. destruct (match_isoformat d Hv) as (r & Hfmt & Hm).
  unfold Date.strptime. rewrite Hfmt, Hm.
  destruct d as [y m dd]. cbn [Date.year Date.month Date.day] in *.
  destruct (valid_bounds y m dd Hv) as (Hy & Hmm & Hd).
  cbn [Re.group Nat.eqb Date.G_d Date.G_m Date.G_b Date.G_B Date.G_Y].
  rewrite number_pad4, !number_pad2 by lia.
  unfold Date.make. now rewrite Hv.
Qed.

Lemma digit_not_blank (a : ascii) :
  Py.isdigit a = true -> Num.is_blank a = false.
Proof.
  destruct a as [[] [] [] [] [] [] [] []]; vm_compute; intros H;
    try discriminate H; auto.
Qed.

Lemma trim_pad4 (y : Z) : Num.trim (Date.pad4 y) = Date.pad4 y.
Proof.
  pose proof (fun n => digit_not_blank _ (isdigit_digit_char n)) as Hb.
  unfold Num.trim, Date.pad4, Date.pad2.
  cbn [Py.lstrip_with]. rewrite Hb.
  cbn [Py.rstrip_with]. rewrite !Hb.
  now rewrite !andb_false_r.
Qed.

Lemma int_of_pad4 (y : Z) :
  (0 <= y <= 9999)%Z -> Num.int_of_str (Date.pad4 y) = Py.Ok y.
Proof.
  intros Hy. unfold Num.int_of_str. rewrite trim_pad4.
  assert (Hmatch : Re.match_ Num.INT_RE (Date.pad4 y)
                   = Some ("", [(2, Date.pad4 y); (1, "")])).
  { unfold Re.match_, Date.pad4, Date.pad2.
    pose proof (fun n => proj1 (proj2 (digit_not_other _
                                         (isdigit_digit_char n)))) as Hu.
    pose proof (fun n => proj1 (proj2 (proj2 (digit_not_other _
                                         (isdigit_digit_char n))))) as Hp.
    pose proof (fun n => proj2 (proj2 (proj2 (digit_not_other _
                                         (isdigit_digit_char n))))) as Hn.
    cbn [Re.run Num.INT_RE Re.seqs Num.sign Num.digitpart Re.opt Re.star
         Re.digit Re.chr String.length Nat.eqb Nat.ltb Nat.leb Nat.sub
         Py.take Re.at_eol].
    rewrite ?Hu, ?Hp, ?Hn, ?isdigit_digit_char. cbn [orb].
    reflexivity. }
  rewrite Hmatch. cbn [Re.group Nat.eqb Num.text Num.is_minus].
  change ("" =? "-")%string with false. cbv iota.
  now rewrite digits_val_pad4.
Qed.

(** X9.  A boundary of the period is stored as [isoformat] renders it,
    and the year resolution reads it back without loss: [strptime] with
    [%Y-%m-%d] gives the date again and [int] of the first four
    characters gives its year, for every date of the calendar. *)
Theorem boundary_round_trip (d : Date.date) :
  Date.valid (Date.year d) (Date.month d) (Date.day d) = true ->
  Date.strptime (Date.isoformat d) "%Y-%m-%d" = Py.Ok d
  /\ Num.int_of_str (Py.take 4 (Date.isoformat d)) = Py.Ok (Date.year d).
Proof.
  intros Hv. split; [now apply strptime_isoformat|].
  destruct d as [y m dd]. cbn [Date.year Date.month Date.day] in *.
  destruct (valid_bounds y m dd Hv) as (Hy & _ & _).
  change (Py.take 4 (Date.isoformat
                       {| Date.year := y; Date.month := m; Date.day := dd |}))
    with (Date.pad4 y).
  apply int_of_pad4. lia.
Qed.

Lemma boundary_round_trip_witness :
  Date.strptime
    (Date.isoformat {| Date.year := 2024; Date.month := 2; Date.day := 29 |})
    "%Y-%m-%d"
  = Py.Ok {| Date.year := 2024; Date.month := 2; Date.day := 29 |}
  /\ Num.int_of_str
       (Py.take 4 (Date.isoformat
                     {| Date.year := 2024; Date.month := 2; Date.day := 29 |}))
     = Py.Ok 2024%Z.
Proof.
  apply (boundary_round_trip
           {| Date.year := 2024; Date.month := 2; Date.day := 29 |}).
  vm_compute. reflexivity.
Defined.

Lemma emirates_pages_iso nd (pages : list (option string))
  (st : EmiratesIslamic.state) :
  EmiratesIslamic.pages_loop nd EmiratesIslamic.initial pages = Py.Ok st ->
  iso_boundary (EmiratesIslamic.statement_from st)
  /\ iso_boundary (EmiratesIslamic.statement_to st).
Proof.
  intros E. rewrite emirates_pages_lines in E.
  eapply (for_each_invariant (EmiratesIslamic.step nd)
            (fun s => iso_boundary (EmiratesIslamic.statement_from s)
                      /\ iso_boundary (EmiratesIslamic.statement_to s)));
    [| |exact E].
  - intros s x s'. apply emirates_step_iso.
  - split; now left.
Qed.

Lemma valid_other_year (y y' m d : Z) :
  Date.valid y m d = true -> (1 <= y' <= 9999)%Z ->
  (m = 2 -> d <> 29)%Z ->
  Date.valid y' m d = true.
Proof.
  unfold Date.valid, Date.days_in_month. intros H Hy Hfeb.
  repeat (apply andb_true_iff in H as [H ?]).
  repeat match goal with
         | H : (_ <=? _)%Z = true |- _ => apply Z.leb_le in H
         end.
  repeat (apply andb_true_iff; split); try (apply Z.leb_le; lia).
  apply Z.leb_le.
  destruct (m =? 2)%Z eqn:Em.
  - apply Z.eqb_eq in Em. specialize (Hfeb Em).
    destruct (Date.is_leap y), (Date.is_leap y'); lia.
  - destruct ((m =? 4) || (m =? 6) || (m =? 9) || (m =? 11))%Z; lia.
Qed.

(** ** C4: the year of a transaction date *)


(** Lines 146-159 on a period as [_parse_full_date] stores it: the date
    of the transaction with the year of the rule, when its day exists in
    the year of the to boundary; [replace(year=to_year)] raises
    otherwise. *)
Lemma resolve_year_iso (fd td d : Date.date) (txn : string) :
  Date.valid (Date.year fd) (Date.month fd) (Date.day fd) = true ->
  Date.valid (Date.year td) (Date.month td) (Date.day td) = true ->
  Date.strptime txn "%Y-%m-%d" = Py.Ok d ->
  EmiratesIslamic.resolve_year (Date.isoformat fd) (Date.isoformat td)
    (Some txn)
  = if Date.valid (Date.year td) (Date.month d) (Date.day d)
    then Py.Ok (Date.strftime
                  {| Date.year :=
                       resolved_year (Date.year fd) (Date.year td)
                         (Date.month td) (Date.month d);
                     Date.month := Date.month d;
                     Date.day := Date.day d |})
    else Py.Raise Py.ValueError.
Proof.
  intros Hfd Htd Hd.
  destruct (valid_bounds _ _ _ Hfd) as (Hfy & _ & _).
  destruct (valid_bounds _ _ _ Htd) as (Hty & _ & _).
  unfold EmiratesIslamic.resolve_year.
  replace (Py.take 4 (Date.isoformat fd)) with (Date.pad4 (Date.year fd))
    by (destruct fd; reflexivity).
  replace (Py.take 4 (Date.isoformat td)) with (Date.pad4 (Date.year td))
    by (destruct td; reflexivity).
  rewrite !int_of_pad4 by lia. rewrite Hd. cbn [Py.bind].
  unfold Date.replace_year at 1. unfold Date.make at 1.
  destruct (Date.valid (Date.year td) (Date.month d) (Date.day d)) eqn:Hvt;
    [|reflexivity].
  cbn [Py.bind]. rewrite (strptime_isoformat td Htd).
  cbn [Py.bind Date.month Date.day]. unfold resolved_year.
  destruct ((Date.month td <? 6) && (6 <? Date.month d))%Z eqn:Hc;
    [|reflexivity].
  unfold Date.replace_year, Date.make. cbn [Date.month Date.day].
  rewrite (valid_other_year (Date.year td) (Date.year fd)); auto.
  apply andb_true_iff in Hc as [_ Hc]. apply Z.ltb_lt in Hc. lia.
Qed.

Section YearExt.
Variables nd nd' : string -> string -> option string.


End YearExt.



(** ** The year rule on the period the parser resolved *)

(** X10.  The year resolution of [parse_emiratesislamic] never fails on
    the period the parser resolved itself: after any pages, when both
    boundaries are set and [normalize_date] renders the second date of
    a matched line as the ISO date of a day other than 29 February, the
    line gives its transaction, dated with the year of the to boundary,
    or of the from boundary when the to boundary is before June and the
    transaction after June, and written as [strftime] writes it (a year
    below 1000 without leading zeros). *)
Theorem resolved_period_never_blocks
    (normalize_date : string -> string -> option string)
    (pages : list (option string)) (st : EmiratesIslamic.state)
    (g : Re.caps) (d : Date.date) :
  EmiratesIslamic.pages_loop normalize_date EmiratesIslamic.initial pages
  = Py.Ok st ->
  Py.truthy (EmiratesIslamic.statement_from st) = true ->
  Py.truthy (EmiratesIslamic.statement_to st) = true ->
  normalize_date (Py.strip (Common.grp g 2)) "%d %b"
  = Some (Date.isoformat d) ->
  Date.valid (Date.year d) (Date.month d) (Date.day d) = true ->
  (Date.month d = 2%Z -> Date.day d <> 29%Z) ->
  exists fd td t,
    EmiratesIslamic.statement_from st = Some (Date.isoformat fd)
    /\ EmiratesIslamic.statement_to st = Some (Date.isoformat td)
    /\ EmiratesIslamic.emit normalize_date st g
       = Py.Ok {| EmiratesIslamic.transactions :=
                    EmiratesIslamic.transactions st ++ [t];
                  EmiratesIslamic.statement_from :=
                    EmiratesIslamic.statement_from st;
                  EmiratesIslamic.statement_to :=
                    EmiratesIslamic.statement_to st;
                  EmiratesIslamic.pending_range :=
                    EmiratesIslamic.pending_range st |}
    /\ Common.transaction_date t
       = Some (Date.strftime
                 {| Date.year :=
                      resolved_year (Date.year fd) (Date.year td)
                        (Date.month td) (Date.month d);
                    Date.month := Date.month d;
                    Date.day := Date.day d |}).
Proof.
  intros Hrun Hf Ht Hnd Hv Hfeb.
  destruct (emirates_pages_iso _ _ _ Hrun) as [If It].
  destruct If as [If|(fd & Hfd & If)];
    [rewrite If in Hf; discriminate Hf|].
  destruct It as [It|(td & Htd & It)];
    [rewrite It in Ht; discriminate Ht|].
  exists fd, td.
  destruct (valid_bounds _ _ _ Htd) as (Hty & _ & _).
  pose proof (resolve_year_iso fd td d (Date.isoformat d) Hfd Htd
                (strptime_isoformat d Hv)) as Hres.
  rewrite (valid_other_year (Date.year d) (Date.year td)) in Hres by auto.
  unfold EmiratesIslamic.emit. rewrite Hf, Ht, Hnd. cbn [andb].
  rewrite If, It. cbn [Num.text]. rewrite Hres. cbn [Py.bind].
  eexists. repeat split; reflexivity.
Qed.

Lemma resolved_period_never_blocks_witness :
  exists fd td t,
    EmiratesIslamic.statement_from winter_state = Some (Date.isoformat fd)
    /\ EmiratesIslamic.statement_to winter_state = Some (Date.isoformat td)
    /\ EmiratesIslamic.emit strptime_date winter_state august_groups
       = Py.Ok {| EmiratesIslamic.transactions :=
                    EmiratesIslamic.transactions winter_state ++ [t];
                  EmiratesIslamic.statement_from :=
                    EmiratesIslamic.statement_from winter_state;
                  EmiratesIslamic.statement_to :=
                    EmiratesIslamic.statement_to winter_state;
                  EmiratesIslamic.pending_range :=
                    EmiratesIslamic.pending_range winter_state |}
    /\ Common.transaction_date t
       = Some (Date.strftime
                 {| Date.year :=
                      resolved_year (Date.year fd) (Date.year td)
                        (Date.month td) 8;
                    Date.month := 8;
                    Date.day := 14 |}).
Proof.
  apply (resolved_period_never_blocks strptime_date
           [page_of ["From: 15th Dec 2024"; "To: 14th Jan 2025"]]
           winter_state august_groups
           {| Date.year := 1900; Date.month := 8; Date.day := 14 |}).
  - vm_compute. reflexivity.
  - reflexivity.
  - reflexivity.
  - vm_compute. reflexivity.
  - vm_compute. reflexivity.
  - cbn. discriminate.
Defined.

(** A period before the year 1000: the boundaries keep their four
    digits, the transaction is dated as [strftime] writes the year. *)
Lemma short_year_period :
  period_of (emirates_on strptime_date
               [page_of ["From: 15th Dec 0998"; "To: 14th Jan 0999"]])
  = Some (Some "0998-12-15", Some "0999-01-14")
  /\ dates_after strptime_date
       ["From: 15th Dec 0998"; "To: 14th Jan 0999";
        "16 AUG 14 AUG RTA-ETISALAT DUBAI ARE 100.00"]
     = Some [Some "998-08-14"].
Proof. split; vm_compute; reflexivity. Qed.

(** ** The lines the two loops walk *)

Lemma rstrip_idem (p : ascii -> bool) (s : string) :
  Py.rstrip_with p (Py.rstrip_with p s) = Py.rstrip_with p s.
Proof.
  induction s as [|c s IH]; [reflexivity|]. cbn [Py.rstrip_with].
  destruct ((Py.rstrip_with p s =? "")%string && p c) eqn:E; [reflexivity|].
  cbn [Py.rstrip_with]. now rewrite IH, E.
Qed.

Lemma lstrip_head (p : ascii -> bool) (s : string) (c : ascii) (u : string) :
  Py.lstrip_with p s = String c u -> p c = false.
Proof.
  induction s as [|a s IH]; cbn [Py.lstrip_with]; [discriminate|].
  destruct (p a) eqn:E; [exact IH|]. intros H. inversion H; subst. exact E.
Qed.

Lemma lstrip_rstrip_lstrip (p : ascii -> bool) (s : string) :
  Py.lstrip_with p (Py.rstrip_with p (Py.lstrip_with p s))
  = Py.rstrip_with p (Py.lstrip_with p s).
Proof.
  destruct (Py.lstrip_with p s) as [|c u] eqn:E; [reflexivity|].
  pose proof (lstrip_head p s c u E) as Hc.
  cbn [Py.rstrip_with]. rewrite Hc, andb_false_r.
  cbn [Py.lstrip_with]. now rewrite Hc.
Qed.

Lemma strip_strip (s : string) : Py.strip (Py.strip s) = Py.strip s.
Proof.
  unfold Py.strip. now rewrite lstrip_rstrip_lstrip, rstrip_idem.
Qed.

Lemma emirates_step_strip nd (st : EmiratesIslamic.state) (line : string) :
  EmiratesIslamic.step nd st (Py.strip line)
  = EmiratesIslamic.step nd st line.
Proof. unfold EmiratesIslamic.step. now rewrite strip_strip. Qed.

Lemma emirates_step_blank nd (st : EmiratesIslamic.state) (line : string) :
  (Py.strip line =? "")%string = true ->
  EmiratesIslamic.step nd st line = Py.Ok st.
Proof. intros H. unfold EmiratesIslamic.step. now rewrite H. Qed.

Lemma emirates_lines_trimmed nd (lines : list string) :
  forall st,
    Common.for_each (EmiratesIslamic.step nd) st lines
    = Common.for_each (EmiratesIslamic.step nd) st
        (map Py.strip
           (filter (fun ln => negb (Py.strip ln =? "")%string) lines)).
Proof.
  induction lines as [|x lines IH]; intros st; [reflexivity|].
  cbn [Common.for_each].
  destruct (Py.strip x =? "")%string eqn:E.
  - rewrite filter_cons_False by (rewrite E; exact (fun H => H)).
    rewrite (emirates_step_blank nd st x E). cbn [Py.bind]. apply IH.
  - rewrite filter_cons_True by (rewrite E; exact I).
    cbn [map Common.for_each]. rewrite emirates_step_strip.
    destruct (EmiratesIslamic.step nd st x); cbn [Py.bind];
      [apply IH | reflexivity].
Qed.

Lemma emirates_page_trimmed nd (st : EmiratesIslamic.state)
  (page : option string) :
  EmiratesIslamic.page_step nd st page
  = Common.for_each (EmiratesIslamic.step nd) st
      (Rakbank.page_lines (Common.page_text page)).
Proof.
  unfold EmiratesIslamic.page_step, Rakbank.page_lines.
  apply emirates_lines_trimmed.
Qed.

(** X11.  Both parsers walk the same lines: the text of a page split
    at line boundaries, each line trimmed, blank lines left out.
    [parse_rakbank] builds that list, every line of which is non-empty
    and is its own trimmed form; the loop of [parse_emiratesislamic]
    over the raw lines gives what it gives over that list, so white
    space around a line and blank lines never matter. *)
Theorem lines_trimmed
    (normalize_date : string -> string -> option string)
    (st : EmiratesIslamic.state) (page : option string) :
  Forall (fun l => l <> "" /\ Py.strip l = l)
    (Rakbank.page_lines (Common.page_text page))
  /\ EmiratesIslamic.page_step normalize_date st page
     = Common.for_each (EmiratesIslamic.step normalize_date) st
         (Rakbank.page_lines (Common.page_text page)).
Proof.
  split.
  - unfold Rakbank.page_lines.
    induction (Py.splitlines (Common.page_text page)) as [|x l IH];
      [constructor|].
    destruct (Py.strip x =? "")%string eqn:E.
    + now rewrite filter_cons_False by (rewrite E; exact (fun H => H)).
    + rewrite filter_cons_True by (rewrite E; exact I). cbn [map].
      constructor; [|exact IH]. split; [|apply strip_strip].
      intros H. rewrite H in E. discriminate E.
  - apply emirates_page_trimmed.
Qed.

Lemma rakbank_blank_pages nd (pages : list (option string)) :
  Forall (fun p => Rakbank.page_lines (Common.page_text p) = []) pages ->
  Rakbank.pages_loop nd Rakbank.initial pages = Py.Ok Rakbank.initial.
Proof.
  induction 1 as [|p ps Hp Hps IH]; [reflexivity|].
  cbn [Rakbank.pages_loop]. unfold Rakbank.page_step. rewrite Hp.
  cbn [Common.for_each Py.bind]. exact IH.
Qed.

Lemma emirates_blank_pages nd (pages : list (option string)) :
  Forall (fun p => Rakbank.page_lines (Common.page_text p) = []) pages ->
  forall st, EmiratesIslamic.pages_loop nd st pages = Py.Ok st.
Proof.
  induction 1 as [|p ps Hp Hps IH]; intros st; [reflexivity|].
  cbn [EmiratesIslamic.pages_loop].
  rewrite emirates_page_trimmed, Hp.
  cbn [Common.for_each Py.bind]. apply IH.
Qed.

(** X12.  A document without a line of text (no page, pages without
    text, pages of white space) is parsed without failure by both
    parsers: the list handed to [normalize_transactions] is empty and
    neither boundary of the period is set. *)
Theorem blank_document
    (S : Type) (normalize_date : string -> string -> option string)
    (normalize_transactions :
       list Common.Transaction -> string -> string -> list Common.Transaction)
    (summarize_transactions : list Common.Transaction -> S)
    (file_path : string) (password : option string)
    (pages : list (option string)) :
  Forall (fun p => Rakbank.page_lines (Common.page_text p) = []) pages ->
  Rakbank.parse_rakbank S (fun _ _ => Common.OpenedPdf pages) normalize_date
    normalize_transactions summarize_transactions file_path password
  = Py.Ok (Common.Parsed
             {| Common.st_bank := "RAKBANK";
                Common.st_card_type := "credit";
                Common.st_summary :=
                  summarize_transactions
                    (normalize_transactions [] "RAKBANK" "credit");
                Common.st_transactions :=
                  normalize_transactions [] "RAKBANK" "credit";
                Common.st_from_date := None;
                Common.st_to_date := None |})
  /\ EmiratesIslamic.parse_emiratesislamic S
       (fun _ _ => Common.OpenedPdf pages) normalize_date
       normalize_transactions summarize_transactions file_path password
     = Py.Ok (Common.Parsed
                {| Common.st_bank := "Emirates Islamic";
                   Common.st_card_type := "credit";
                   Common.st_summary :=
                     summarize_transactions
                       (normalize_transactions [] "Emirates Islamic" "credit");
                   Common.st_transactions :=
                     normalize_transactions [] "Emirates Islamic" "credit";
                   Common.st_from_date := None;
                   Common.st_to_date := None |}).
Proof.
  intros Hblank. split.
  - unfold Rakbank.parse_rakbank.
    now rewrite (rakbank_blank_pages normalize_date pages Hblank).
  - unfold EmiratesIslamic.parse_emiratesislamic.
    now rewrite (emirates_blank_pages normalize_date pages Hblank).
Qed.

Lemma blank_document_witness :
  period_of (rakbank_on
               [None; Some ""; Some (" " +:+ String "010" (String "009" ""))])
  = Some (None, None)
  /\ parsed_transactions
       (emirates_on keep_date
          [None; Some ""; Some (" " +:+ String "010" (String "009" ""))])
     = [].
Proof.
  destruct (blank_document unit keep_date keep_all no_summary
              "statement.pdf" None
              [None; Some ""; Some (" " +:+ String "010" (String "009" ""))])
    as [HR HE].
  - repeat constructor.
  - unfold rakbank_on, emirates_on. rewrite HR, HE. split; reflexivity.
Defined.

(** ** Lines of transaction shape *)

Lemma line_regex_head (raw : string) :
  Re.match_ EmiratesIslamic.LINE_REGEX raw <> None ->
  exists a t, raw = String a t /\ Py.isdigit a = true.
Proof.
  unfold Re.match_. destruct raw as [|a t].
  - intros H. contradiction H. reflexivity.
  - intros H. exists a, t. split; [reflexivity|].
    destruct (Py.isdigit a) eqn:Ha; [reflexivity|].
    contradiction H.
    cbn [Re.run EmiratesIslamic.LINE_REGEX Re.seqs EmiratesIslamic.day_month
         Re.rep Re.digit].
    rewrite Nat.eqb_refl, Ha. reflexivity.
Qed.

Lemma digit_not_letter (a : ascii) :
  Py.isdigit a = true ->
  Ascii.eqb (Py.lower_char a) (Py.lower_char "F") = false
  /\ Ascii.eqb (Py.lower_char a) (Py.lower_char "T") = false
  /\ Py.mem_char a ":" = false
  /\ Py.isdigit (Py.lower_char a) = true.
Proof.
  destruct a as [[] [] [] [] [] [] [] []]; vm_compute; intros H;
    try discriminate H; auto.
Qed.

Lemma from_to_regex_digit (a : ascii) (t : string) :
  Py.isdigit a = true ->
  Re.match_ EmiratesIslamic.FROM_TO_REGEX (String a t) = None.
Proof.
  intros Ha. unfold Re.match_.
  destruct (digit_not_other a Ha) as (Hs & _).
  destruct (digit_not_letter a Ha) as (HF & HT & _).
  cbn [Re.run EmiratesIslamic.FROM_TO_REGEX Re.seqs Re.star Re.space Re.lit
       Re.chr String.length].
  rewrite Nat.eqb_refl, Hs, HF, HT. reflexivity.
Qed.

Lemma strip_head (a : ascii) (t : string) :
  Py.isspace a = false ->
  exists u, Py.strip (String a t) = String a u.
Proof.
  intros Ha. unfold Py.strip. cbn [Py.lstrip_with]. rewrite Ha.
  cbn [Py.rstrip_with]. rewrite Ha, andb_false_r. eauto.
Qed.

Lemma range_token_digit (a : ascii) (t : string) :
  Py.isdigit a = true ->
  EmiratesIslamic._normalize_range_token (String a t) = None.
Proof.
  intros Ha. unfold EmiratesIslamic._normalize_range_token.
  destruct (digit_not_other a Ha) as (Hs & _).
  destruct (digit_not_letter a Ha) as (_ & _ & Hc & Hl).
  destruct (strip_head a t Hs) as [u ->].
  unfold Py.strip_chars. cbn [Py.lstrip_with]. rewrite Hc.
  cbn [Py.rstrip_with]. rewrite Hc, andb_false_r.
  cbn [Py.lower]. remember (Py.lower_char a) as b eqn:Eb.
  remember (Py.lower (Py.rstrip_with (fun c => Py.mem_char c ":") u))
    as tl eqn:Etl.
  clear Eb Etl.
  assert (Hne : forall k, Py.isdigit k = false ->
                  forall ks, (String b tl =? String k ks)%string = false).
  { intros k Hk ks. apply String.eqb_neq. intros E. inversion E; subst.
    congruence. }
  change "from" with (String "f" "rom"). change "to" with (String "t" "o").
  rewrite !Hne by reflexivity. cbn [String.eqb orb].
  apply not_elem_of_list_to_map_1. cbn [fmap list_fmap fst].
  intros Hin.
  repeat (apply elem_of_cons in Hin as [Hin|Hin];
          [injection Hin as Hb _; rewrite Hb in Hl; vm_compute in Hl;
           discriminate Hl|]).
  inversion Hin.
Qed.

(** X13.  In [parse_emiratesislamic] a line of transaction shape is
    never taken for a period line: it is not a labelled From/To line
    and not a bare marker (it starts with a digit), so unless it holds
    a boilerplate phrase, or a marker is pending and the line parses as
    a full date, the loop builds its transaction. *)
Theorem transaction_line_priority
    (normalize_date : string -> string -> option string)
    (st : EmiratesIslamic.state) (line rest : string) (g : Re.caps) :
  Py.any_in EmiratesIslamic.SKIP_KEYWORDS (Py.lower (Py.strip line)) = false ->
  Re.match_ EmiratesIslamic.LINE_REGEX (Py.strip line) = Some (rest, g) ->
  Py.truthy (EmiratesIslamic.pending_range st) = false
  \/ Py.truthy (EmiratesIslamic._parse_full_date (Py.strip line)) = false ->
  Re.match_ EmiratesIslamic.FROM_TO_REGEX (Py.strip line) = None
  /\ EmiratesIslamic._normalize_range_token (Py.strip line) = None
  /\ EmiratesIslamic.step normalize_date st line
     = EmiratesIslamic.emit normalize_date st g.
Proof.
  intros Hskip Hm Hpend.
  destruct (line_regex_head (Py.strip line)) as (a & t & Hraw & Ha);
    [rewrite Hm; discriminate|].
  assert (Hlab : Re.match_ EmiratesIslamic.FROM_TO_REGEX (Py.strip line)
                 = None) by (rewrite Hraw; now apply from_to_regex_digit).
  assert (Htok : EmiratesIslamic._normalize_range_token (Py.strip line)
                 = None) by (rewrite Hraw; now apply range_token_digit).
  split; [exact Hlab|]. split; [exact Htok|].
  unfold EmiratesIslamic.step, EmiratesIslamic.match_line.
  rewrite Hskip, Hlab, Htok, Hm. cbn [Py.truthy].
  replace (Py.strip line =? "")%string with false
    by (rewrite Hraw; reflexivity).
  destruct Hpend as [Hp|Hp]; rewrite Hp; [reflexivity|].
  destruct (Py.truthy (EmiratesIslamic.pending_range st)); reflexivity.
Qed.

Lemma transaction_line_priority_witness :
  Re.match_ EmiratesIslamic.FROM_TO_REGEX
    (Py.strip "16 AUG 14 AUG RTA-ETISALAT DUBAI ARE 100.00") = None
  /\ EmiratesIslamic._normalize_range_token
       (Py.strip "16 AUG 14 AUG RTA-ETISALAT DUBAI ARE 100.00") = None
  /\ EmiratesIslamic.step strptime_date winter_state
       "16 AUG 14 AUG RTA-ETISALAT DUBAI ARE 100.00"
     = EmiratesIslamic.emit strptime_date winter_state august_groups.
Proof.
  apply (transaction_line_priority strptime_date winter_state
           "16 AUG 14 AUG RTA-ETISALAT DUBAI ARE 100.00" "" august_groups).
  - vm_compute. reflexivity.
  - vm_compute. reflexivity.
  - left. reflexivity.
Defined.

(** ** The two [clean_amount] *)

Lemma replace_absent (old new s : string) :
  Py.contains old s = false -> Py.replace old new s = s.
Proof.
  unfold Py.replace. induction s as [|a s IH]; [reflexivity|].
  cbn [Py.contains Py.replace_from]. intros H.
  apply orb_false_iff in H as [Hp Hc]. rewrite Hp. f_equal. now apply IH.
Qed.

(** X14.  On a token that holds no mixed-case marker [Cr] once commas
    and [CR] are taken out, the [clean_amount] of [emiratesislamic.py]
    is the one of [rakbank.py] with a failure turned into [0.0]; on
    [None] both give [0.0]. *)
Theorem clean_amount_siblings (v : string) :
  Py.contains "Cr" (Py.replace "CR" "" (Py.replace "," "" v)) = false ->
  EmiratesIslamic.clean_amount (Some v)
  = match Rakbank.clean_amount (Some v) with
    | Py.Ok x => x
    | Py.Raise _ => Num.zero
    end
  /\ EmiratesIslamic.clean_amount None = Num.zero
  /\ Rakbank.clean_amount None = Py.Ok Num.zero.
Proof.
  intros H. split; [|split; reflexivity].
  unfold EmiratesIslamic.clean_amount, Rakbank.clean_amount.
  destruct (v =? "")%string; [reflexivity|].
  rewrite (replace_absent "Cr" "" _ H).
  destruct (Num.float_of_str _); reflexivity.
Qed.

Lemma clean_amount_siblings_witness :
  EmiratesIslamic.clean_amount (Some "1,234.56CR")
  = match Rakbank.clean_amount (Some "1,234.56CR") with
    | Py.Ok x => x
    | Py.Raise _ => Num.zero
    end
  /\ EmiratesIslamic.clean_amount None = Num.zero
  /\ Rakbank.clean_amount None = Py.Ok Num.zero.
Proof.
  apply (clean_amount_siblings "1,234.56CR"). vm_compute. reflexivity.
Defined.

(** ** The period of [parse_rakbank] *)

Lemma for_each_invariant_in {St : Type} (body : St -> string -> Py.res St)
  (P : St -> Prop) (all : list string) :
  (forall s x s', In x all -> P s -> body s x = Py.Ok s' -> P s') ->
  forall lines, incl lines all ->
    forall st st', P st -> Common.for_each body st lines = Py.Ok st' -> P st'.
Proof.
  intros Hstep lines. induction lines as [|x lines IH];
    intros Hincl st st' HP Hrun; simpl in Hrun.
  - now inversion Hrun; subst.
  - destruct (body st x) as [s1|e] eqn:E; simpl in Hrun; [|discriminate].
    apply (IH (fun y Hy => Hincl y (or_intror Hy)) s1 st'); [|exact Hrun].
    apply (Hstep st x s1); auto. apply Hincl. now left.
Qed.

Lemma period_source_same nd (all : list string) (s s' : Rakbank.state) :
  Rakbank.statement_from s' = Rakbank.statement_from s ->
  Rakbank.statement_to s' = Rakbank.statement_to s ->
  period_source nd all s -> period_source nd all s'.
Proof.
  unfold period_source, period_from_line. intros Hf Ht. rewrite Hf, Ht.
  exact (fun H => H).
Qed.

Lemma rakbank_step_period_source nd (all : list string)
  (s : Rakbank.state) (x : string) (s' : Rakbank.state) :
  In x all -> period_source nd all s ->
  Rakbank.step nd s x = Py.Ok s' -> period_source nd all s'.
Proof.
  intros Hin Hs H. unfold Rakbank.step, Py.bind in H.
  destruct (Py.any_in _ _) eqn:Hskip; [now inversion H; subst|].
  destruct (Py.contains "statement period" _) eqn:Hper.
  - destruct (Re.search _ _) as [[rest g]|] eqn:Hsearch;
      inversion H; subst; [|exact Hs].
    right. exists x. split; [exact Hin|]. exists rest, g.
    repeat split; auto.
  - break_tests H; inversion H; subst;
      (eapply period_source_same; [| |exact Hs]); reflexivity.
Qed.

Lemma rakbank_pages_period_source nd (all : list string)
  (pages : list (option string)) :
  incl (rakbank_lines pages) all ->
  forall st st', period_source nd all st ->
    Rakbank.pages_loop nd st pages = Py.Ok st' ->
    period_source nd all st'.
Proof.
  induction pages as [|p ps IH]; intros Hincl st st' Hst Hrun;
    simpl in Hrun.
  - now inversion Hrun; subst.
  - destruct (Rakbank.page_step nd st p) as [s1|e] eqn:E; simpl in Hrun;
      [|discriminate].
    unfold rakbank_lines in Hincl. simpl in Hincl.
    apply (IH (fun y Hy => Hincl y (in_or_app _ _ _ (or_intror Hy))) s1 st');
      [|exact Hrun].
    unfold Rakbank.page_step in E.
    eapply (for_each_invariant_in (Rakbank.step nd) (period_source nd all)
              all (rakbank_step_period_source nd all));
      [| |exact E].
    + intros y Hy. apply Hincl, in_or_app. now left.
    + eapply period_source_same; [| |exact Hst]; reflexivity.
Qed.

(** X15.  The period [parse_rakbank] ends with is not set at all, or
    both its boundaries come from one and the same line of the
    document: a line without a boilerplate phrase that holds
    "statement period" and in which the period pattern is found; they
    are what [normalize_date] gives for the two dates of that line,
    spaces taken out.  The two boundaries are never taken from
    different lines, and never from a transaction or a free line. *)
Theorem rakbank_period_single_line
    (normalize_date : string -> string -> option string)
    (pages : list (option string)) (st : Rakbank.state) :
  Rakbank.pages_loop normalize_date Rakbank.initial pages = Py.Ok st ->
  period_source normalize_date (rakbank_lines pages) st.
Proof.
  intros Hrun.
  apply (rakbank_pages_period_source normalize_date (rakbank_lines pages)
           pages (fun y Hy => Hy) Rakbank.initial st); [|exact Hrun].
  left. split; reflexivity.
Qed.

Lemma rakbank_period_single_line_witness :
  period_source strptime_date
    (rakbank_lines
       [page_of ["Statement Period: 15/08/2025 TO 14/09/2025"; store_line]])
    {| Rakbank.transactions := Rakbank.transactions
         (match Rakbank.pages_loop strptime_date Rakbank.initial
                  [page_of ["Statement Period: 15/08/2025 TO 14/09/2025";
                            store_line]] with
          | Py.Ok s => s
          | Py.Raise _ => Rakbank.initial
          end);
       Rakbank.statement_from := Some "2025-08-15";
       Rakbank.statement_to := Some "2025-09-14";
       Rakbank.buffer_desc := [] |}.
Proof.
  apply (rakbank_period_single_line strptime_date
           [page_of ["Statement Period: 15/08/2025 TO 14/09/2025";
                     store_line]]).
  vm_compute. reflexivity.
Defined.
